(** * SkyDB: a shallow embedding of the registry-entry key-value layer

    The definitions come first and follow the sources file by file:

    - [JS]: the JavaScript values the sources compute with (numbers,
      strings, byte arrays, objects, truthiness, [typeof], object spread,
      the [in] operator);
    - [StringUtils], [StringConv]: utils/string.ts ([trimPrefix],
      [trimSuffix], [trimUriPrefix], [isHexString], [toHexString],
      [hexToUint8Array]);
    - [Validation]: utils/validation.js;
    - [Number]: utils/number.js ([MAX_REVISION], [assertUint64]);
    - [Net]: asynchronous code as a tree of requests, and portals that
      answer them;
    - [Externals], [LegacyExternals]: what the sources import from files
      that are not part of them, as parameters;
    - [Download]: download.js ([validateRegistryProofResponse]);
    - [SkyDB]: skydb.js, the engine ([getJSON], [setJSON], [getEntryData],
      [setEntryData], [getRawBytes], the delete operations and helpers);
    - [LegacyRegistry]: the first registry client ([lookupRegistry],
      [updateRegistry]);
    - [Fixture]: an instance of the parameters and a scripted portal;
    - [StringTools]: utils/string.ts ([isASCIIString]) and the copies of
      an affix the trims remove;
    - [Traffic]: the requests of a log by kind;
    - [DownloadResponse]: download.js, the validation of responses
      ([validateGetFileContentResponse], [validateGetMetadataResponse],
      [validateResolveHnsResponse], [extractGetFileContentResponse]);
    - [SkyDBRaw]: skydb.js ([getOrCreateRawBytesRegistryEntry]) and the
      protocol of the public calls;
    - [UrlExternals], [FileContent]: download.js, the download itself
      ([getSkylinkUrlForPortal], [getSkylinkUrl], [getFileContentRequest],
      [getFileContent]), and the engine with it in the place of the call
      ([with_download]);
    - [Scenario]: a portal that holds one entry, and more data for the
      examples.

    The properties follow: [StringFacts], [NetFacts], [SkyDBFacts],
    [DownloadFacts], [SpreadFacts], [LegacyFacts], and [Examples], the
    theorems at work on the fixture; then [TrimFacts], [HexFacts],
    [NumberFacts], [EngineFacts], [ResponseFacts], [OptionFacts],
    [LegacyRequests], [InputFacts], and [Scenarios], these at work on the
    fixture.

    Asynchronous code is embedded as a tree: a node is a request the client
    sends, its children are the continuations on the request's possible
    outcomes; a portal interprets the tree and the requests sent are
    logged. *)

From stdpp Require Import gmap strings list fin_maps pretty.
From Stdlib Require Import ZArith Ascii String Lia.

#[local] Set Warnings "-register-all".
#[local] Open Scope string_scope.
#[local] Open Scope Z_scope.

(* ===================================================================== *)
(** * JavaScript values *)
(* ===================================================================== *)

Module JS.

(** A JavaScript [number].  Every finite double is [m * 2^e] for integers
    [m] and [e]; the sign of zero plays no role below. *)
Inductive number : Type :=
| NaN
| Infinity
| NegInfinity
| Finite (m e : Z).

(** [n <= 0]: every comparison with [NaN] is false. *)
Definition number_le0 (n : number) : bool :=
  match n with
  | NaN => false
  | Infinity => false
  | NegInfinity => true
  | Finite m _ => m <=? 0
  end.

(** Truthiness of a number: [0] and [NaN] are falsy. *)
Definition number_truthy (n : number) : bool :=
  match n with
  | NaN => false
  | Infinity | NegInfinity => true
  | Finite m _ => negb (m =? 0)
  end.

(** [n - 1].  On [NaN] and the infinities the result is the operand.  On a
    finite operand the subtraction is written exactly; doubles agree with it
    on the integers of magnitude at most [2^53], the only finite operands
    the theorems below put through it. *)
Definition number_pred (n : number) : number :=
  match n with
  | Finite m 0 => Finite (m - 1) 0
  | Finite m (Zpos p) => Finite (m * 2 ^ Zpos p - 1) 0
  | Finite m (Zneg p) => Finite (m - 2 ^ Zpos p) (Zneg p)
  | other => other
  end.

(** The integer [z] as a number. *)
Definition of_Z (z : Z) : number := Finite z 0.

(** [Number.MAX_SAFE_INTEGER + 1]: up to here integers and [- 1] are exact. *)
Definition SAFE_BOUND : Z := 2 ^ 53.

Abbreviation bytes := (list Z).

(** Values.  Functions and symbols do not occur in the sources' data. *)
Inductive JSValue : Type :=
| JUndefined
| JNull
| JBool (b : bool)
| JNumber (n : number)
| JBigInt (z : Z)
| JString (s : string)
| JUint8Array (b : bytes)
| JArray (l : list JSValue)
| JObject (m : gmap string JSValue).

(** [typeof v] *)
Definition typeof (v : JSValue) : string :=
  match v with
  | JUndefined => "undefined"
  | JNull => "object"
  | JBool _ => "boolean"
  | JNumber _ => "number"
  | JBigInt _ => "bigint"
  | JString _ => "string"
  | JUint8Array _ | JArray _ | JObject _ => "object"
  end.

(** [if (v)]: the falsy values are [undefined], [null], [false], [0],
    [NaN], [0n] and the empty string. *)
Definition truthy (v : JSValue) : bool :=
  match v with
  | JUndefined | JNull => false
  | JBool b => b
  | JNumber n => number_truthy n
  | JBigInt z => negb (z =? 0)
  | JString s => negb (String.eqb s "")
  | JUint8Array _ | JArray _ | JObject _ => true
  end.

Definition is_null (v : JSValue) : bool :=
  match v with JNull => true | _ => false end.

Definition is_undefined (v : JSValue) : bool :=
  match v with JUndefined => true | _ => false end.

(** The characters of a string, one one-character string each. *)
Fixpoint chars (s : string) : list string :=
  match s with
  | EmptyString => []
  | String c s' => String c EmptyString :: chars s'
  end.

(** An array-like as an object: index [i] under the key [pretty i]. *)
Definition indexed {A} (f : A -> JSValue) (l : list A) : gmap string JSValue :=
  list_to_map (imap (fun i x => (pretty i, f x)) l).

(** The own enumerable string-keyed properties of a value: what
    [{...v}] copies and, for the objects here, what [for (p in v)] visits. *)
Definition own_properties (v : JSValue) : gmap string JSValue :=
  match v with
  | JObject m => m
  | JArray l => indexed id l
  | JUint8Array b => indexed (fun x => JNumber (of_Z x)) b
  | JString s => indexed JString (chars s)
  | _ => ∅
  end.

(** [{...a, ...b}]: the properties of [b] override those of [a]. *)
Definition spread (a b : gmap string JSValue) : gmap string JSValue := b ∪ a.

(** [v[k]] for a string key [k] on a plain object (no inherited data
    property is read by the sources); [undefined] when absent. *)
Definition get_prop (v : JSValue) (k : string) : JSValue :=
  match v with
  | JObject m => default JUndefined (m !! k)
  | _ => JUndefined
  end.

(** The properties every object literal inherits from [Object.prototype]:
    [k in o] holds for them whatever [o]'s own properties are. *)
Definition OBJECT_PROTOTYPE_KEYS : list string :=
  [ "constructor"; "__defineGetter__"; "__defineSetter__"; "hasOwnProperty";
    "__lookupGetter__"; "__lookupSetter__"; "isPrototypeOf";
    "propertyIsEnumerable"; "toString"; "valueOf"; "__proto__";
    "toLocaleString" ].

(** [k in model] for a model that is an object literal. *)
Definition js_in (k : string) (model : gmap string JSValue) : bool :=
  bool_decide (is_Some (model !! k)) || bool_decide (k ∈ OBJECT_PROTOTYPE_KEYS).

End JS.
Export JS.

(* ===================================================================== *)
(** * Errors and results *)
(* ===================================================================== *)

(** How a request fails: the transport rejects it, with the status of the
    portal's answer when there was one (axios rejects every status outside
    200..299) and with none when the network failed, or the method that
    sends it throws. *)
Record Rejection : Type := {
  rejected_status : option Z;
  reason : string
}.

(** What the sources throw.  A thrown [Error] with a constant message is
    [Err message]; where the message interpolates values, the interpolated
    parts are the constructor's arguments. *)
Inductive Error : Type :=
| ValidationError (name valueKind expected : string)
  (** [validationError(name, value, valueKind, expected)]:
      Expected [valueKind] '[name]' to be [expected], was ... *)
| UnexpectedProperty (valueKind name : string)
  (** Object [valueKind] '[name]' contains unexpected property '...' *)
| Err (message : string)
| ErrCause (message : string) (cause : Error)
  (** a constant message followed by the interpolated caught error *)
| NotJSON (dataKey : string)
  (** File data for the entry at data key '[dataKey]' is not JSON. *)
| DataNotJSON (dataKey : string)
  (** File data '_data' for the entry at data key '[dataKey]' is not JSON. *)
| UnexpectedStatus (status : Z)
  (** unexpected response status code [status] *)
| Rejected (why : Rejection)
  (** the rejection of a request, thrown on by [await] *)
| TypeError (reading : string)
  (** the [TypeError] of the language for a property read on [undefined]
      or [null]: Cannot read properties of ... (reading '[reading]') *)
| PathNotString (type : string)
  (** opts.path has to be a string, [type] provided *)
| NoSkylink (input : string)
  (** Could not get skylink out of input '[input]' *)
| NoSkylinkWithPath (input : string)
  (** Could not get skylink with path out of input '[input]' *)
| InvalidTypedArray
  (** what [new Uint8Array(value)] throws: a [RangeError] for a length
      that is none, a [TypeError] for a [bigint] *).

Definition Result (A : Type) : Type := Error + A.

Definition ok {A} (a : A) : Result A := inr a.
Definition throw {A} (e : Error) : Result A := inl e.

(** [v.k] where [v] may be [undefined] or [null]: the read throws there.
    (The properties read this way are no property of a string or an
    array.) *)
Definition member (v : JSValue) (k : string) : Result JSValue :=
  match v with
  | JUndefined | JNull => throw (TypeError k)
  | _ => ok (get_prop v k)
  end.

Definition rbind {A B} (r : Result A) (k : A -> Result B) : Result B :=
  match r with
  | inl e => inl e
  | inr a => k a
  end.

Declare Scope result_scope.
Delimit Scope result_scope with result.
Notation "x <- r ;; k" := (rbind r (fun x => k))
  (at level 100, r at next level, right associativity) : result_scope.
Notation "r ;; k" := (rbind r (fun _ => k))
  (at level 100, right associativity) : result_scope.

(* ===================================================================== *)
(** * utils/string.ts *)
(* ===================================================================== *)

Module StringUtils.

(** [str.startsWith(prefix)] *)
Definition startsWith (str prefix : string) : bool := String.prefix prefix str.

(** [str.slice(n)] for [0 <= n]: the string without its first [n]
    characters, empty when [n] exceeds the length. *)
Fixpoint slice (str : string) (n : nat) : string :=
  match n, str with
  | O, _ => str
  | S n', String _ rest => slice rest n'
  | S _, EmptyString => EmptyString
  end.

(** [str.substring(0, n)] for [0 <= n]: the first [n] characters. *)
Fixpoint substring0 (str : string) (n : nat) : string :=
  match n, str with
  | O, _ => EmptyString
  | S n', String c rest => String c (substring0 rest n')
  | S _, EmptyString => EmptyString
  end.

(** [str.endsWith(suffix)] *)
Definition endsWith (str suffix : string) : bool :=
  (String.length suffix <=? String.length str)%nat &&
  String.eqb (slice str (String.length str - String.length suffix)) suffix.

(** The optional [limit] parameter: [None] is [undefined]. *)
Abbreviation Limit := (option number).

(** [limit !== undefined && limit <= 0] *)
Definition limit_reached (limit : Limit) : bool :=
  match limit with
  | None => false
  | Some n => number_le0 n
  end.

(** [if (limit) { limit -= 1; }] *)
Definition limit_step (limit : Limit) : Limit :=
  match limit with
  | None => None
  | Some n => if number_truthy n then Some (number_pred n) else Some n
  end.

(** One evaluation of a [while] loop: the loop is left with a value, or its
    body has run and the variables are the new ones. *)
Inductive Iteration : Type :=
| Leave (str : string)
| Again (str : string) (limit : Limit).

(** The test and body of the loop of [trimPrefix]. *)
Definition trimPrefix_iteration (prefix str : string) (limit : Limit) : Iteration :=
  if startsWith str prefix then
    if limit_reached limit then Leave str
    else Again (slice str (String.length prefix)) (limit_step limit)
  else Leave str.

(** The test and body of the loop of [trimSuffix]. *)
Definition trimSuffix_iteration (suffix str : string) (limit : Limit) : Iteration :=
  if endsWith str suffix then
    if limit_reached limit then Leave str
    else Again (substring0 str (String.length str - String.length suffix))
               (limit_step limit)
  else Leave str.

(** A [while] loop run for at most [fuel] evaluations of its test: [None]
    when the loop is still running after them. *)
Fixpoint while (iteration : string -> Limit -> Iteration) (fuel : nat)
    (str : string) (limit : Limit) : option string :=
  match fuel with
  | O => None
  | S fuel' =>
      match iteration str limit with
      | Leave r => Some r
      | Again str' limit' => while iteration fuel' str' limit'
      end
  end.

(** [trimPrefix(str, prefix, limit)] within [fuel] iterations. *)
Definition trimPrefix (fuel : nat) (str prefix : string) (limit : Limit) : option string :=
  while (trimPrefix_iteration prefix) fuel str limit.

(** [trimSuffix(str, suffix, limit)] within [fuel] iterations. *)
Definition trimSuffix (fuel : nat) (str suffix : string) (limit : Limit) : option string :=
  while (trimSuffix_iteration suffix) fuel str limit.






(** [trimSuffix] with a non-empty suffix removes it in at most
    [length str] iterations; the total function used by [trimUriPrefix] and
    [trimForwardSlash], which pass "/" and no limit. *)
Definition trimSuffix_total (str suffix : string) : string :=
  default str (trimSuffix (S (String.length str)) str suffix None).

Definition trimPrefix_total (str prefix : string) : string :=
  default str (trimPrefix (S (String.length str)) str prefix None).

(** [trimForwardSlash(str)] *)
Definition trimForwardSlash (str : string) : string :=
  trimPrefix_total (trimSuffix_total str "/") "/".

(** [trimUriPrefix(str, prefix)] *)
Definition trimUriPrefix (str prefix : string) : string :=
  let shortPrefix := trimSuffix_total prefix "/" in
  if startsWith str prefix then slice str (String.length prefix)
  else if startsWith str shortPrefix then slice str (String.length shortPrefix)
  else str.

(** [/^[0-9A-Fa-f]*$/.test(str)] *)
Definition is_hex_digit (c : ascii) : bool :=
  let n := nat_of_ascii c in
  ((48 <=? n) && (n <=? 57) || (65 <=? n) && (n <=? 70) || (97 <=? n) && (n <=? 102))%nat.

Fixpoint isHexString (str : string) : bool :=
  match str with
  | EmptyString => true
  | String c rest => is_hex_digit c && isHexString rest
  end.

(** The value of a hexadecimal digit. *)
Definition hex_value (c : ascii) : Z :=
  let n := Z.of_nat (nat_of_ascii c) in
  if (48 <=? n) && (n <=? 57) then n - 48
  else if (65 <=? n) && (n <=? 70) then n - 55
  else n - 87.

(** The digit of a value below sixteen, in lower case as [toString(16)]
    prints it. *)
Definition hex_digit (v : Z) : ascii :=
  ascii_of_nat (Z.to_nat (if v <? 10 then v + 48 else v + 87)).

(** [toHexString(byteArray)]: two digits per byte, of [byte & 0xff]. *)
Fixpoint toHexString (byteArray : bytes) : string :=
  match byteArray with
  | [] => EmptyString
  | b :: rest =>
      let v := Z.land b 255 in
      String (hex_digit (v / 16)) (String (hex_digit (v mod 16)) (toHexString rest))
  end.

(** [str.match(/.{1,2}/g).map((byte) => parseInt(byte, 16))] on a string of
    hexadecimal digits: two digits a byte, a last single digit a byte. *)
Fixpoint hex_pairs (str : string) : bytes :=
  match str with
  | EmptyString => []
  | String c EmptyString => [hex_value c]
  | String c (String d rest) => (hex_value c * 16 + hex_value d) :: hex_pairs rest
  end.

End StringUtils.

(* ===================================================================== *)
(** * utils/validation.js *)
(* ===================================================================== *)

Module Validation.

#[local] Open Scope result_scope.

(** [throwValidationError(name, value, valueKind, expected)] *)
Definition throwValidationError {A} (name valueKind expected : string) : Result A :=
  throw (ValidationError name valueKind expected).

Definition validateBigint (name : string) (value : JSValue) (valueKind : string) : Result unit :=
  if String.eqb (typeof value) "bigint" then ok tt
  else throwValidationError name valueKind "type 'bigint'".

Definition validateBoolean (name : string) (value : JSValue) (valueKind : string) : Result unit :=
  if String.eqb (typeof value) "boolean" then ok tt
  else throwValidationError name valueKind "type 'boolean'".

Definition validateObject (name : string) (value : JSValue) (valueKind : string) : Result unit :=
  (if String.eqb (typeof value) "object" then ok tt
   else throwValidationError name valueKind "type 'object'") ;;
  if is_null value then throwValidationError name valueKind "non-null"
  else ok tt.

(** The loop of [validateOptionalObject]: every property the [for ... in]
    visits must be [in] the model. *)
Definition all_properties_in (value : JSValue) (model : gmap string JSValue) : bool :=
  forallb (fun kv => js_in kv.1 model) (map_to_list (own_properties value)).

Definition validateOptionalObject (name : string) (value : JSValue) (valueKind : string)
    (model : gmap string JSValue) : Result unit :=
  if negb (truthy value) then ok tt
  else
    validateObject name value valueKind ;;
    if all_properties_in value model then ok tt
    else throw (UnexpectedProperty valueKind name).

Definition validateNumber (name : string) (value : JSValue) (valueKind : string) : Result unit :=
  if String.eqb (typeof value) "number" then ok tt
  else throwValidationError name valueKind "type 'number'".

Definition validateString (name : string) (value : JSValue) (valueKind : string) : Result unit :=
  if String.eqb (typeof value) "string" then ok tt
  else throwValidationError name valueKind "type 'string'".

(** The string a validated value is; the empty string stands in where the
    value is no string, which no caller reaches. *)
Definition as_string (value : JSValue) : string :=
  match value with JString s => s | _ => "" end.

(** The bytes a validated [Uint8Array] holds. *)
Definition as_bytes (value : JSValue) : bytes :=
  match value with JUint8Array b => b | _ => [] end.

Definition validateStringLen (name : string) (value : JSValue) (valueKind : string)
    (len : nat) : Result unit :=
  validateString name value valueKind ;;
  let actualLen := String.length (as_string value) in
  if Nat.eqb actualLen len then ok tt
  else throwValidationError name valueKind
         ("type 'string' of length " +:+ pretty len +:+ ", was length " +:+ pretty actualLen).

Definition validateHexString (name : string) (value : JSValue) (valueKind : string) : Result unit :=
  validateString name value valueKind ;;
  if StringUtils.isHexString (as_string value) then ok tt
  else throwValidationError name valueKind "a hex-encoded string".

(** [value instanceof Uint8Array] *)
Definition validateUint8Array (name : string) (value : JSValue) (valueKind : string) : Result unit :=
  match value with
  | JUint8Array _ => ok tt
  | _ => throwValidationError name valueKind "type 'Uint8Array'"
  end.

Definition validateUint8ArrayLen (name : string) (value : JSValue) (valueKind : string)
    (len : nat) : Result unit :=
  validateUint8Array name value valueKind ;;
  let actualLen := List.length (as_bytes value) in
  if Nat.eqb actualLen len then ok tt
  else throwValidationError name valueKind
         ("type 'Uint8Array' of length " +:+ pretty len +:+ ", was length " +:+ pretty actualLen).

(** [validateSkylinkString], over the parser of skylink/parse.js, which is
    not part of the sources and is taken as a parameter. *)
Definition validateSkylinkString (parseSkylink : string -> option string)
    (name : string) (value : JSValue) (valueKind : string) : Result string :=
  validateString name value valueKind ;;
  match parseSkylink (as_string value) with
  | None => throw (ValidationError name valueKind "valid skylink of type 'string'")
  | Some parsedSkylink => ok parsedSkylink
  end.

End Validation.

(* ===================================================================== *)
(** * utils/string.ts, the conversions that validate *)
(* ===================================================================== *)

Module StringConv.

#[local] Open Scope result_scope.

(** [hexToUint8Array(str)]: the regular expression matches nothing in the
    empty string, which is refused. *)
Definition hexToUint8Array (str : JSValue) : Result bytes :=
  Validation.validateHexString "str" str "parameter" ;;
  match Validation.as_string str with
  | EmptyString => Validation.throwValidationError "str" "parameter" "a hex-encoded string"
  | s => ok (StringUtils.hex_pairs s)
  end.

End StringConv.

(* ===================================================================== *)
(** * utils/number.js *)
(* ===================================================================== *)

Module Number.

(** [MAX_REVISION = BigInt("18446744073709551615")], the largest uint64. *)
Definition MAX_REVISION : Z := 18446744073709551615.

(** [assertUint64(int)] *)
Definition assertUint64 (int : JSValue) : Result unit :=
  rbind (Validation.validateBigint "int" int "parameter") (fun _ =>
  match int with
  | JBigInt z =>
      if z <? 0 then throw (Err "must be an unsigned 64-bit integer; was negative")
      else if z >? MAX_REVISION then
        throw (Err "does not fit in a 64-bit unsigned integer; exceeds 2^64-1")
      else ok tt
  | _ => ok tt
  end).

End Number.

(* ===================================================================== *)
(** * Requests and asynchronous code *)
(* ===================================================================== *)

Module Net.

Abbreviation Options := (gmap string JSValue).

(** A registry entry: [{ dataKey, data, revision }], the revision a
    [bigint]. *)
Record RegistryEntry : Type := {
  dataKey : string;
  data : bytes;
  revision : Z
}.

(** What [registry.getEntry] resolves to: [{ entry, signature }], the entry
    [null] when the portal has none. *)
Record SignedRegistryEntry : Type := {
  entry : option RegistryEntry;
  signature : option bytes
}.

(** [new File([content], name, { type })] *)
Record File : Type := {
  content : JSValue;
  name : string;
  type : string
}.

(** An axios response, as far as the sources read it: [response.status],
    [response.data] and [response.headers], the latter [None] when the
    field is missing; axios delivers the values of headers as strings. *)
Record AxiosResponse : Type := {
  status : Z;
  response_data : JSValue;
  headers : option (gmap string string)
}.

(** The requests the sources send through the client, each with the type
    of what it resolves to.  [registry.getEntry], [registry.setEntry],
    [uploadFile] and [portalUrl] are methods of files that are not part of
    the sources, and [executeRequest] is the transport itself.
    [getFileContent] is the call of the client's download, with the data
    of the file for its outcome: the engine of [SkyDB] is written over this
    call, and [FileContent] has the method itself, from download.js, with
    [FileContent.with_download] to put it in the place of the call. *)
Inductive Request : Type -> Type :=
| RegistryGetEntry (publicKey dataKey : string) (opts : Options) : Request SignedRegistryEntry
| RegistrySetEntry (privateKey : string) (entry : RegistryEntry) (opts : Options) : Request unit
| UploadFile (file : File) (opts : Options) : Request string
| GetFileContent (skylinkUrl : string) (opts : Options) : Request JSValue
| ExecuteRequest (config : Options) : Request AxiosResponse
| PortalUrl : Request JSValue.

(** The outcome of a request: a rejection, or the value resolved to. *)
Definition Reply (X : Type) : Type := Rejection + X.

(** Asynchronous code: it returns, throws, or sends a request and goes on
    with the request's outcome. *)
Inductive Prog (A : Type) : Type :=
| Ret (a : A)
| Throw (e : Error)
| Call {X : Type} (req : Request X) (k : Reply X -> Prog A).

Arguments Ret {A} a.
Arguments Throw {A} e.
Arguments Call {A X} req k.

Fixpoint bind {A B} (p : Prog A) (f : A -> Prog B) : Prog B :=
  match p with
  | Ret a => f a
  | Throw e => Throw e
  | Call req k => Call req (fun r => bind (k r) f)
  end.

(** A synchronous computation inside asynchronous code. *)
Definition lift {A} (r : Result A) : Prog A :=
  match r with
  | inl e => Throw e
  | inr a => Ret a
  end.

(** The outcome of a request as the result of the [await]. *)
Definition settled {X} (r : Reply X) : Result X :=
  match r with
  | inl why => inl (Rejected why)
  | inr x => inr x
  end.

(** [await request]: a rejection is thrown on. *)
Definition await {X} (req : Request X) : Prog X := Call req (fun r => lift (settled r)).

(** [await Promise.all([second, first])] for two requests sent in the order
    [first], [second]: both are sent before either outcome is looked at, and
    a rejection of either rejects the whole.  When both reject, the
    rejection that arrived first is the one thrown; the embedding takes the
    one of the promise listed first. *)
Definition await_both {X Y} (first : Request X) (second : Request Y) : Prog (Y * X) :=
  Call first (fun rx =>
  Call second (fun ry =>
    match ry, rx with
    | inl why, _ => Throw (Rejected why)
    | _, inl why => Throw (Rejected why)
    | inr y, inr x => Ret (y, x)
    end)).

(** A request as it was sent, for logs. *)
Inductive Sent : Type :=
| SentGetEntry (publicKey dataKey : string) (opts : Options)
| SentSetEntry (privateKey : string) (entry : RegistryEntry) (opts : Options)
| SentUpload (file : File) (opts : Options)
| SentDownload (skylinkUrl : string) (opts : Options)
| SentRequest (config : Options)
| SentPortalUrl.

Definition sent {X} (req : Request X) : Sent :=
  match req with
  | RegistryGetEntry publicKey dataKey opts => SentGetEntry publicKey dataKey opts
  | RegistrySetEntry privateKey entry opts => SentSetEntry privateKey entry opts
  | UploadFile file opts => SentUpload file opts
  | GetFileContent skylinkUrl opts => SentDownload skylinkUrl opts
  | ExecuteRequest config => SentRequest config
  | PortalUrl => SentPortalUrl
  end.

(** A portal (with the network in front of it): how each request is
    answered in a state of the world, and the state it leaves. *)
Record Portal (W : Type) : Type := {
  answer : forall X, Request X -> W -> Reply X * W
}.
Arguments answer {W} _ {X} _ _.

(** The outcome of asynchronous code against a portal. *)
Record Outcome (W A : Type) : Type := {
  result : Result A;
  world : W;
  log : list Sent
}.
Arguments result {W A} _.
Arguments world {W A} _.
Arguments log {W A} _.

(** Running asynchronous code: the result, the world after it and the
    requests sent, in order. *)
Fixpoint run {W A} (portal : Portal W) (p : Prog A) (w : W) : Outcome W A :=
  match p with
  | Ret a => {| result := inr a; world := w; log := [] |}
  | Throw e => {| result := inl e; world := w; log := [] |}
  | Call req k =>
      let '(r, w') := answer portal req w in
      let o := run portal (k r) w' in
      {| result := result o; world := world o; log := sent req :: log o |}
  end.

Declare Scope prog_scope.
Delimit Scope prog_scope with prog.
Notation "x <- p ;; k" := (bind p (fun x => k))
  (at level 100, p at next level, right associativity) : prog_scope.
Notation "p ;; k" := (bind p (fun _ => k))
  (at level 100, right associativity) : prog_scope.

End Net.
Export Net.

(* ===================================================================== *)
(** * The collaborators outside the sources *)
(* ===================================================================== *)

(** Constants and functions the sources import from files that are not part
    of them, from libraries and from the language.  They are parameters:
    every theorem holds for all of them, and the examples fix them in
    [Fixture]. *)
Class Externals : Type := {
  (** skylink/sia.js *)
  RAW_SKYLINK_SIZE : nat;
  BASE64_ENCODED_SKYLINK_SIZE : nat;
  EMPTY_SKYLINK : bytes;
  isSkylinkV1 : string -> bool;
  decodeSkylink : string -> bytes;
  (** utils/encoding.js *)
  encodeSkylinkBase64 : bytes -> string;
  decodeSkylinkBase64 : string -> bytes;
  (** skylink/format.js, skylink/parse.js, utils/url.js *)
  formatSkylink : string -> string;
  parseSkylink : string -> option string;
  URI_SKYNET_PREFIX : string;
  (** utils/options.js *)
  DEFAULT_BASE_OPTIONS : Options;
  extractOptions : Options -> Options -> Options;
  (** registry.js *)
  DEFAULT_GET_ENTRY_OPTIONS : Options;
  DEFAULT_SET_ENTRY_OPTIONS : Options;
  validatePublicKey : string -> JSValue -> string -> Result unit;
  validateRegistryProof : JSValue -> string -> string -> Result unit;
  (** skydb_v2.js *)
  DEFAULT_GET_JSON_OPTIONS : Options;
  DEFAULT_SET_JSON_OPTIONS : Options;
  DEFAULT_SET_ENTRY_DATA_OPTIONS : Options;
  DELETION_ENTRY_DATA : bytes;
  (** upload.js *)
  DEFAULT_UPLOAD_OPTIONS : Options;
  (** tweetnacl: [sign.keyPair.fromSecretKey(secretKey).publicKey] *)
  fromSecretKey : bytes -> Result bytes;
  (** [Buffer.from(str, "utf-8")] and [Buffer.from(array).toString("utf-8")] *)
  utf8_encode : string -> bytes;
  utf8_decode : bytes -> string;
  (** [JSON.stringify] and [JSON.parse], the latter throwing on text that
      is not JSON *)
  JSON_stringify : JSValue -> string;
  JSON_parse : string -> Result JSValue;
  (** [new Uint8Array(value)] for a value that is no array buffer and no
      byte array (a length, an array, an array-like): the bytes, or [None]
      where the constructor throws *)
  Uint8Array_of : JSValue -> option bytes
}.

(** Modelled from the spec: utils/array.js is not part of the sources.  The
    read paths test whether the entry data equals the deletion sentinel. *)
Definition areEqualUint8Arrays (array1 array2 : bytes) : bool :=
  bool_decide (array1 = array2).

(* ===================================================================== *)
(** * download.js *)
(* ===================================================================== *)

Module Download.

(** A response header: absent, or a string. *)
Abbreviation Header := (option string).

Section WithExternals.
Context `{Externals}.

#[local] Open Scope result_scope.

Definition DEFAULT_DOWNLOAD_OPTIONS : Options :=
  spread DEFAULT_BASE_OPTIONS
    (<["endpointDownload" := JString "/"]>
     (<["download" := JBool false]>
     (<["path" := JUndefined]>
     (<["range" := JUndefined]>
     (<["responseType" := JUndefined]>
     (<["subdomain" := JBool false]> ∅)))))).

(** [if (header)] *)
Definition header_truthy (h : Header) : bool :=
  match h with
  | None => false
  | Some s => negb (String.eqb s "")
  end.

Definition PARSE_MESSAGE : string := "Could not parse 'skynet-proof' header as JSON".

(** The first statement of [validateRegistryProofResponse]: the proof array,
    empty when the header is omitted; whatever is thrown inside the [try],
    by [JSON.parse] or for a value that is falsy, is caught and thrown again
    under the message of the [catch]. *)
Definition parseProofHeader (proof : Header) : Result JSValue :=
  if header_truthy proof then
    match JSON_parse (default "" proof) with
    | inl err => throw (ErrCause PARSE_MESSAGE err)
    | inr proofArray =>
        if negb (truthy proofArray) then throw (ErrCause PARSE_MESSAGE (Err PARSE_MESSAGE))
        else ok proofArray
    end
  else ok (JArray []).

Definition NOT_SAME : Error :=
  Err "Expected returned skylink to be the same as input data link".
Definition NOT_EMPTY : Error :=
  Err "Expected 'skynet-proof' header to be empty for data link".
Definition NOT_DIFFERENT : Error :=
  Err "Expected returned skylink to be different from input entry link".

(** [validateRegistryProofResponse(inputSkylink, dataLink, proof)] *)
Definition validateRegistryProofResponse (inputSkylink dataLink : string) (proof : Header)
    : Result unit :=
  proofArray <- parseProofHeader proof ;;
  if isSkylinkV1 inputSkylink then
    if negb (String.eqb inputSkylink dataLink) then throw NOT_SAME
    else if header_truthy proof then throw NOT_EMPTY
    else ok tt
  else
    if String.eqb inputSkylink dataLink then throw NOT_DIFFERENT
    else validateRegistryProof proofArray inputSkylink dataLink.

End WithExternals.

End Download.

(* ===================================================================== *)
(** * skydb.js *)
(* ===================================================================== *)

Module SkyDB.

Section WithExternals.
Context `{Externals}.

#[local] Open Scope prog_scope.

(** The client, as far as the engine reads it: [this.customOptions]. *)
Record SkynetClient : Type := {
  customOptions : Options
}.

Definition JSON_RESPONSE_VERSION : number := of_Z 2.

(** [opts.name] *)
Definition option_value (opts : Options) (name : string) : JSValue :=
  default JUndefined (opts !! name).

(** [{ ...defaults, ...this.customOptions, ...customOptions }] *)
Definition merge_options (defaults : Options) (client : SkynetClient) (perCall : JSValue)
    : Options :=
  spread (spread defaults (customOptions client)) (own_properties perCall).

(** The objects the operations return. *)
Definition data_and_link (data dataLink : JSValue) : JSValue :=
  JObject (<["data" := data]> (<["dataLink" := dataLink]> ∅)).

Definition data_only (data : JSValue) : JSValue :=
  JObject (<["data" := data]> ∅).

(** [{ _data: json, _v: JSON_RESPONSE_VERSION }], the hidden fields set
    around the caller's JSON. *)
Definition envelope (json : JSValue) : JSValue :=
  JObject (<["_data" := json]> (<["_v" := JNumber JSON_RESPONSE_VERSION]> ∅)).

(** Modelled from the spec: skydb_v2.js is not part of the sources.  The
    spec: if the caller supplies a previously-known data link and it matches
    the freshly resolved one, return early without downloading content. *)
Definition checkCachedDataLink (rawDataLink : string) (cachedDataLink : JSValue) : bool :=
  truthy cachedDataLink &&
  match cachedDataLink with
  | JString cached => String.eqb rawDataLink cached
  | _ => false
  end.

(** The bound of the spec on entry data, in bytes. *)
Definition MAX_ENTRY_LENGTH : nat := 70.

(** Modelled from the spec: skydb_v2.js is not part of the sources.  The
    spec: a length check (at most 70 bytes), and the deletion sentinel is
    rejected unless an opt-in flag permits it; both are validation errors
    on the parameter. *)
Definition validateEntryData (data : bytes) (allowDeletionEntryData : JSValue) : Result unit :=
  if (MAX_ENTRY_LENGTH <? List.length data)%nat then
    Validation.throwValidationError "data" "parameter"
      ("'Uint8Array' of length <= " +:+ pretty MAX_ENTRY_LENGTH +:+ ", was length "
       +:+ pretty (List.length data))
  else if negb (truthy allowDeletionEntryData) && areEqualUint8Arrays data DELETION_ENTRY_DATA then
    Validation.throwValidationError "data" "parameter" "not the deletion sentinel"
  else ok tt.

(** [stringToUint8ArrayUtf8(str)] of utils/string.ts *)
Definition stringToUint8ArrayUtf8 (str : JSValue) : Result bytes :=
  rbind (Validation.validateString "str" str "parameter") (fun _ =>
  ok (utf8_encode (Validation.as_string str))).

(** [uint8ArrayToStringUtf8(array)] of utils/string.ts *)
Definition uint8ArrayToStringUtf8 (array : bytes) : string := utf8_decode array.

Definition MAX_REVISION_MESSAGE : string :=
  "Current entry already has maximum allowed revision, could not update the entry".

(** [getNextRevisionFromEntry(entry)] *)
Definition getNextRevisionFromEntry (entry : option RegistryEntry) : Result Z :=
  let revision :=
    match entry with
    | None => 0
    | Some entry => revision entry + 1
    end in
  if revision >? Number.MAX_REVISION then throw (Err MAX_REVISION_MESSAGE)
  else ok revision.

(** [getSkyDBRegistryEntry(client, publicKey, dataKey, opts)] *)
Definition getSkyDBRegistryEntry (client : SkynetClient) (publicKey dataKey : string)
    (opts : Options) : Prog (option RegistryEntry) :=
  signedEntry <- await (RegistryGetEntry publicKey dataKey opts) ;;
  match entry signedEntry with
  | None => Ret None
  | Some entry =>
      if areEqualUint8Arrays (data entry) EMPTY_SKYLINK then Ret None
      else Ret (Some entry)
  end.

(** [parseDataLink(data, legacy)]: the raw and the formatted data link. *)
Definition parseDataLink (data : bytes) (legacy : bool) : Result (string * string) :=
  if legacy && Nat.eqb (List.length data) BASE64_ENCODED_SKYLINK_SIZE then
    let rawDataLink := uint8ArrayToStringUtf8 data in
    ok (rawDataLink, formatSkylink rawDataLink)
  else if Nat.eqb (List.length data) RAW_SKYLINK_SIZE then
    let rawDataLink := encodeSkylinkBase64 data in
    ok (rawDataLink, formatSkylink rawDataLink)
  else
    Validation.throwValidationError "entry.data" "returned entry data"
      ("length " +:+ pretty RAW_SKYLINK_SIZE +:+ " bytes").

(** The end of [getJSON], on the downloaded [data]. *)
Definition unwrapJSON (dataKey : string) (data : JSValue) (dataLink : string) : Prog JSValue :=
  if negb (String.eqb (typeof data) "object") || is_null data then
    Throw (NotJSON dataKey)
  else if negb (truthy (get_prop data "_data") && truthy (get_prop data "_v")) then
    Ret (data_and_link data (JString dataLink))
  else
    let actualData := get_prop data "_data" in
    if negb (String.eqb (typeof actualData) "object") || is_null data then
      Throw (DataNotJSON dataKey)
    else Ret (data_and_link actualData (JString dataLink)).

(** [getJSON(publicKey, dataKey, customOptions)] *)
Definition getJSON (client : SkynetClient) (publicKey dataKey customOptions : JSValue)
    : Prog JSValue :=
  lift (validatePublicKey "publicKey" publicKey "parameter") ;;
  lift (Validation.validateString "dataKey" dataKey "parameter") ;;
  lift (Validation.validateOptionalObject "customOptions" customOptions "parameter"
          DEFAULT_GET_JSON_OPTIONS) ;;
  let opts := merge_options DEFAULT_GET_JSON_OPTIONS client customOptions in
  let getEntryOpts := extractOptions opts DEFAULT_GET_ENTRY_OPTIONS in
  entry <- getSkyDBRegistryEntry client (Validation.as_string publicKey)
             (Validation.as_string dataKey) getEntryOpts ;;
  match entry with
  | None => Ret (data_and_link JNull JNull)
  | Some entry =>
      link <- lift (parseDataLink (data entry) true) ;;
      let rawDataLink := link.1 in
      let dataLink := link.2 in
      if checkCachedDataLink rawDataLink (option_value opts "cachedDataLink") then
        Ret (data_and_link JNull (JString dataLink))
      else
        let downloadOpts := extractOptions opts Download.DEFAULT_DOWNLOAD_OPTIONS in
        data <- await (GetFileContent dataLink downloadOpts) ;;
        unwrapJSON (Validation.as_string dataKey) data dataLink
  end.

(** [getOrCreateRegistryEntry(client, publicKey, dataKey, json, customOptions)] *)
Definition getOrCreateRegistryEntry (client : SkynetClient) (publicKey dataKey : string)
    (json : JSValue) (customOptions : Options) : Prog (RegistryEntry * string) :=
  let opts := merge_options DEFAULT_SET_JSON_OPTIONS client (JObject customOptions) in
  let fullData := envelope json in
  dataKeyHex <-
    (if negb (truthy (option_value opts "hashedDataKeyHex")) then
       bytes <- lift (stringToUint8ArrayUtf8 (JString dataKey)) ;;
       Ret (StringUtils.toHexString bytes)
     else Ret dataKey) ;;
  let file := {| content := JString (JSON_stringify fullData);
                 name := "dk:" +:+ dataKeyHex;
                 type := "application/json" |} in
  let uploadOpts := extractOptions opts DEFAULT_UPLOAD_OPTIONS in
  let getEntryOpts := extractOptions opts DEFAULT_GET_ENTRY_OPTIONS in
  both <- await_both (UploadFile file uploadOpts)
            (RegistryGetEntry publicKey dataKey getEntryOpts) ;;
  let signedEntry := both.1 in
  let skylink := both.2 in
  revision <- lift (getNextRevisionFromEntry (entry signedEntry)) ;;
  let dataLink := StringUtils.trimUriPrefix skylink URI_SKYNET_PREFIX in
  let data := decodeSkylinkBase64 dataLink in
  lift (Validation.validateUint8ArrayLen "data" (JUint8Array data) "skylink byte array"
          RAW_SKYLINK_SIZE) ;;
  let entry := {| dataKey := dataKey; data := data; revision := revision |} in
  Ret (entry, formatSkylink dataLink).

(** [setJSON(privateKey, dataKey, json, customOptions)] *)
Definition setJSON (client : SkynetClient) (privateKey dataKey json customOptions : JSValue)
    : Prog JSValue :=
  lift (Validation.validateHexString "privateKey" privateKey "parameter") ;;
  lift (Validation.validateString "dataKey" dataKey "parameter") ;;
  lift (Validation.validateObject "json" json "parameter") ;;
  lift (Validation.validateOptionalObject "customOptions" customOptions "parameter"
          DEFAULT_SET_JSON_OPTIONS) ;;
  let opts := merge_options DEFAULT_SET_JSON_OPTIONS client customOptions in
  secretKey <- lift (StringConv.hexToUint8Array privateKey) ;;
  publicKeyArray <- lift (fromSecretKey secretKey) ;;
  created <- getOrCreateRegistryEntry client (StringUtils.toHexString publicKeyArray)
               (Validation.as_string dataKey) json opts ;;
  let entry := created.1 in
  let dataLink := created.2 in
  let setEntryOpts := extractOptions opts DEFAULT_SET_ENTRY_OPTIONS in
  await (RegistrySetEntry (Validation.as_string privateKey) entry setEntryOpts) ;;
  Ret (data_and_link json (JString (formatSkylink dataLink))).

(** [getNextRegistryEntry(client, publicKey, dataKey, data, customOptions)] *)
Definition getNextRegistryEntry (client : SkynetClient) (publicKey dataKey : string)
    (data : bytes) (customOptions : Options) : Prog RegistryEntry :=
  let opts := merge_options DEFAULT_GET_ENTRY_OPTIONS client (JObject customOptions) in
  signedEntry <- await (RegistryGetEntry publicKey dataKey opts) ;;
  revision <- lift (getNextRevisionFromEntry (entry signedEntry)) ;;
  Ret {| dataKey := dataKey; data := data; revision := revision |}.

(** [getEntryData(publicKey, dataKey, customOptions)] *)
Definition getEntryData (client : SkynetClient) (publicKey dataKey customOptions : JSValue)
    : Prog JSValue :=
  lift (validatePublicKey "publicKey" publicKey "parameter") ;;
  lift (Validation.validateString "dataKey" dataKey "parameter") ;;
  lift (Validation.validateOptionalObject "customOptions" customOptions "parameter"
          DEFAULT_GET_ENTRY_OPTIONS) ;;
  let opts := merge_options DEFAULT_GET_ENTRY_OPTIONS client customOptions in
  entry <- getSkyDBRegistryEntry client (Validation.as_string publicKey)
             (Validation.as_string dataKey) opts ;;
  match entry with
  | None => Ret (data_only JNull)
  | Some entry => Ret (data_only (JUint8Array (data entry)))
  end.

(** [setEntryData(privateKey, dataKey, data, customOptions)] *)
Definition setEntryData (client : SkynetClient) (privateKey dataKey data customOptions : JSValue)
    : Prog JSValue :=
  lift (Validation.validateHexString "privateKey" privateKey "parameter") ;;
  lift (Validation.validateString "dataKey" dataKey "parameter") ;;
  lift (Validation.validateUint8Array "data" data "parameter") ;;
  lift (Validation.validateOptionalObject "customOptions" customOptions "parameter"
          DEFAULT_SET_ENTRY_DATA_OPTIONS) ;;
  let opts := merge_options DEFAULT_SET_ENTRY_DATA_OPTIONS client customOptions in
  lift (validateEntryData (Validation.as_bytes data)
          (option_value opts "allowDeletionEntryData")) ;;
  secretKey <- lift (StringConv.hexToUint8Array privateKey) ;;
  publicKeyArray <- lift (fromSecretKey secretKey) ;;
  let getEntryOpts := extractOptions opts DEFAULT_GET_ENTRY_OPTIONS in
  entry <- getNextRegistryEntry client (StringUtils.toHexString publicKeyArray)
             (Validation.as_string dataKey) (Validation.as_bytes data) getEntryOpts ;;
  let setEntryOpts := extractOptions opts DEFAULT_SET_ENTRY_OPTIONS in
  await (RegistrySetEntry (Validation.as_string privateKey) entry setEntryOpts) ;;
  Ret (data_only (JUint8Array (Net.data entry))).

(** [deleteJSON(privateKey, dataKey, customOptions)] *)
Definition deleteJSON (client : SkynetClient) (privateKey dataKey customOptions : JSValue)
    : Prog JSValue :=
  let opts := merge_options DEFAULT_SET_ENTRY_DATA_OPTIONS client customOptions in
  setEntryData client privateKey dataKey (JUint8Array DELETION_ENTRY_DATA)
    (JObject (<["allowDeletionEntryData" := JBool true]> opts)) ;;
  Ret JUndefined.

(** [setDataLink(privateKey, dataKey, dataLink, customOptions)] *)
Definition setDataLink (client : SkynetClient)
    (privateKey dataKey dataLink customOptions : JSValue) : Prog JSValue :=
  parsedSkylink <- lift (Validation.validateSkylinkString parseSkylink "dataLink" dataLink
                           "parameter") ;;
  let data := decodeSkylink parsedSkylink in
  setEntryData client privateKey dataKey (JUint8Array data) customOptions ;;
  Ret JUndefined.

(** [deleteEntryData(privateKey, dataKey, customOptions)] *)
Definition deleteEntryData (client : SkynetClient) (privateKey dataKey customOptions : JSValue)
    : Prog JSValue :=
  setEntryData client privateKey dataKey (JUint8Array DELETION_ENTRY_DATA)
    (JObject (<["allowDeletionEntryData" := JBool true]> (own_properties customOptions))) ;;
  Ret JUndefined.

(** [new Uint8Array(buffer)]: the bytes of an array buffer; of anything
    else, what the platform makes of it. *)
Definition new_Uint8Array (buffer : JSValue) : Result bytes :=
  match buffer with
  | JUint8Array b => ok b
  | other =>
      match Uint8Array_of other with
      | Some b => ok b
      | None => throw InvalidTypedArray
      end
  end.

(** [getRawBytes(publicKey, dataKey, customOptions)] *)
Definition getRawBytes (client : SkynetClient) (publicKey dataKey customOptions : JSValue)
    : Prog JSValue :=
  lift (validatePublicKey "publicKey" publicKey "parameter") ;;
  lift (Validation.validateString "dataKey" dataKey "parameter") ;;
  lift (Validation.validateOptionalObject "customOptions" customOptions "parameter"
          DEFAULT_GET_JSON_OPTIONS) ;;
  let opts := merge_options DEFAULT_GET_JSON_OPTIONS client customOptions in
  let getEntryOpts := extractOptions opts DEFAULT_GET_ENTRY_OPTIONS in
  entry <- getSkyDBRegistryEntry client (Validation.as_string publicKey)
             (Validation.as_string dataKey) getEntryOpts ;;
  match entry with
  | None => Ret (data_and_link JNull JNull)
  | Some entry =>
      link <- lift (parseDataLink (data entry) false) ;;
      let rawDataLink := link.1 in
      let dataLink := link.2 in
      if checkCachedDataLink rawDataLink (option_value opts "cachedDataLink") then
        Ret (data_and_link JNull (JString dataLink))
      else
        let downloadOpts :=
          <["responseType" := JString "arraybuffer"]>
            (extractOptions opts Download.DEFAULT_DOWNLOAD_OPTIONS) in
        buffer <- await (GetFileContent dataLink downloadOpts) ;;
        array <- lift (new_Uint8Array buffer) ;;
        Ret (data_and_link (JUint8Array array) (JString dataLink))
  end.

(** ** The public operations as one type of calls *)

Inductive PublicCall : Type :=
| call_getJSON (publicKey dataKey customOptions : JSValue)
| call_setJSON (privateKey dataKey json customOptions : JSValue)
| call_deleteJSON (privateKey dataKey customOptions : JSValue)
| call_setDataLink (privateKey dataKey dataLink customOptions : JSValue)
| call_getEntryData (publicKey dataKey customOptions : JSValue)
| call_setEntryData (privateKey dataKey data customOptions : JSValue)
| call_deleteEntryData (privateKey dataKey customOptions : JSValue)
| call_getRawBytes (publicKey dataKey customOptions : JSValue).

Definition perform (client : SkynetClient) (c : PublicCall) : Prog JSValue :=
  match c with
  | call_getJSON publicKey dataKey customOptions =>
      getJSON client publicKey dataKey customOptions
  | call_setJSON privateKey dataKey json customOptions =>
      setJSON client privateKey dataKey json customOptions
  | call_deleteJSON privateKey dataKey customOptions =>
      deleteJSON client privateKey dataKey customOptions
  | call_setDataLink privateKey dataKey dataLink customOptions =>
      setDataLink client privateKey dataKey dataLink customOptions
  | call_getEntryData publicKey dataKey customOptions =>
      getEntryData client publicKey dataKey customOptions
  | call_setEntryData privateKey dataKey data customOptions =>
      setEntryData client privateKey dataKey data customOptions
  | call_deleteEntryData privateKey dataKey customOptions =>
      deleteEntryData client privateKey dataKey customOptions
  | call_getRawBytes publicKey dataKey customOptions =>
      getRawBytes client publicKey dataKey customOptions
  end.

(** ** Invalid caller input *)

(** The errors the validation of a parameter raises: a validation error of
    kind [parameter], or the unexpected property of an options object. *)
Definition caller_input_failure (e : Error) : bool :=
  match e with
  | ValidationError _ valueKind _ => String.eqb valueKind "parameter"
  | UnexpectedProperty valueKind _ => String.eqb valueKind "parameter"
  | _ => false
  end.

(** An argument that must be a string and is none. *)
Definition not_a_string (v : JSValue) : Prop := typeof v <> "string".

(** An argument that must be a [Uint8Array] and is none. *)
Definition not_a_Uint8Array (v : JSValue) : Prop :=
  match v with JUint8Array _ => False | _ => True end.

(** An argument that must be an object and is none. *)
Definition not_an_object (v : JSValue) : Prop := typeof v <> "object" \/ v = JNull.

(** Options given (truthy) that are no object. *)
Definition options_of_wrong_type (v : JSValue) : Prop :=
  truthy v = true /\ typeof v <> "object".

(** Options with a property the operation's model does not have. *)
Definition unrecognized_key (v : JSValue) (model : Options) : Prop :=
  exists k, is_Some (own_properties v !! k) /\ js_in k model = false.

(** Entry data above the bound. *)
Definition too_long (v : JSValue) : Prop :=
  exists d, v = JUint8Array d /\ (MAX_ENTRY_LENGTH < List.length d)%nat.

(** The inputs the validation at the head of each public operation
    refuses: an argument of the wrong type among those the operation
    checks, an unrecognized key in the options, entry data above the
    bound.  [deleteJSON] and [deleteEntryData] spread their options before
    any check, so that options of a wrong type are not among theirs, and
    options that are falsy pass every check. *)
Definition invalid_input (c : PublicCall) : Prop :=
  match c with
  | call_getJSON _ dataKey customOptions
  | call_getRawBytes _ dataKey customOptions =>
      not_a_string dataKey \/ options_of_wrong_type customOptions
      \/ unrecognized_key customOptions DEFAULT_GET_JSON_OPTIONS
  | call_getEntryData _ dataKey customOptions =>
      not_a_string dataKey \/ options_of_wrong_type customOptions
      \/ unrecognized_key customOptions DEFAULT_GET_ENTRY_OPTIONS
  | call_setJSON privateKey dataKey json customOptions =>
      not_a_string privateKey \/ not_a_string dataKey \/ not_an_object json
      \/ options_of_wrong_type customOptions
      \/ unrecognized_key customOptions DEFAULT_SET_JSON_OPTIONS
  | call_setEntryData privateKey dataKey data customOptions =>
      not_a_string privateKey \/ not_a_string dataKey \/ not_a_Uint8Array data
      \/ options_of_wrong_type customOptions
      \/ unrecognized_key customOptions DEFAULT_SET_ENTRY_DATA_OPTIONS
      \/ too_long data
  | call_setDataLink privateKey dataKey dataLink customOptions =>
      not_a_string privateKey \/ not_a_string dataKey \/ not_a_string dataLink
      \/ options_of_wrong_type customOptions
      \/ unrecognized_key customOptions DEFAULT_SET_ENTRY_DATA_OPTIONS
  | call_deleteJSON privateKey dataKey customOptions
  | call_deleteEntryData privateKey dataKey customOptions =>
      not_a_string privateKey \/ not_a_string dataKey
      \/ unrecognized_key customOptions DEFAULT_SET_ENTRY_DATA_OPTIONS
  end.

(** ** The reads as one type of operations *)

Inductive ReadOp : Type :=
| read_JSON
| read_EntryData
| read_RawBytes.

Definition read (op : ReadOp) (client : SkynetClient) (publicKey dataKey customOptions : JSValue)
    : Prog JSValue :=
  match op with
  | read_JSON => getJSON client publicKey dataKey customOptions
  | read_EntryData => getEntryData client publicKey dataKey customOptions
  | read_RawBytes => getRawBytes client publicKey dataKey customOptions
  end.

(** The model the read validates its options against. *)
Definition read_model (op : ReadOp) : Options :=
  match op with
  | read_EntryData => DEFAULT_GET_ENTRY_OPTIONS
  | _ => DEFAULT_GET_JSON_OPTIONS
  end.

(** The parameters pass the validation at the head of the read. *)
Definition valid_read_input (op : ReadOp) (publicKey dataKey customOptions : JSValue) : Prop :=
  validatePublicKey "publicKey" publicKey "parameter" = ok tt /\
  Validation.validateString "dataKey" dataKey "parameter" = ok tt /\
  Validation.validateOptionalObject "customOptions" customOptions "parameter" (read_model op)
    = ok tt.

(** The registry lookup the read sends. *)
Definition lookup (op : ReadOp) (client : SkynetClient) (publicKey dataKey customOptions : JSValue)
    : Request SignedRegistryEntry :=
  RegistryGetEntry (Validation.as_string publicKey) (Validation.as_string dataKey)
    match op with
    | read_EntryData => merge_options DEFAULT_GET_ENTRY_OPTIONS client customOptions
    | _ => extractOptions (merge_options DEFAULT_GET_JSON_OPTIONS client customOptions)
             DEFAULT_GET_ENTRY_OPTIONS
    end.

(** What the read returns for an entry that is not there. *)
Definition not_found (op : ReadOp) : JSValue :=
  match op with
  | read_EntryData => data_only JNull
  | _ => data_and_link JNull JNull
  end.

(** The lookup found no entry, or one whose data is the deletion
    sentinel. *)
Definition absent (signedEntry : SignedRegistryEntry) : Prop :=
  match entry signedEntry with
  | None => True
  | Some entry => data entry = EMPTY_SKYLINK
  end.

(** The error of [parseDataLink]. *)
Definition MALFORMED_ENTRY_DATA : Error :=
  ValidationError "entry.data" "returned entry data"
    ("length " +:+ pretty RAW_SKYLINK_SIZE +:+ " bytes").

(** The lengths of entry data a read takes for a data link: [getJSON]
    passes [legacy = true], [getRawBytes] passes [legacy = false], and
    [getEntryData] does not read the data as a link. *)
Definition accepted_length (op : ReadOp) (n : nat) : Prop :=
  match op with
  | read_JSON => n = RAW_SKYLINK_SIZE \/ n = BASE64_ENCODED_SKYLINK_SIZE
  | read_RawBytes => n = RAW_SKYLINK_SIZE
  | read_EntryData => True
  end.

End WithExternals.

End SkyDB.

(* ===================================================================== *)
(** * The first registry client: [lookupRegistry], [updateRegistry] *)
(* ===================================================================== *)

(** What the first registry client imports from files that are not part of
    the sources, and the conversions of the platform it calls.  The
    conversions throw on what they cannot convert. *)
Class LegacyExternals : Type := {
  (** [defaultOptions("/skynet/registry")] of ./utils *)
  defaultRegistryOptions : Options;
  (** ./crypto *)
  EncodeUserPublicKey : JSValue -> Result JSValue;
  (** [Buffer.from], [Uint8Array.from], [Array.from], [parseInt(_, 10)] *)
  Buffer_from : JSValue -> Result JSValue;
  Uint8Array_from : JSValue -> Result JSValue;
  Array_from : JSValue -> Result JSValue;
  parseInt10 : JSValue -> JSValue;
  (** [JSON.stringify], of an object literal: a string, unless it throws *)
  stringify : JSValue -> Result string
}.

Module LegacyRegistry.

Section WithExternals.
Context `{LegacyExternals}.

#[local] Open Scope result_scope.

(** The client: [this.customOptions]. *)
Record Client : Type := {
  customOptions : Options
}.

(** [{ ...defaultRegistryOptions, ...customOptions, ...this.customOptions }],
    the first statement of both functions.  The parameter defaults to the
    empty object, which spreads like [undefined]. *)
Definition registry_options (client : Client) (perCall : JSValue) : Options :=
  spread (spread defaultRegistryOptions (own_properties perCall)) (customOptions client).

(** The object both functions build from [fileID]: the reads throw on a
    [fileID] that is [undefined] or [null]. *)
Definition fileid_object (fileID : JSValue) : Result JSValue :=
  version <- member fileID "version" ;;
  applicationid <- member fileID "applicationID" ;;
  filetype <- member fileID "fileType" ;;
  filename <- member fileID "filename" ;;
  ok (JObject (<["version" := version]>
              (<["applicationid" := applicationid]>
              (<["filetype" := filetype]>
              (<["filename" := filename]> ∅))))).

(** The argument of [executeRequest] in [lookupRegistry], or what building
    it throws. *)
Definition lookup_config (opts : Options) (user fileID : JSValue) : Result Options :=
  encoded <- EncodeUserPublicKey user ;;
  publickey <- Buffer_from encoded ;;
  fileidObject <- fileid_object fileID ;;
  text <- stringify fileidObject ;;
  fileid <- Buffer_from (JString text) ;;
  ok (spread opts
        (<["method" := JString "get"]>
        (<["query" := JObject (<["publickey" := publickey]> (<["fileid" := fileid]> ∅))]>
         ∅))).

(** The object [lookupRegistry] returns on the status 200, or what reading
    [response.data] throws. *)
Definition lookup_value (response : AxiosResponse) : Result JSValue :=
  let d := response_data response in
  tweakField <- member d "Tweak" ;;
  buffer <- Buffer_from tweakField ;;
  tweak <- Uint8Array_from buffer ;;
  dataField <- member d "Data" ;;
  revisionField <- member d "Revision" ;;
  signatureField <- member d "Signature" ;;
  ok (JObject
        (<["value" :=
            JObject (<["tweak" := tweak]>
                    (<["data" := dataField]>
                    (<["revision" := parseInt10 revisionField]> ∅)))]>
        (<["signature" := signatureField]> ∅))).

(** [lookupRegistry(user, fileID, customOptions)]: a signed registry value,
    or [null].  The argument of [executeRequest] is built inside the [try]:
    what building it throws is caught like the rejection of the request,
    and no request is sent then.  The response is read after the [try]. *)
Definition lookupRegistry (client : Client) (user fileID perCall : JSValue) : Prog JSValue :=
  let opts := registry_options client perCall in
  match lookup_config opts user fileID with
  | inl err =>
      (* catch: the error is logged to the console, then *)
      Ret JNull
  | inr config =>
      Call (ExecuteRequest config) (fun outcome =>
        match outcome with
        | inl err =>
            (* catch: the error is logged to the console, then *)
            Ret JNull
        | inr response =>
            if status response =? 200 then lift (lookup_value response)
            else Throw (UnexpectedStatus (status response))
        end)
  end.

(** The argument of [executeRequest] in [updateRegistry], or what building
    it throws. *)
Definition update_config (opts : Options) (user fileID srv : JSValue) : Result Options :=
  publicKey <- member user "publicKey" ;;
  key <- Array_from publicKey ;;
  fileid <- fileid_object fileID ;;
  value <- member srv "value" ;;
  revision <- member value "revision" ;;
  valueAgain <- member srv "value" ;;
  valueData <- member valueAgain "data" ;;
  dataBuffer <- Buffer_from valueData ;;
  dataBytes <- Uint8Array_from dataBuffer ;;
  data <- Array_from dataBytes ;;
  signatureField <- member srv "signature" ;;
  signatureBuffer <- Buffer_from signatureField ;;
  signatureBytes <- Uint8Array_from signatureBuffer ;;
  signature <- Array_from signatureBytes ;;
  ok (spread opts
        (<["method" := JString "post"]>
        (<["data" :=
            JObject (<["publickey" :=
                        JObject (<["algorithm" := JString "ed25519"]>
                                (<["key" := key]> ∅))]>
                    (<["fileid" := fileid]>
                    (<["revision" := revision]>
                    (<["data" := data]>
                    (<["signature" := signature]> ∅)))))]>
         ∅))).

(** [updateRegistry(user, fileID, srv, customOptions)]: a boolean.  As in
    [lookupRegistry], the argument of [executeRequest] is built inside the
    [try]. *)
Definition updateRegistry (client : Client) (user fileID srv perCall : JSValue)
    : Prog JSValue :=
  let opts := registry_options client perCall in
  match update_config opts user fileID srv with
  | inl err =>
      (* catch: the error is logged to the console, then *)
      Ret (JBool false)
  | inr config =>
      Call (ExecuteRequest config) (fun outcome =>
        match outcome with
        | inl err =>
            (* catch: the error is logged to the console, then *)
            Ret (JBool false)
        | inr response =>
            if status response =? 204 then Ret (JBool true)
            else Throw (UnexpectedStatus (status response))
        end)
  end.

End WithExternals.

End LegacyRegistry.

(* ===================================================================== *)
(** * A fixture: the collaborators and a scripted portal for the examples *)
(* ===================================================================== *)

Module Fixture.

(** ** Base64, the URL-safe alphabet without padding (utils/encoding.js) *)

Definition ALPHABET : string :=
  "ABCDEFGHIJKLMNOPQRSTUVWXYZabcdefghijklmnopqrstuvwxyz0123456789-_".

(** The [width] low bits of [v], the highest first. *)
Fixpoint to_bits (width : nat) (v : Z) : list bool :=
  match width with
  | O => []
  | S w => Z.testbit v (Z.of_nat w) :: to_bits w v
  end.

Definition of_bits (l : list bool) : Z :=
  fold_left (fun acc (b : bool) => 2 * acc + (if b then 1 else 0)) l 0.

(** Groups of [n] bits; a last shorter group is filled with zeros when
    [pad] is set and dropped otherwise. *)
Fixpoint groups (fuel n : nat) (pad : bool) (l : list bool) : list (list bool) :=
  match fuel, l with
  | O, _ => []
  | _, [] => []
  | S fuel', _ =>
      let g := take n l in
      if (List.length g <? n)%nat then
        if pad then [(g ++ repeat false (n - List.length g))%list] else []
      else g :: groups fuel' n pad (drop n l)
  end.

Definition char_at (i : Z) : ascii :=
  default "A"%char (String.get (Z.to_nat i) ALPHABET).

Fixpoint index_of (c : ascii) (s : string) (i : Z) : Z :=
  match s with
  | EmptyString => 0
  | String d rest => if Ascii.eqb c d then i else index_of c rest (i + 1)
  end.

Definition string_of_chars (l : list ascii) : string :=
  fold_right String EmptyString l.

Definition base64_encode (b : bytes) : string :=
  let bits := List.concat (map (to_bits 8) b) in
  string_of_chars (map (fun g => char_at (of_bits g)) (groups (List.length bits) 6 true bits)).

Definition base64_decode (s : string) : bytes :=
  let bits := List.concat (map (fun c => to_bits 6 (index_of c ALPHABET 0)) (list_ascii_of_string s)) in
  map of_bits (groups (List.length bits) 8 false bits).

(** ** Skylinks *)

Definition SIA_PREFIX : string := "sia://".

Definition fixture_formatSkylink (skylink : string) : string :=
  if String.eqb skylink "" then skylink
  else if StringUtils.startsWith skylink SIA_PREFIX then skylink
  else SIA_PREFIX +:+ skylink.

(** The version of a skylink is in the two low bits of its bitfield, the
    first two bytes in little-endian order; version 1 is a data link. *)
Definition fixture_isSkylinkV1 (skylink : string) : bool :=
  match base64_decode skylink with
  | b0 :: _ => Z.land b0 3 + 1 =? 1
  | [] => false
  end.

Fixpoint all_in_alphabet (s : string) : bool :=
  match s with
  | EmptyString => true
  | String c rest =>
      (Ascii.eqb c "A" || negb (index_of c ALPHABET 0 =? 0)) && all_in_alphabet rest
  end.

(** A parser for the skylinks of the examples: 46 characters of the
    alphabet, with or without the prefix. *)
Definition fixture_parseSkylink (s : string) : option string :=
  let bare := StringUtils.trimUriPrefix s SIA_PREFIX in
  if Nat.eqb (String.length bare) 46 && all_in_alphabet bare then Some bare else None.

(** ** Options (utils/options.js, registry.js, skydb_v2.js, upload.js) *)

Definition BASE : Options :=
  <["APIKey" := JString ""]>
  (<["customUserAgent" := JString ""]>
  (<["customCookie" := JString ""]>
  (<["onDownloadProgress" := JUndefined]>
  (<["onUploadProgress" := JUndefined]> ∅)))).

Definition GET_ENTRY : Options :=
  spread BASE
    (<["endpointGetEntry" := JString "/skynet/registry"]>
    (<["hashedDataKeyHex" := JBool false]> ∅)).

Definition SET_ENTRY : Options :=
  spread BASE
    (<["endpointSetEntry" := JString "/skynet/registry"]>
    (<["hashedDataKeyHex" := JBool false]> ∅)).

Definition UPLOAD : Options :=
  spread BASE (<["endpointUpload" := JString "/skynet/skyfile"]> ∅).

Definition DOWNLOAD : Options :=
  spread BASE
    (<["endpointDownload" := JString "/"]>
    (<["download" := JBool false]>
    (<["path" := JUndefined]>
    (<["range" := JUndefined]>
    (<["responseType" := JUndefined]>
    (<["subdomain" := JBool false]> ∅)))))).

Definition GET_JSON : Options :=
  spread (spread (spread BASE GET_ENTRY) DOWNLOAD) (<["cachedDataLink" := JUndefined]> ∅).

Definition SET_JSON : Options :=
  spread (spread (spread BASE GET_ENTRY) SET_ENTRY) UPLOAD.

Definition SET_ENTRY_DATA : Options :=
  spread (spread (spread BASE GET_ENTRY) SET_ENTRY)
    (<["allowDeletionEntryData" := JBool false]> ∅).

(** The properties of the model, each with the value [opts] has for it. *)
Definition fixture_extractOptions (opts model : Options) : Options :=
  map_imap (fun k _ => Some (default JUndefined (opts !! k))) model.

(** ** Keys *)

Definition ED25519_PREFIX : string := "ed25519:".

Definition fixture_validatePublicKey (name : string) (publicKey : JSValue) (valueKind : string)
    : Result unit :=
  match publicKey with
  | JString s =>
      let bare :=
        if StringUtils.startsWith s ED25519_PREFIX
        then StringUtils.slice s (String.length ED25519_PREFIX) else s in
      if StringUtils.isHexString bare then ok tt
      else throw (ValidationError name valueKind "a hex-encoded string with a valid prefix")
  | _ => throw (ValidationError name valueKind "a hex-encoded string with a valid prefix")
  end.

(** A secret key is 64 bytes, the last 32 the public key. *)
Definition fixture_fromSecretKey (secretKey : bytes) : Result bytes :=
  if Nat.eqb (List.length secretKey) 64 then ok (drop 32 secretKey)
  else throw (Err "bad secret key size").

(** ** Text *)

(** The strings of the examples are ASCII: one byte a character. *)
Definition ascii_encode (s : string) : bytes :=
  map (fun c => Z.of_nat (nat_of_ascii c)) (list_ascii_of_string s).

Definition ascii_decode (b : bytes) : string :=
  string_of_chars (map (fun z => ascii_of_nat (Z.to_nat z)) b).

Definition QUOTE : string := String (ascii_of_nat 34) EmptyString.

Definition join (sep : string) (l : list string) : string :=
  match l with
  | [] => ""
  | x :: rest => fold_left (fun acc y => acc +:+ sep +:+ y) rest x
  end.

(** [JSON.stringify] on the values of the examples: integers, strings
    without escapes, arrays and objects to the depth [fuel].  The
    properties of an object come in the order of the map, not in the order
    they were set. *)
Fixpoint stringify_to (fuel : nat) (v : JSValue) : string :=
  match fuel with
  | O => "null"
  | S fuel' =>
      match v with
      | JBool true => "true"
      | JBool false => "false"
      | JNumber (Finite m 0) => pretty m
      | JString s => QUOTE +:+ s +:+ QUOTE
      | JArray l => "[" +:+ join "," (map (stringify_to fuel') l) +:+ "]"
      | JObject m =>
          "{" +:+ join "," (map (fun kv => QUOTE +:+ kv.1 +:+ QUOTE +:+ ":"
                                           +:+ stringify_to fuel' kv.2)
                              (map_to_list m)) +:+ "}"
      | _ => "null"
      end
  end.

Definition fixture_stringify (v : JSValue) : string := stringify_to 16 v.

Definition SYNTAX_ERROR : Error := Err "SyntaxError: Unexpected token in JSON".

(** [JSON.parse] on the headers of the examples: the literals, the empty
    array and the empty object parse; the other headers of the examples are
    no JSON. *)
Definition fixture_parse (text : string) : Result JSValue :=
  if String.eqb text "null" then ok JNull
  else if String.eqb text "true" then ok (JBool true)
  else if String.eqb text "false" then ok (JBool false)
  else if String.eqb text "0" then ok (JNumber (of_Z 0))
  else if String.eqb text "[]" then ok (JArray [])
  else if String.eqb text "{}" then ok (JObject ∅)
  else throw SYNTAX_ERROR.

(** A registry proof is a non-empty array of steps; the steps themselves
    are not checked here. *)
Definition fixture_validateRegistryProof (proof : JSValue) (resolverSkylink skylink : string)
    : Result unit :=
  match proof with
  | JArray (_ :: _) => ok tt
  | _ => throw (Err "Expected registry proof not to be empty")
  end.

(** [new Uint8Array(value)] on a length, on an array of numbers and on
    [undefined]: as many zeros, the numbers as bytes, no bytes.  A negative
    length and a [bigint] are refused. *)
Definition fixture_Uint8Array (value : JSValue) : option bytes :=
  match value with
  | JNumber (Finite m 0) => if m <? 0 then None else Some (repeat 0 (Z.to_nat m))
  | JNumber NaN => Some []
  | JNumber _ => None
  | JBigInt _ => None
  | JArray l =>
      Some (map (fun x => match x with JNumber (Finite m 0) => m mod 256 | _ => 0 end) l)
  | JBool true => Some [0]
  | _ => Some []
  end.

#[export] Instance externals : Externals := {|
  RAW_SKYLINK_SIZE := 34;
  BASE64_ENCODED_SKYLINK_SIZE := 46;
  EMPTY_SKYLINK := repeat 0 34;
  isSkylinkV1 := fixture_isSkylinkV1;
  decodeSkylink := base64_decode;
  encodeSkylinkBase64 := base64_encode;
  decodeSkylinkBase64 := base64_decode;
  formatSkylink := fixture_formatSkylink;
  parseSkylink := fixture_parseSkylink;
  URI_SKYNET_PREFIX := SIA_PREFIX;
  DEFAULT_BASE_OPTIONS := BASE;
  extractOptions := fixture_extractOptions;
  DEFAULT_GET_ENTRY_OPTIONS := GET_ENTRY;
  DEFAULT_SET_ENTRY_OPTIONS := SET_ENTRY;
  validatePublicKey := fixture_validatePublicKey;
  validateRegistryProof := fixture_validateRegistryProof;
  DEFAULT_GET_JSON_OPTIONS := GET_JSON;
  DEFAULT_SET_JSON_OPTIONS := SET_JSON;
  DEFAULT_SET_ENTRY_DATA_OPTIONS := SET_ENTRY_DATA;
  DELETION_ENTRY_DATA := repeat 0 34;
  DEFAULT_UPLOAD_OPTIONS := UPLOAD;
  fromSecretKey := fixture_fromSecretKey;
  utf8_encode := ascii_encode;
  utf8_decode := ascii_decode;
  JSON_stringify := fixture_stringify;
  JSON_parse := fixture_parse;
  Uint8Array_of := fixture_Uint8Array
|}.

(** The conversions of the platform: strings, arrays and byte arrays are
    taken as they are, anything else is refused. *)
Definition NOT_CONVERTIBLE : Error :=
  Err "The first argument must be of type string or an instance of Buffer, ArrayBuffer, or Array or an Array-like Object.".

Definition fixture_from (v : JSValue) : Result JSValue :=
  match v with
  | JString _ | JUint8Array _ | JArray _ => ok v
  | _ => throw NOT_CONVERTIBLE
  end.

(** [parseInt(text, 10)] on text that starts with a digit: the number its
    leading digits spell; a number is left as it is. *)
Fixpoint leading_digits (text : string) (value : option Z) : option Z :=
  match text with
  | EmptyString => value
  | String c rest =>
      let d := Z.of_nat (nat_of_ascii c) - 48 in
      if (0 <=? d) && (d <=? 9) then leading_digits rest (Some (10 * default 0 value + d))
      else value
  end.

Definition fixture_parseInt (v : JSValue) : JSValue :=
  match v with
  | JString text =>
      match leading_digits text None with
      | Some z => JNumber (of_Z z)
      | None => JNumber NaN
      end
  | JNumber n => JNumber n
  | _ => JNumber NaN
  end.

#[export] Instance legacy : LegacyExternals := {|
  defaultRegistryOptions :=
    <["endpointPath" := JString "/skynet/registry"]> (<["portalUrl" := JString "https://siasky.net"]> ∅);
  EncodeUserPublicKey := fun user => member user "publicKey";
  Buffer_from := fixture_from;
  Uint8Array_from := fixture_from;
  Array_from := fixture_from;
  parseInt10 := fixture_parseInt;
  stringify := fun v => ok (fixture_stringify v)
|}.

(** ** A scripted portal *)

(** An answer of the script, by the kind of request it answers. *)
Inductive Canned : Type :=
| entry_reply (r : Reply SignedRegistryEntry)
| write_reply (r : Reply unit)
| upload_reply (r : Reply string)
| content_reply (r : Reply JSValue)
| http_reply (r : Reply AxiosResponse)
| url_reply (r : Reply JSValue).

Definition OFF_SCRIPT : Rejection :=
  {| rejected_status := None; reason := "no answer scripted" |}.

(** The world of the scripted portal is the script that is left: a request
    takes the next answer when it is of its kind, and is rejected when the
    script has none for it. *)
Definition scripted_answer (X : Type) (req : Request X) (script : list Canned)
    : Reply X * list Canned :=
  match req in Request X, script return Reply X * list Canned with
  | RegistryGetEntry _ _ _, entry_reply r :: rest => (r, rest)
  | RegistrySetEntry _ _ _, write_reply r :: rest => (r, rest)
  | UploadFile _ _, upload_reply r :: rest => (r, rest)
  | GetFileContent _ _, content_reply r :: rest => (r, rest)
  | ExecuteRequest _, http_reply r :: rest => (r, rest)
  | PortalUrl, url_reply r :: rest => (r, rest)
  | _, _ => (inl OFF_SCRIPT, script)
  end.

Definition scripted : Portal (list Canned) := {| answer := scripted_answer |}.

(** ** The data of the examples *)

(** A secret key, its hexadecimal form as the private key, and the public
    key that goes with it. *)
Definition SECRET : bytes := (repeat 1 32 ++ repeat 2 32)%list.
Definition PRIVATE_KEY : JSValue := JString (StringUtils.toHexString SECRET).
Definition PUBLIC_KEY : JSValue := JString (StringUtils.toHexString (repeat 2 32)).
Definition DATA_KEY : JSValue := JString "app/settings".

(** The JSON [{ a: 1 }]. *)
Definition DOCUMENT : JSValue := JObject (<["a" := JNumber (of_Z 1)]> ∅).

(** Two data links (version 1) and an entry link (version 2), as raw
    bytes and as text. *)
Definition CONTENT : bytes := 0 :: 0 :: repeat 7 32.
Definition DATA_LINK : string := base64_encode CONTENT.
Definition EMPTY_LINK : string := base64_encode (repeat 0 34).

Definition CLIENT : SkyDB.SkynetClient := {| SkyDB.customOptions := ∅ |}.

Definition signed (e : option RegistryEntry) : SignedRegistryEntry :=
  {| entry := e; signature := Some (repeat 3 64) |}.

(** The entry [setJSON] writes for a first upload at [DATA_LINK], the same
    with the link as base64 text (the legacy form of entry data), the entry
    a first upload at the empty skylink gives, and a deleted entry. *)
Definition WRITTEN : RegistryEntry :=
  {| dataKey := "app/settings"; data := CONTENT; revision := 0 |}.
Definition LEGACY : RegistryEntry :=
  {| dataKey := "app/settings"; data := ascii_encode DATA_LINK; revision := 3 |}.
Definition WRITTEN_EMPTY : RegistryEntry :=
  {| dataKey := "app/settings"; data := repeat 0 34; revision := 0 |}.
Definition DELETED : RegistryEntry :=
  {| dataKey := "app/settings"; data := repeat 0 34; revision := 8 |}.

(** The entries written and the files uploaded, read off a log. *)
Definition entries_written (l : list Sent) : list RegistryEntry :=
  omap (fun s => match s with SentSetEntry _ e _ => Some e | _ => None end) l.

Definition downloads (l : list Sent) : list string :=
  omap (fun s => match s with SentDownload link _ => Some link | _ => None end) l.

(** Rejections of the transport: answers of the portal outside 200..299,
    and a failure of the network. *)
Definition NOT_FOUND : Rejection :=
  {| rejected_status := Some 404; reason := "Request failed with status code 404" |}.

Definition LEGACY_CLIENT : LegacyRegistry.Client :=
  {| LegacyRegistry.customOptions := <["timeout" := JNumber (of_Z 5)]> ∅ |}.
Definition PER_CALL : JSValue := JObject (<["timeout" := JNumber (of_Z 10)]> ∅).
Definition USER : JSValue := JObject (<["publicKey" := JUint8Array (repeat 2 32)]> ∅).
Definition FILE_ID : JSValue :=
  JObject (<["version" := JNumber (of_Z 1)]>
          (<["applicationID" := JString "app"]>
          (<["fileType" := JNumber (of_Z 1)]>
          (<["filename" := JString "settings.json"]> ∅)))).




(** The answers scripted for a first [setJSON] whose upload resolves to
    [skylink], and for a [getJSON] that finds the entry [found] and the
    enveloped document. *)
Definition write_script (skylink : string) : list Canned :=
  [upload_reply (inr skylink); entry_reply (inr (signed None)); write_reply (inr tt)].

Definition read_script (found : RegistryEntry) : list Canned :=
  [entry_reply (inr (signed (Some found))); content_reply (inr (SkyDB.envelope DOCUMENT))].

End Fixture.

(* ===================================================================== *)
(** * utils/string.ts: [isASCIIString], and what the trims remove *)
(* ===================================================================== *)

Module StringTools.

(** [/^[\x00-\x7F]*$/.test(str)] *)
Fixpoint isASCIIString (str : string) : bool :=
  match str with
  | EmptyString => true
  | String c rest => (nat_of_ascii c <? 128)%nat && isASCIIString rest
  end.

(** [k] copies of a string, one after the other: what [trimPrefix] and
    [trimSuffix] remove. *)
Fixpoint copies (k : nat) (s : string) : string :=
  match k with
  | O => EmptyString
  | S k' => s +:+ copies k' s
  end.

(** The bytes of a [Uint8Array]: the integers from 0 to 255. *)
Definition is_byte (x : Z) : Prop := 0 <= x < 256.

End StringTools.

(* ===================================================================== *)
(** * The requests of a log, by kind *)
(* ===================================================================== *)

Module Traffic.

(** The entries written, the files uploaded and the links downloaded, in
    the order of the log. *)
Definition writes (l : list Sent) : list RegistryEntry :=
  omap (fun s => match s with SentSetEntry _ e _ => Some e | _ => None end) l.

Definition uploads (l : list Sent) : list File :=
  omap (fun s => match s with SentUpload f _ => Some f | _ => None end) l.

Definition fetched (l : list Sent) : list string :=
  omap (fun s => match s with SentDownload link _ => Some link | _ => None end) l.

(** The kinds of requests. *)
Inductive Kind : Type :=
| Lookup
| Write
| Upload
| Fetch
| Http
| Resolve.

Definition kind (s : Sent) : Kind :=
  match s with
  | SentGetEntry _ _ _ => Lookup
  | SentSetEntry _ _ _ => Write
  | SentUpload _ _ => Upload
  | SentDownload _ _ => Fetch
  | SentRequest _ => Http
  | SentPortalUrl => Resolve
  end.

Definition kinds (l : list Sent) : list Kind := map kind l.

(** Whether code has returned. *)
Definition returned {A} (r : Result A) : bool :=
  match r with
  | inl _ => false
  | inr _ => true
  end.

End Traffic.

(* ===================================================================== *)
(** * download.js: the validation of responses *)
(* ===================================================================== *)

Module DownloadResponse.

(** The headers of a response: axios delivers their values as strings. *)
Abbreviation Headers := (gmap string string).

(** A response as the validators read it: [response.data] and
    [response.headers], the latter [None] when the field is missing. *)
Record Response : Type := {
  response_body : JSValue;
  response_headers : option Headers
}.

Section WithExternals.
Context `{Externals}.

#[local] Open Scope result_scope.

(** The double quote, for the names that hold one. *)
Definition DQUOTE : string := String (ascii_of_nat 34) EmptyString.

(** [response.headers[name]] *)
Definition header (h : Headers) (name : string) : JSValue :=
  match h !! name with
  | Some s => JString s
  | None => JUndefined
  end.

(** The name a header is reported under: response.headers[...], the name
    of the header between double quotes. *)
Definition header_path (name : string) : string :=
  "response.headers[" +:+ DQUOTE +:+ name +:+ DQUOTE +:+ "]".

(** [try { ... } catch (err) { throw new Error(`message ${err}`) }] *)
Definition rethrown (message : string) (r : Result unit) : Result unit :=
  match r with
  | inl err => throw (ErrCause message err)
  | inr done => ok done
  end.

(** [if (!v) throw new Error(message)] *)
Definition required (v : JSValue) (message : string) : Result unit :=
  if negb (truthy v) then throw (Err message) else ok tt.

Definition DATA_MISSING : string := "'response.data' field missing".
Definition HEADERS_MISSING : string := "'response.headers' field missing".
Definition CONTENT_TYPE_MISSING : string := "'content-type' header missing".
Definition PORTAL_API_MISSING : string := "'skynet-portal-api' header missing".
Definition SKYLINK_MISSING : string := "'skynet-skylink' header missing".

Definition FILE_CONTENT_INVALID : string :=
  "File content response invalid despite a successful request. Please try again and report this issue to the devs if it persists.".
Definition METADATA_INVALID : string :=
  "Metadata response invalid despite a successful request. Please try again and report this issue to the devs if it persists.".
Definition RESOLVE_HNS_INVALID : string :=
  "Did not get a complete resolve HNS response despite a successful request. Please try again and report this issue to the devs if it persists.".

(** [v === ""] *)
Definition is_empty_string (v : JSValue) : bool :=
  match v with JString s => String.eqb s "" | _ => false end.

(** A body that is there for [getFileContent]: truthy, or the empty
    string of a file of no bytes. *)
Definition present (body : JSValue) : Prop := truthy body = true \/ body = JString "".

(** The checks both validators make on the headers that name the portal
    and the skylink, and on the proof. *)
Definition validate_link_headers (h : Headers) (inputSkylink valueKind : string) : Result unit :=
  let portalUrl := header h "skynet-portal-api" in
  required portalUrl PORTAL_API_MISSING ;;
  Validation.validateString (header_path "skynet-portal-api") portalUrl valueKind ;;
  let skylink := header h "skynet-skylink" in
  required skylink SKYLINK_MISSING ;;
  _ <- Validation.validateSkylinkString parseSkylink (header_path "skynet-skylink") skylink
         valueKind ;;
  Download.validateRegistryProofResponse inputSkylink (Validation.as_string skylink)
    (h !! "skynet-proof").

(** [validateGetFileContentResponse(response, inputSkylink)] *)
Definition validateGetFileContentResponse (response : Response) (inputSkylink : string)
    : Result unit :=
  rethrown FILE_CONTENT_INVALID
    ((if negb (truthy (response_body response)) && negb (is_empty_string (response_body response))
      then throw (Err DATA_MISSING) else ok tt) ;;
     match response_headers response with
     | None => throw (Err HEADERS_MISSING)
     | Some h =>
         let contentType := header h "content-type" in
         required contentType CONTENT_TYPE_MISSING ;;
         Validation.validateString (header_path "content-type") contentType
           "getFileContent response header" ;;
         validate_link_headers h inputSkylink "getFileContent response header"
     end).

(** [validateGetMetadataResponse(response, inputSkylink)] *)
Definition validateGetMetadataResponse (response : Response) (inputSkylink : string)
    : Result unit :=
  rethrown METADATA_INVALID
    (required (response_body response) DATA_MISSING ;;
     match response_headers response with
     | None => throw (Err HEADERS_MISSING)
     | Some h => validate_link_headers h inputSkylink "getMetadata response header"
     end).

(** [extractGetFileContentResponse(response)], on a response with
    headers: [{ data, contentType, portalUrl, skylink }]. *)
Definition extractGetFileContentResponse (body : JSValue) (h : Headers) : JSValue :=
  JObject (<["data" := body]>
          (<["contentType" := header h "content-type"]>
          (<["portalUrl" := header h "skynet-portal-api"]>
          (<["skylink" :=
              JString (formatSkylink (Validation.as_string (header h "skynet-skylink")))]> ∅)))).

(** [validateResolveHnsResponse(response)], on [response.data] *)
Definition validateResolveHnsResponse (data : JSValue) : Result unit :=
  rethrown RESOLVE_HNS_INVALID
    (required data DATA_MISSING ;;
     if truthy (get_prop data "skylink") then
       _ <- Validation.validateSkylinkString parseSkylink "response.data.skylink"
              (get_prop data "skylink") "resolveHns response field" ;;
       ok tt
     else if truthy (get_prop data "registry") then
       let registry := get_prop data "registry" in
       Validation.validateObject "response.data.registry" registry "resolveHns response field" ;;
       Validation.validateString "response.data.registry.publickey"
         (get_prop registry "publickey") "resolveHns response field" ;;
       Validation.validateString "response.data.registry.datakey"
         (get_prop registry "datakey") "resolveHns response field"
     else
       Validation.throwValidationError "response.data" "response data object"
         "object containing skylink or registry field").

End WithExternals.

End DownloadResponse.

(* ===================================================================== *)
(** * skydb.js: [getOrCreateRawBytesRegistryEntry], and the calls by kind *)
(* ===================================================================== *)

Module SkyDBRaw.

Import SkyDB.

Section WithExternals.
Context `{Externals}.

#[local] Open Scope prog_scope.

(** [getOrCreateRawBytesRegistryEntry(client, publicKey, dataKey, data,
    customOptions)] *)
Definition getOrCreateRawBytesRegistryEntry (client : SkynetClient) (publicKey dataKey : string)
    (data : bytes) (customOptions : Options) : Prog RegistryEntry :=
  let opts := merge_options DEFAULT_SET_JSON_OPTIONS client (JObject customOptions) in
  dataKeyHex <-
    (if negb (truthy (option_value opts "hashedDataKeyHex")) then
       bytes <- lift (stringToUint8ArrayUtf8 (JString dataKey)) ;;
       Ret (StringUtils.toHexString bytes)
     else Ret dataKey) ;;
  let file := {| content := JUint8Array data;
                 name := "dk:" +:+ dataKeyHex;
                 type := "application/octet-stream" |} in
  let uploadOpts := extractOptions opts DEFAULT_UPLOAD_OPTIONS in
  let getEntryOpts := extractOptions opts DEFAULT_GET_ENTRY_OPTIONS in
  both <- await_both (UploadFile file uploadOpts)
            (RegistryGetEntry publicKey dataKey getEntryOpts) ;;
  let signedEntry := both.1 in
  let skylink := both.2 in
  revision <- lift (getNextRevisionFromEntry (entry signedEntry)) ;;
  let dataLink := StringUtils.trimUriPrefix skylink URI_SKYNET_PREFIX in
  let rawDataLink := decodeSkylinkBase64 dataLink in
  lift (Validation.validateUint8ArrayLen "rawDataLink" (JUint8Array rawDataLink)
          "skylink byte array" RAW_SKYLINK_SIZE) ;;
  Ret {| dataKey := dataKey; data := rawDataLink; revision := revision |}.

(** The flag [legacy] each read passes to [parseDataLink]. *)
Definition takes_legacy (op : ReadOp) : bool :=
  match op with read_JSON => true | _ => false end.

(** The data key a public call is for. *)
Definition call_dataKey (c : PublicCall) : JSValue :=
  match c with
  | call_getJSON _ dataKey _ | call_setJSON _ dataKey _ _ | call_deleteJSON _ dataKey _
  | call_setDataLink _ dataKey _ _ | call_getEntryData _ dataKey _
  | call_setEntryData _ dataKey _ _ | call_deleteEntryData _ dataKey _
  | call_getRawBytes _ dataKey _ => dataKey
  end.

(** The public calls that write the entry. *)
Definition is_write_call (c : PublicCall) : bool :=
  match c with
  | call_getJSON _ _ _ | call_getEntryData _ _ _ | call_getRawBytes _ _ _ => false
  | _ => true
  end.

(** The requests a public call may have sent when it is over, by kind and
    in order, and whether it may have returned with them: a read, nothing
    (and then it has failed), the lookup, or the lookup and a download;
    [getEntryData] no download; [setJSON], nothing, or the upload and the
    lookup (and then it has failed), or these and the write; the other
    writes, nothing, or the lookup (and then it has failed), or the lookup
    and the write. *)
Definition protocol (c : PublicCall) (succeeded : bool) (sent : list Traffic.Kind) : bool :=
  match c, sent with
  | _, [] => negb succeeded
  | (call_getJSON _ _ _ | call_getRawBytes _ _ _ | call_getEntryData _ _ _),
    [Traffic.Lookup] => true
  | (call_getJSON _ _ _ | call_getRawBytes _ _ _), [Traffic.Lookup; Traffic.Fetch] => true
  | call_setJSON _ _ _ _, [Traffic.Upload; Traffic.Lookup] => negb succeeded
  | call_setJSON _ _ _ _, [Traffic.Upload; Traffic.Lookup; Traffic.Write] => true
  | (call_setEntryData _ _ _ _ | call_setDataLink _ _ _ _ | call_deleteJSON _ _ _
     | call_deleteEntryData _ _ _), [Traffic.Lookup] => negb succeeded
  | (call_setEntryData _ _ _ _ | call_setDataLink _ _ _ _ | call_deleteJSON _ _ _
     | call_deleteEntryData _ _ _), [Traffic.Lookup; Traffic.Write] => true
  | _, _ => false
  end.

(** The portal holds, for a data key, the entry [held]: every lookup for
    the key, in every state, resolves to it. *)
Definition holds {W} (portal : Portal W) (dataKey : string) (held : SignedRegistryEntry) : Prop :=
  forall publicKey opts w,
    (answer portal (RegistryGetEntry publicKey dataKey opts) w).1 = inr held.

End WithExternals.

End SkyDBRaw.

(* ===================================================================== *)
(** * download.js: [getFileContent], and the engine with it in place *)
(* ===================================================================== *)

(** What download.js imports, for the URL of a skylink, from files that are
    not part of the sources, and the functions of the platform it calls
    there.  [parseSkylink] of [Externals] is the call without options. *)
Class UrlExternals : Type := {
  (** skylink/parse.js: [parseSkylink(skylinkUrl, { onlyPath: true })] and
      [parseSkylink(skylinkUrl, { includePath: true })] *)
  parseSkylinkOnlyPath : string -> option string;
  parseSkylinkIncludePath : string -> option string;
  (** skylink/format.js *)
  convertSkylinkToBase32 : string -> Result string;
  (** utils/url.js *)
  addUrlSubdomain : string -> string -> Result string;
  makeUrl : list JSValue -> Result string;
  addUrlQuery : string -> Options -> Result string;
  (** [encodeURIComponent] *)
  encodeURIComponent : string -> Result string;
  (** skylink/sia.js and registry.js on an input skylink that is [null]:
      [isSkylinkV1(null)] and [validateRegistryProof(proofArray, null,
      dataLink)] *)
  isSkylinkV1_null : Result bool;
  validateRegistryProof_null : JSValue -> string -> Result unit
}.

Module FileContent.

Import SkyDB Download DownloadResponse.

Section WithExternals.
Context `{Externals} `{UrlExternals}.

(** [str.split("/")] *)
Fixpoint split_slash (str : string) : list string :=
  match str with
  | EmptyString => [EmptyString]
  | String c rest =>
      if Ascii.eqb c "/" then EmptyString :: split_slash rest
      else match split_slash rest with
           | first :: others => String c first :: others
           | [] => [String c EmptyString]
           end
  end.

(** [elements.map((element) => encodeURIComponent(element))] *)
Fixpoint encoded (elements : list string) : Result (list string) :=
  match elements with
  | [] => ok []
  | element :: others =>
      rbind (encodeURIComponent element) (fun first =>
      rbind (encoded others) (fun rest => ok (first :: rest)))
  end.

#[local] Open Scope result_scope.

(** [buildQuery(download)] *)
Definition buildQuery (download : JSValue) : Options :=
  if truthy download then <["attachment" := JString "true"]> ∅ else ∅.

(** [buildGetFileContentHeaders(range)] *)
Definition buildGetFileContentHeaders (range : JSValue) : Options :=
  if truthy range then <["range" := range]> ∅ else ∅.

(** [getSkylinkUrlForPortal(portalUrl, skylinkUrl, customOptions)] *)
Definition getSkylinkUrlForPortal (portalUrl skylinkUrl customOptions : JSValue)
    : Result string :=
  Validation.validateString "portalUrl" portalUrl "parameter" ;;
  Validation.validateString "skylinkUrl" skylinkUrl "parameter" ;;
  Validation.validateOptionalObject "customOptions" customOptions "parameter"
    DEFAULT_DOWNLOAD_OPTIONS ;;
  let opts := spread DEFAULT_DOWNLOAD_OPTIONS (own_properties customOptions) in
  let query := buildQuery (option_value opts "download") in
  path <-
    (if truthy (option_value opts "path") then
       match option_value opts "path" with
       | JString optsPath =>
           elements <- encoded (split_slash optsPath) ;;
           ok (String.concat "/" elements)
       | other => throw (PathNotString (typeof other))
       end
     else ok "") ;;
  if truthy (option_value opts "subdomain") then
    let skylinkPath := default "" (parseSkylinkOnlyPath (Validation.as_string skylinkUrl)) in
    match parseSkylink (Validation.as_string skylinkUrl) with
    | None => throw (NoSkylink (Validation.as_string skylinkUrl))
    | Some skylink =>
        skylink <- convertSkylinkToBase32 skylink ;;
        url <- addUrlSubdomain (Validation.as_string portalUrl) skylink ;;
        url <- makeUrl [JString url; JString skylinkPath; JString path] ;;
        addUrlQuery url query
    end
  else
    match parseSkylinkIncludePath (Validation.as_string skylinkUrl) with
    | None => throw (NoSkylinkWithPath (Validation.as_string skylinkUrl))
    | Some skylink =>
        url <- makeUrl [portalUrl; option_value opts "endpointDownload"; JString skylink] ;;
        url <- makeUrl [JString url; JString path] ;;
        addUrlQuery url query
    end.

(** [validateRegistryProofResponse(null, dataLink, proof)]: [null] is
    different from every data link. *)
Definition validateRegistryProofResponse_null (dataLink : string) (proof : Header)
    : Result unit :=
  proofArray <- parseProofHeader proof ;;
  isV1 <- isSkylinkV1_null ;;
  if isV1 : bool then throw NOT_SAME
  else validateRegistryProof_null proofArray dataLink.

(** [validateGetFileContentResponse(response, null)] *)
Definition validateGetFileContentResponse_null (response : Response) : Result unit :=
  rethrown FILE_CONTENT_INVALID
    ((if negb (truthy (response_body response)) && negb (is_empty_string (response_body response))
      then throw (Err DATA_MISSING) else ok tt) ;;
     match response_headers response with
     | None => throw (Err HEADERS_MISSING)
     | Some h =>
         let contentType := header h "content-type" in
         required contentType CONTENT_TYPE_MISSING ;;
         Validation.validateString (header_path "content-type") contentType
           "getFileContent response header" ;;
         let portalUrl := header h "skynet-portal-api" in
         required portalUrl PORTAL_API_MISSING ;;
         Validation.validateString (header_path "skynet-portal-api") portalUrl
           "getFileContent response header" ;;
         let skylink := header h "skynet-skylink" in
         required skylink SKYLINK_MISSING ;;
         _ <- Validation.validateSkylinkString parseSkylink (header_path "skynet-skylink")
                skylink "getFileContent response header" ;;
         validateRegistryProofResponse_null (Validation.as_string skylink) (h !! "skynet-proof")
     end).

(** The response of [executeRequest] as the validators read it. *)
Definition received (response : AxiosResponse) : Response :=
  {| response_body := response_data response; response_headers := headers response |}.

(** [extractGetFileContentResponse(response)]: the read of a header throws
    on a response without headers. *)
Definition extracted (response : AxiosResponse) : Result JSValue :=
  match headers response with
  | None => throw (TypeError "content-type")
  | Some h => ok (extractGetFileContentResponse (response_data response) h)
  end.

#[local] Open Scope prog_scope.

(** [getSkylinkUrl(skylinkUrl, customOptions)] *)
Definition getSkylinkUrl (client : SkynetClient) (skylinkUrl customOptions : JSValue)
    : Prog string :=
  let opts := merge_options DEFAULT_DOWNLOAD_OPTIONS client customOptions in
  portalUrl <- await PortalUrl ;;
  lift (getSkylinkUrlForPortal portalUrl skylinkUrl (JObject opts)).

(** [getFileContentRequest(skylinkUrl, customOptions)] *)
Definition getFileContentRequest (client : SkynetClient) (skylinkUrl customOptions : JSValue)
    : Prog AxiosResponse :=
  let opts := merge_options DEFAULT_DOWNLOAD_OPTIONS client customOptions in
  url <- getSkylinkUrl client skylinkUrl (JObject opts) ;;
  let headers := buildGetFileContentHeaders (option_value opts "range") in
  await (ExecuteRequest
           (spread opts
              (<["method" := JString "get"]>
              (<["url" := JString url]>
              (<["subdomain" := JUndefined]>
              (<["headers" := JObject headers]> ∅)))))).

(** [getFileContent(skylinkUrl, customOptions)].  The input skylink is
    parsed once the request has been answered: the source expects it not
    to be [null] there. *)
Definition getFileContent (client : SkynetClient) (skylinkUrl customOptions : JSValue)
    : Prog JSValue :=
  response <- getFileContentRequest client skylinkUrl customOptions ;;
  match parseSkylink (Validation.as_string skylinkUrl) with
  | Some inputSkylink => lift (validateGetFileContentResponse (received response) inputSkylink)
  | None => lift (validateGetFileContentResponse_null (received response))
  end ;;
  lift (extracted response).

(** Code of the engine with the download in place: where the code calls
    [getFileContent], the method runs; what it throws is thrown on by the
    [await], and what it returns is destructured for its [data]. *)
Fixpoint with_download {A} (client : SkynetClient) (p : Prog A) : Prog A :=
  match p with
  | Ret a => Ret a
  | Throw e => Throw e
  | Call req k =>
      match req in Request X return (Reply X -> Prog A) -> Prog A with
      | GetFileContent skylinkUrl opts => fun k =>
          bind (getFileContent client (JString skylinkUrl) (JObject opts)) (fun content =>
          with_download client (k (inr (get_prop content "data"))))
      | RegistryGetEntry publicKey dataKey opts => fun k =>
          Call (RegistryGetEntry publicKey dataKey opts) (fun r => with_download client (k r))
      | RegistrySetEntry privateKey entry opts => fun k =>
          Call (RegistrySetEntry privateKey entry opts) (fun r => with_download client (k r))
      | UploadFile file opts => fun k =>
          Call (UploadFile file opts) (fun r => with_download client (k r))
      | ExecuteRequest config => fun k =>
          Call (ExecuteRequest config) (fun r => with_download client (k r))
      | PortalUrl => fun k =>
          Call PortalUrl (fun r => with_download client (k r))
      end k
  end.

(** The public operations, with the download in place. *)
Definition downloading (client : SkynetClient) (c : PublicCall) : Prog JSValue :=
  with_download client (perform client c).

(** The public calls that download a file. *)
Definition reads_file (c : PublicCall) : bool :=
  match c with
  | call_getJSON _ _ _ | call_getRawBytes _ _ _ => true
  | _ => false
  end.

(** The errors raised for the input of a caller: those of the validation
    of a parameter, and the error for a path that is no string. *)
Definition input_failure (e : Error) : bool :=
  caller_input_failure e ||
  match e with
  | PathNotString _ => true
  | _ => false
  end.

End WithExternals.

End FileContent.

(* ===================================================================== *)
(** * A portal that holds one entry *)
(* ===================================================================== *)

Module Scenario.

(** The portal answers every lookup with the entry [held], every upload
    with [skylink], every download with [content], and accepts every
    write without storing it. *)
Definition holding_answer (held : SignedRegistryEntry) (skylink : string) (content : JSValue)
    (X : Type) (req : Request X) (w : unit) : Reply X * unit :=
  match req in Request X return Reply X * unit with
  | RegistryGetEntry _ _ _ => (inr held, w)
  | RegistrySetEntry _ _ _ => (inr tt, w)
  | UploadFile _ _ => (inr skylink, w)
  | GetFileContent _ _ => (inr content, w)
  | ExecuteRequest _ => (inl Fixture.OFF_SCRIPT, w)
  | PortalUrl => (inl Fixture.OFF_SCRIPT, w)
  end.

Definition holding (held : SignedRegistryEntry) (skylink : string) (content : JSValue)
    : Portal unit :=
  {| answer := holding_answer held skylink content |}.

(** An entry at the last revision. *)
Definition LAST : RegistryEntry :=
  {| dataKey := "app/settings"; data := Fixture.CONTENT; revision := 18446744073709551615 |}.

(** Entry data of the greatest length, and the entries that hold them
    and the deletion sentinel after the entry [Fixture.LEGACY], of
    revision 3. *)
Definition SEVENTY : bytes := repeat 5 70.

Definition NEXT : RegistryEntry :=
  {| dataKey := "app/settings"; data := SEVENTY; revision := 4 |}.

Definition SENTINEL : RegistryEntry :=
  {| dataKey := "app/settings"; data := repeat 0 34; revision := 4 |}.

Definition after_legacy : list Fixture.Canned :=
  [Fixture.entry_reply (inr (Fixture.signed (Some Fixture.LEGACY)));
   Fixture.write_reply (inr tt)].

(** The options of a read that knows the data link [Fixture.DATA_LINK]. *)
Definition CACHED : JSValue :=
  JObject (<["cachedDataLink" := JString Fixture.DATA_LINK]> ∅).

(** The link the reads download for the entry [Fixture.WRITTEN]. *)
Definition LINK : string := Fixture.SIA_PREFIX +:+ Fixture.DATA_LINK.

(** The answers to a read that finds [Fixture.WRITTEN] and downloads
    [content]. *)
Definition found_with (content : JSValue) : list Fixture.Canned :=
  [Fixture.entry_reply (inr (Fixture.signed (Some Fixture.WRITTEN)));
   Fixture.content_reply (inr content)].

(** The response of a portal to the download of [Fixture.DATA_LINK]. *)
Definition HEADERS : DownloadResponse.Headers :=
  <["content-type" := "application/json"]>
  (<["skynet-portal-api" := "https://siasky.net"]>
  (<["skynet-skylink" := Fixture.DATA_LINK]> ∅)).

Definition RESPONSE : DownloadResponse.Response :=
  {| DownloadResponse.response_body := Fixture.DOCUMENT;
     DownloadResponse.response_headers := Some HEADERS |}.

(** The URL of a skylink on the fixture: the parts of a URL are joined by
    slashes, a part that is no string is refused, and the query is the
    attachment flag. *)
Definition NOT_A_URL : Error := Err "Url must be a string".

Fixpoint fixture_makeUrl (parts : list JSValue) : Result string :=
  match parts with
  | [] => ok ""
  | JString part :: others =>
      rbind (fixture_makeUrl others) (fun rest =>
      ok (if String.eqb rest "" then part
          else StringUtils.trimSuffix_total part "/" +:+ "/"
               +:+ StringUtils.trimPrefix_total rest "/"))
  | _ :: _ => throw NOT_A_URL
  end.

Definition fixture_addUrlQuery (url : string) (query : Options) : Result string :=
  match query !! "attachment" with
  | Some _ => ok (url +:+ "?attachment=true")
  | None => ok url
  end.

#[export] Instance urls : UrlExternals := {|
  parseSkylinkOnlyPath := fun _ => None;
  parseSkylinkIncludePath := Fixture.fixture_parseSkylink;
  convertSkylinkToBase32 := fun skylink => ok skylink;
  addUrlSubdomain := fun url subdomain => ok (subdomain +:+ "." +:+ url);
  makeUrl := fixture_makeUrl;
  addUrlQuery := fixture_addUrlQuery;
  encodeURIComponent := fun element => ok element;
  isSkylinkV1_null := throw (TypeError "length");
  validateRegistryProof_null := fun _ _ => throw (TypeError "length")
|}.

(** The address of the portal, options of a call with a path that is no
    string, and the answers scripted for a [getJSON] with the download in
    place: the entry, the address of the portal and the file. *)
Definition PORTAL : JSValue := JString "https://siasky.net".

Definition PATH_FIVE : JSValue := JObject (<["path" := JNumber (of_Z 5)]> ∅).

Definition FILE_ANSWER : AxiosResponse :=
  {| status := 200;
     response_data := SkyDB.envelope Fixture.DOCUMENT;
     headers := Some HEADERS |}.

Definition download_script : list Fixture.Canned :=
  [ Fixture.entry_reply (inr (Fixture.signed (Some Fixture.WRITTEN)));
    Fixture.url_reply (inr PORTAL);
    Fixture.http_reply (inr FILE_ANSWER) ].

End Scenario.

(* ===================================================================== *)
(** * Properties of utils/string.ts *)
(* ===================================================================== *)

Module StringFacts.

Import StringUtils.

Lemma prefix_length (p : string) :
  forall s, String.prefix p s = true -> (String.length p <= String.length s)%nat.
Proof.
  induction p as [|c p IH]; intros [|d s]; simpl; try lia; try discriminate.
  destruct (Ascii.ascii_dec c d); [|discriminate].
  intros Hp. apply IH in Hp. lia.
Qed.

Lemma slice_length (s : string) :
  forall n, String.length (slice s n) = (String.length s - n)%nat.
Proof. induction s as [|c s IH]; intros [|n]; simpl; auto. Qed.

Lemma substring0_length (s : string) :
  forall n, String.length (substring0 s n) = Nat.min n (String.length s).
Proof. induction s as [|c s IH]; intros [|n]; simpl; auto. Qed.

Lemma slice_0 (s : string) : slice s 0 = s.
Proof. destruct s; reflexivity. Qed.



Lemma nonempty_length (s : string) : s <> "" -> (0 < String.length s)%nat.
Proof. destruct s; [congruence | simpl; lia]. Qed.

(** An iteration of [trimPrefix] that goes on with a non-empty prefix has
    shortened the string. *)
Lemma trimPrefix_iteration_shortens (prefix str : string) (limit : Limit) str' limit' :
  prefix <> "" ->
  trimPrefix_iteration prefix str limit = Again str' limit' ->
  (String.length str' < String.length str)%nat.
Proof.
  intros Hne. unfold trimPrefix_iteration, startsWith.
  destruct (String.prefix prefix str) eqn:Hp; [|discriminate].
  destruct (limit_reached limit); [discriminate|].
  intros [= <- _]. apply prefix_length in Hp. apply nonempty_length in Hne.
  rewrite slice_length. lia.
Qed.

(** The same for [trimSuffix]. *)
Lemma trimSuffix_iteration_shortens (suffix str : string) (limit : Limit) str' limit' :
  suffix <> "" ->
  trimSuffix_iteration suffix str limit = Again str' limit' ->
  (String.length str' < String.length str)%nat.
Proof.
  intros Hne. unfold trimSuffix_iteration, endsWith.
  destruct (String.length suffix <=? String.length str)%nat eqn:Hle; [|discriminate].
  simpl. destruct (String.eqb _ suffix); [|discriminate].
  destruct (limit_reached limit); [discriminate|].
  intros [= <- _]. apply Nat.leb_le in Hle. apply nonempty_length in Hne.
  rewrite substring0_length. lia.
Qed.


(** A loop whose iterations lower a measure, under an invariant, returns
    within as many iterations as the measure is. *)
Lemma while_returns (iteration : string -> Limit -> Iteration)
    (inv : string -> Limit -> Prop) (measure : string -> Limit -> nat) :
  (forall str limit str' limit',
      inv str limit -> iteration str limit = Again str' limit' ->
      inv str' limit' /\ (measure str' limit' < measure str limit)%nat) ->
  forall fuel str limit,
    inv str limit -> (measure str limit < fuel)%nat ->
    exists r, while iteration fuel str limit = Some r.
Proof.
  intros Hstep. induction fuel as [|fuel IH]; intros str limit Hinv Hlt; [lia|].
  simpl. destruct (iteration str limit) as [r | str' limit'] eqn:Hit; [eauto|].
  destruct (Hstep _ _ _ _ Hinv Hit) as [Hinv' Hlt'].
  apply IH; [assumption | lia].
Qed.


(** With a non-empty affix both loops return within [length str + 1]
    evaluations of their test, whatever the limit. *)
Lemma trim_returns_nonempty (str affix : string) (limit : Limit) :
  affix <> "" ->
  (exists r, trimPrefix (S (String.length str)) str affix limit = Some r) /\
  (exists r, trimSuffix (S (String.length str)) str affix limit = Some r).
Proof.
  intros Hne. split.
  - apply (while_returns _ (fun _ _ => True) (fun s _ => String.length s)); [|exact I|lia].
    intros s l s' l' _ Hit. split; [exact I|].
    eapply trimPrefix_iteration_shortens; eassumption.
  - apply (while_returns _ (fun _ _ => True) (fun s _ => String.length s)); [|exact I|lia].
    intros s l s' l' _ Hit. split; [exact I|].
    eapply trimSuffix_iteration_shortens; eassumption.
Qed.






(** The total forms agree with the loops: with "/" the loops return within
    the fuel the total forms give them. *)
Lemma trimSuffix_total_returns (str suffix : string) :
  suffix <> "" ->
  trimSuffix (S (String.length str)) str suffix None = Some (trimSuffix_total str suffix).
Proof.
  intros Hne. unfold trimSuffix_total.
  destruct (trim_returns_nonempty str suffix None Hne) as [_ [r ->]]. reflexivity.
Qed.

Lemma trimPrefix_total_returns (str prefix : string) :
  prefix <> "" ->
  trimPrefix (S (String.length str)) str prefix None = Some (trimPrefix_total str prefix).
Proof.
  intros Hne. unfold trimPrefix_total.
  destruct (trim_returns_nonempty str prefix None Hne) as [[r ->] _]. reflexivity.
Qed.

End StringFacts.

(* ===================================================================== *)
(** * Properties of the request trees *)
(* ===================================================================== *)

Module NetFacts.

Lemma bind_lift_ok {A B} (a : A) (f : A -> Prog B) : bind (lift (ok a)) f = f a.
Proof. reflexivity. Qed.

Lemma bind_lift_throw {A B} (e : Error) (f : A -> Prog B) :
  bind (lift (throw e : Result A)) f = Throw e.
Proof. reflexivity. Qed.

(** What is thrown before the first request is the result, and nothing has
    been sent. *)
Lemma run_Throw {W A} (portal : Portal W) (e : Error) (w : W) :
  run portal (Throw e : Prog A) w = {| result := inl e; world := w; log := [] |}.
Proof. reflexivity. Qed.

(** A request is answered by the portal, and the code goes on with the
    outcome in the world the answer leaves. *)
Lemma run_Call {W A X} (portal : Portal W) (req : Request X) (k : Reply X -> Prog A)
    (w w' : W) (r : Reply X) :
  answer portal req w = (r, w') ->
  run portal (Call req k) w =
  {| result := result (run portal (k r) w');
     world := world (run portal (k r) w');
     log := sent req :: log (run portal (k r) w') |}.
Proof. intros Hans. simpl. rewrite Hans. reflexivity. Qed.

(** Running a sequence: the first part, then the second on its value. *)
Lemma run_bind {W A B} (portal : Portal W) (p : Prog A) (f : A -> Prog B) :
  forall w,
    run portal (bind p f) w =
    match result (run portal p w) with
    | inl e => {| result := inl e; world := world (run portal p w);
                  log := log (run portal p w) |}
    | inr a =>
        let o := run portal (f a) (world (run portal p w)) in
        {| result := result o; world := world o;
           log := (log (run portal p w) ++ log o)%list |}
    end.
Proof.
  induction p as [a | e | X req k IH]; intros w; simpl.
  - destruct (run portal (f a) w); reflexivity.
  - reflexivity.
  - destruct (answer portal req w) as [r w']. rewrite IH.
    destruct (result (run portal (k r) w')); reflexivity.
Qed.

End NetFacts.

(* ===================================================================== *)
(** * Properties of the engine *)
(* ===================================================================== *)

Module SkyDBFacts.

Import SkyDB NetFacts.

(** ** The revision tracker *)

(** C1. The next revision is 0 for no prior entry, [r + 1] for a prior
    entry of revision [r < 2^64 - 1], and the call fails with the
    maximum-revision error for a prior entry of revision [2^64 - 1], which
    is [MAX_REVISION]. *)
Theorem next_revision :
  Number.MAX_REVISION = 2 ^ 64 - 1 /\
  getNextRevisionFromEntry None = ok 0 /\
  (forall priorEntry : RegistryEntry,
      revision priorEntry < 2 ^ 64 - 1 ->
      getNextRevisionFromEntry (Some priorEntry) = ok (revision priorEntry + 1)) /\
  (forall priorEntry : RegistryEntry,
      revision priorEntry = 2 ^ 64 - 1 ->
      getNextRevisionFromEntry (Some priorEntry) = throw (Err MAX_REVISION_MESSAGE)).
Proof.
  split; [reflexivity|]. split; [reflexivity|]. split.
  - intros e Hlt. unfold getNextRevisionFromEntry.
    destruct (revision e + 1 >? Number.MAX_REVISION) eqn:Hgt; [|reflexivity].
    apply Z.gtb_lt in Hgt. unfold Number.MAX_REVISION in Hgt. lia.
  - intros e Heq. unfold getNextRevisionFromEntry. rewrite Heq. reflexivity.
Qed.

(** The theorem at work: after revision 41 comes 42; after the largest
    revision comes the error. *)
Lemma next_revision_witness :
  getNextRevisionFromEntry (Some {| dataKey := "k"; data := []; revision := 41 |}) = ok 42 /\
  getNextRevisionFromEntry
    (Some {| dataKey := "k"; data := []; revision := 18446744073709551615 |})
  = throw (Err MAX_REVISION_MESSAGE).
Proof.
  destruct next_revision as (_ & _ & Hnext & Hmax). split.
  - apply (Hnext {| dataKey := "k"; data := []; revision := 41 |}). simpl. lia.
  - apply (Hmax {| dataKey := "k"; data := []; revision := 18446744073709551615 |}).
    reflexivity.
Defined.

Section WithExternals.
Context `{Externals}.

(** ** Reads of an absent entry *)

Lemma areEqualUint8Arrays_eq (a b : bytes) : areEqualUint8Arrays a b = true <-> a = b.
Proof. unfold areEqualUint8Arrays. apply bool_decide_eq_true. Qed.

Lemma areEqualUint8Arrays_ne (a b : bytes) : areEqualUint8Arrays a b = false <-> a <> b.
Proof. unfold areEqualUint8Arrays. apply bool_decide_eq_false. Qed.

Lemma areEqualUint8Arrays_refl (a : bytes) : areEqualUint8Arrays a a = true.
Proof. apply areEqualUint8Arrays_eq. reflexivity. Qed.

(** C5. For each of the reads ([getJSON], [getEntryData], [getRawBytes]):
    when the registry lookup resolves to no entry, or to an entry whose data
    is the deletion sentinel, the read returns null data, and for [getJSON]
    and [getRawBytes] a null data link; the lookup is the only request
    sent, so nothing is downloaded. *)
Theorem absent_entry_reads_null {W} (portal : Portal W) (op : ReadOp) (client : SkynetClient)
    (publicKey dataKey customOptions : JSValue) (signedEntry : SignedRegistryEntry) (w w' : W) :
  valid_read_input op publicKey dataKey customOptions ->
  answer portal (lookup op client publicKey dataKey customOptions) w = (inr signedEntry, w') ->
  absent signedEntry ->
  run portal (read op client publicKey dataKey customOptions) w =
    {| result := ok (not_found op); world := w';
       log := [sent (lookup op client publicKey dataKey customOptions)] |}
  /\ get_prop (not_found op) "data" = JNull
  /\ (op <> read_EntryData -> get_prop (not_found op) "dataLink" = JNull).
Proof.
  intros (Hpk & Hdk & Hco) Hans Habs. split; [|split].
  - unfold absent in Habs.
    destruct op; unfold read, getJSON, getEntryData, getRawBytes, lookup in *;
      simpl read_model in Hco; rewrite Hpk, Hdk, Hco; cbn [lift bind ok];
      unfold getSkyDBRegistryEntry, await; cbn [bind];
      erewrite run_Call by exact Hans; cbn [settled lift bind];
      (destruct (entry signedEntry) as [e|];
       [rewrite Habs, areEqualUint8Arrays_refl|]); reflexivity.
  - destruct op; reflexivity.
  - destruct op; [reflexivity | congruence | reflexivity].
Qed.

(** ** Entry data as a data link *)

(** [parseDataLink] succeeds exactly on the raw size and, when [legacy] is
    set, on the size of the base64 text; it fails with the validation error
    on every other length. *)
Lemma parseDataLink_accepts (data : bytes) (legacy : bool) :
  ((exists links, parseDataLink data legacy = ok links) <->
   (List.length data = RAW_SKYLINK_SIZE \/
    (legacy = true /\ List.length data = BASE64_ENCODED_SKYLINK_SIZE))) /\
  ((forall links, parseDataLink data legacy <> ok links) ->
   parseDataLink data legacy = throw MALFORMED_ENTRY_DATA).
Proof.
  unfold parseDataLink.
  destruct legacy; simpl;
    destruct (Nat.eqb_spec (List.length data) BASE64_ENCODED_SKYLINK_SIZE) as [Hb|Hb];
    destruct (Nat.eqb_spec (List.length data) RAW_SKYLINK_SIZE) as [Hr|Hr];
    (split; [split; [intros [links Hl]; try discriminate; tauto
                    | intros Hlen; try (eexists; reflexivity);
                      destruct Hlen as [?|[? ?]]; congruence]
            | intros Hno; try reflexivity; exfalso; eapply Hno; reflexivity]).
Qed.

Lemma parseDataLink_by_length (op : ReadOp) (data : bytes) (legacy : bool) :
  legacy = match op with read_JSON => true | _ => false end ->
  op <> read_EntryData ->
  (accepted_length op (List.length data) -> exists links, parseDataLink data legacy = ok links) /\
  (~ accepted_length op (List.length data) -> parseDataLink data legacy = throw MALFORMED_ENTRY_DATA).
Proof.
  intros -> Hop.
  destruct (parseDataLink_accepts data match op with read_JSON => true | _ => false end)
    as [Hiff Hfail].
  destruct op; [| congruence |]; simpl accepted_length; split.
  - intros Hacc. apply Hiff. tauto.
  - intros Hrej. apply Hfail. intros links Hl. apply Hrej.
    destruct (proj1 Hiff (ex_intro _ links Hl)) as [?|[_ ?]]; tauto.
  - intros Hacc. apply Hiff. tauto.
  - intros Hrej. apply Hfail. intros links Hl. apply Hrej.
    destruct (proj1 Hiff (ex_intro _ links Hl)) as [?|[? _]]; [tauto | discriminate].
Qed.

(** C6 (as amended). For an entry that is there (its data not the deletion
    sentinel): [getJSON] takes entry data of the raw skylink size and, for
    backward compatibility, of the size of the base64 text; [getRawBytes]
    takes the raw skylink size only.  On any other length the read fails
    with the validation error of malformed entry data, having sent the
    lookup alone; on an accepted length it does not fail with that error. *)
Theorem entry_data_length {W} (portal : Portal W) (op : ReadOp) (client : SkynetClient)
    (publicKey dataKey customOptions : JSValue) (signedEntry : SignedRegistryEntry)
    (found : RegistryEntry) (w w' : W) :
  valid_read_input op publicKey dataKey customOptions ->
  answer portal (lookup op client publicKey dataKey customOptions) w = (inr signedEntry, w') ->
  entry signedEntry = Some found ->
  data found <> EMPTY_SKYLINK ->
  (~ accepted_length op (List.length (data found)) ->
     run portal (read op client publicKey dataKey customOptions) w =
       {| result := throw MALFORMED_ENTRY_DATA; world := w';
          log := [sent (lookup op client publicKey dataKey customOptions)] |}) /\
  (accepted_length op (List.length (data found)) ->
     result (run portal (read op client publicKey dataKey customOptions) w)
       <> throw MALFORMED_ENTRY_DATA) /\
  (accepted_length read_JSON (List.length (data found)) <->
     exists links, parseDataLink (data found) true = ok links) /\
  (accepted_length read_RawBytes (List.length (data found)) <->
     exists links, parseDataLink (data found) false = ok links).
Proof.
  intros (Hpk & Hdk & Hco) Hans Hfound Hne.
  apply areEqualUint8Arrays_ne in Hne.
  assert (forall A (k : option RegistryEntry -> Prog A) pk dk opts,
             answer portal (RegistryGetEntry pk dk opts) w = (inr signedEntry, w') ->
             run portal (bind (getSkyDBRegistryEntry client pk dk opts) k) w =
             {| result := result (run portal (k (Some found)) w');
                world := world (run portal (k (Some found)) w');
                log := sent (RegistryGetEntry pk dk opts) :: log (run portal (k (Some found)) w') |})
    as Hlookup.
  { intros A k pk dk opts Ha. unfold getSkyDBRegistryEntry, await. cbn [bind].
    erewrite run_Call by exact Ha. cbn [settled lift bind]. rewrite Hfound, Hne. reflexivity. }
  split; [|split; [|split]].
  - intros Hrej.
    destruct op; [| exfalso; apply Hrej; exact I |];
      unfold read, getJSON, getRawBytes, lookup in *; simpl read_model in Hco;
      rewrite Hpk, Hdk, Hco; cbn [lift bind ok];
      rewrite (Hlookup _ _ _ _ _ Hans);
      [ destruct (parseDataLink_by_length read_JSON (data found) true eq_refl) as [_ ->]
      | destruct (parseDataLink_by_length read_RawBytes (data found) false eq_refl) as [_ ->] ];
      try congruence; try exact Hrej; reflexivity.
  - intros Hacc.
    destruct op; unfold read, getJSON, getEntryData, getRawBytes, lookup in *;
      simpl read_model in Hco; rewrite Hpk, Hdk, Hco; cbn [lift bind ok];
      rewrite (Hlookup _ _ _ _ _ Hans); cbn [result].
    + destruct (parseDataLink_by_length read_JSON (data found) true eq_refl) as [[links ->] _];
        [congruence | exact Hacc |].
      cbn [lift bind ok]. destruct (checkCachedDataLink _ _); [discriminate|].
      simpl. destruct (answer portal _ w') as [[why | content] w'']; simpl; [discriminate|].
      unfold unwrapJSON.
      repeat match goal with |- context [if ?b then _ else _] => destruct b end;
        discriminate.
    + discriminate.
    + destruct (parseDataLink_by_length read_RawBytes (data found) false eq_refl)
        as [[links ->] _]; [congruence | exact Hacc |].
      cbn [lift bind ok]. destruct (checkCachedDataLink _ _); [discriminate|].
      simpl. destruct (answer portal _ w') as [[why | content] w'']; simpl; [discriminate|].
      destruct (new_Uint8Array content) as [e|array] eqn:Hnew; simpl; [|discriminate].
      unfold new_Uint8Array in Hnew.
      destruct content; try discriminate Hnew;
        destruct (Uint8Array_of _); inversion Hnew; discriminate.
  - destruct (parseDataLink_accepts (data found) true) as [Hiff _]. simpl. rewrite Hiff. tauto.
  - destruct (parseDataLink_accepts (data found) false) as [Hiff _]. simpl. rewrite Hiff.
    split; [tauto | intros [?|[? _]]; [assumption | discriminate]].
Qed.


(** ** The validation at the head of the operations *)

(** The validators on invalid input. *)

Lemma validateString_not (name : string) (v : JSValue) (valueKind : string) :
  not_a_string v ->
  Validation.validateString name v valueKind
  = throw (ValidationError name valueKind "type 'string'").
Proof.
  unfold not_a_string, Validation.validateString. intros Hv.
  destruct (String.eqb_spec (typeof v) "string"); [contradiction | reflexivity].
Qed.

Lemma validateHexString_not (name : string) (v : JSValue) (valueKind : string) :
  not_a_string v ->
  Validation.validateHexString name v valueKind
  = throw (ValidationError name valueKind "type 'string'").
Proof.
  intros Hv. unfold Validation.validateHexString. rewrite validateString_not by exact Hv.
  reflexivity.
Qed.

Lemma validateObject_not (name : string) (v : JSValue) (valueKind : string) :
  not_an_object v ->
  exists expected,
    Validation.validateObject name v valueKind
    = throw (ValidationError name valueKind expected).
Proof.
  unfold not_an_object, Validation.validateObject. intros [Hv | ->].
  - destruct (String.eqb_spec (typeof v) "object"); [contradiction | eexists; reflexivity].
  - eexists; reflexivity.
Qed.

Lemma validateUint8Array_not (name : string) (v : JSValue) (valueKind : string) :
  not_a_Uint8Array v ->
  Validation.validateUint8Array name v valueKind
  = throw (ValidationError name valueKind "type 'Uint8Array'").
Proof. destruct v; simpl; intros Hv; solve [reflexivity | contradiction]. Qed.

Lemma validateOptionalObject_wrong_type (name : string) (v : JSValue) (valueKind : string)
    (model : Options) :
  options_of_wrong_type v ->
  Validation.validateOptionalObject name v valueKind model
  = throw (ValidationError name valueKind "type 'object'").
Proof.
  unfold options_of_wrong_type, Validation.validateOptionalObject, Validation.validateObject.
  intros [-> Hv]. simpl.
  destruct (String.eqb_spec (typeof v) "object"); [contradiction | reflexivity].
Qed.

(** A value with a property of its own is truthy. *)
Lemma own_property_truthy (v : JSValue) (k : string) :
  is_Some (own_properties v !! k) -> truthy v = true.
Proof.
  destruct v as [| | b | n | z | s | b | l | m]; simpl;
    try (rewrite lookup_empty; intros [? ?]; discriminate); try reflexivity.
  destruct s; [|reflexivity].
  unfold indexed. simpl. rewrite lookup_empty. intros [? ?]; discriminate.
Qed.

Lemma all_properties_in_false (v : JSValue) (model : Options) :
  unrecognized_key v model -> Validation.all_properties_in v model = false.
Proof.
  intros (k & [x Hx] & Hk). unfold Validation.all_properties_in.
  destruct (forallb _ _) eqn:Hall; [|reflexivity].
  rewrite forallb_forall in Hall.
  specialize (Hall (k, x)). simpl in Hall. rewrite Hk in Hall.
  symmetry. apply Hall. apply list_elem_of_In, elem_of_map_to_list. exact Hx.
Qed.

Lemma validateOptionalObject_unrecognized (name : string) (v : JSValue) (valueKind : string)
    (model : Options) :
  unrecognized_key v model ->
  exists e, Validation.validateOptionalObject name v valueKind model = throw e /\
            (valueKind = "parameter" -> caller_input_failure e = true).
Proof.
  intros Hk. unfold Validation.validateOptionalObject.
  destruct Hk as (k & Hsome & Hin) eqn:Hkeep. clear Hkeep.
  rewrite (own_property_truthy v k Hsome). simpl.
  destruct (Validation.validateObject name v valueKind) as [e|[]] eqn:Hobj.
  - exists e. split; [reflexivity|]. intros ->. revert Hobj.
    unfold Validation.validateObject.
    destruct (String.eqb _ _); simpl; [destruct (is_null v)|]; intros [= <-]; reflexivity.
  - simpl. rewrite all_properties_in_false by (exists k; auto).
    eexists. split; [reflexivity|]. intros ->. reflexivity.
Qed.

Lemma validateEntryData_too_long (d : bytes) (allow : JSValue) :
  (MAX_ENTRY_LENGTH < List.length d)%nat ->
  exists expected,
    validateEntryData d allow = throw (ValidationError "data" "parameter" expected).
Proof.
  intros Hlen. unfold validateEntryData.
  destruct (Nat.ltb_spec MAX_ENTRY_LENGTH (List.length d)); [eexists; reflexivity | lia].
Qed.

(** The steps of a validation head, one validator at a time: it throws,
    or the code goes on. *)
Ltac validator_step :=
  match goal with
  | |- exists e, bind (lift ?r) _ = Throw e =>
      let E := fresh "Hv" in
      destruct r as [?e|?a] eqn:E; [eexists; reflexivity | cbn [lift bind]]
  end.

Lemma setEntryData_invalid (client : SkynetClient) (privateKey dataKey data customOptions : JSValue) :
  invalid_input (call_setEntryData privateKey dataKey data customOptions) ->
  exists e, setEntryData client privateKey dataKey data customOptions = Throw e.
Proof.
  simpl. intros Hbad. unfold setEntryData.
  do 5 validator_step. exfalso.
  destruct Hbad as [Hb | [Hb | [Hb | [Hb | [Hb | Hb]]]]].
  - rewrite validateHexString_not in Hv by exact Hb. discriminate.
  - rewrite validateString_not in Hv0 by exact Hb. discriminate.
  - rewrite validateUint8Array_not in Hv1 by exact Hb. discriminate.
  - rewrite validateOptionalObject_wrong_type in Hv2 by exact Hb. discriminate.
  - destruct (validateOptionalObject_unrecognized "customOptions" customOptions "parameter"
                DEFAULT_SET_ENTRY_DATA_OPTIONS Hb) as (e & He & _).
    rewrite He in Hv2. discriminate.
  - destruct Hb as (d & -> & Hlen). simpl in Hv3.
    destruct (validateEntryData_too_long d
                (option_value (merge_options DEFAULT_SET_ENTRY_DATA_OPTIONS client customOptions)
                   "allowDeletionEntryData") Hlen) as (x & Hx).
    rewrite Hx in Hv3. discriminate.
Qed.

Lemma unrecognized_key_insert (v : JSValue) (model extra : Options) (name : string)
    (x : JSValue) :
  unrecognized_key v model ->
  unrecognized_key (JObject (<[name := x]> (spread extra (own_properties v)))) model.
Proof.
  intros (k & [y Hy] & Hk). exists k. split; [|exact Hk]. simpl.
  destruct (decide (name = k)) as [->|Hne].
  - rewrite lookup_insert_eq. eauto.
  - rewrite lookup_insert_ne by exact Hne. unfold spread.
    exists y. apply lookup_union_Some_l. exact Hy.
Qed.

(** On an invalid input every public operation throws before its first
    request. *)
Lemma invalid_input_throws (client : SkynetClient) (c : PublicCall) :
  invalid_input c -> exists e, perform client c = Throw e.
Proof.
  destruct c as [pk dk co | sk dk json co | sk dk co | sk dk link co
                 | pk dk co | sk dk d co | sk dk co | pk dk co]; simpl perform.
  - simpl. intros Hbad. unfold getJSON. do 3 validator_step. exfalso.
    destruct Hbad as [Hb | [Hb | Hb]].
    + rewrite validateString_not in Hv0 by exact Hb. discriminate.
    + rewrite validateOptionalObject_wrong_type in Hv1 by exact Hb. discriminate.
    + destruct (validateOptionalObject_unrecognized "customOptions" co "parameter"
                  DEFAULT_GET_JSON_OPTIONS Hb) as (e & He & _).
      rewrite He in Hv1. discriminate.
  - simpl. intros Hbad. unfold setJSON. do 4 validator_step. exfalso.
    destruct Hbad as [Hb | [Hb | [Hb | [Hb | Hb]]]].
    + rewrite validateHexString_not in Hv by exact Hb. discriminate.
    + rewrite validateString_not in Hv0 by exact Hb. discriminate.
    + destruct (validateObject_not "json" json "parameter" Hb) as (x & Hx).
      rewrite Hx in Hv1. discriminate.
    + rewrite validateOptionalObject_wrong_type in Hv2 by exact Hb. discriminate.
    + destruct (validateOptionalObject_unrecognized "customOptions" co "parameter"
                  DEFAULT_SET_JSON_OPTIONS Hb) as (e & He & _).
      rewrite He in Hv2. discriminate.
  - simpl. intros Hbad. unfold deleteJSON.
    edestruct (setEntryData_invalid client sk dk (JUint8Array DELETION_ENTRY_DATA)) as [e ->];
      [|eexists; reflexivity].
    simpl. destruct Hbad as [Hb | [Hb | Hb]]; [tauto | tauto |].
    right; right; right; right; left.
    unfold merge_options. apply unrecognized_key_insert. exact Hb.
  - simpl. intros Hbad. unfold setDataLink. validator_step.
    edestruct (setEntryData_invalid client sk dk (JUint8Array (decodeSkylink a))) as [e ->];
      [|eexists; reflexivity].
    simpl. destruct Hbad as [Hb | [Hb | [Hb | [Hb | Hb]]]]; try tauto.
    exfalso. unfold Validation.validateSkylinkString in Hv.
    rewrite validateString_not in Hv by exact Hb. discriminate.
  - simpl. intros Hbad. unfold getEntryData. do 3 validator_step. exfalso.
    destruct Hbad as [Hb | [Hb | Hb]].
    + rewrite validateString_not in Hv0 by exact Hb. discriminate.
    + rewrite validateOptionalObject_wrong_type in Hv1 by exact Hb. discriminate.
    + destruct (validateOptionalObject_unrecognized "customOptions" co "parameter"
                  DEFAULT_GET_ENTRY_OPTIONS Hb) as (e & He & _).
      rewrite He in Hv1. discriminate.
  - apply setEntryData_invalid.
  - simpl. intros Hbad. unfold deleteEntryData.
    edestruct (setEntryData_invalid client sk dk (JUint8Array DELETION_ENTRY_DATA)) as [e ->];
      [|eexists; reflexivity].
    simpl. destruct Hbad as [Hb | [Hb | Hb]]; [tauto | tauto |].
    right; right; right; right; left.
    pose proof (unrecognized_key_insert co DEFAULT_SET_ENTRY_DATA_OPTIONS ∅
                  "allowDeletionEntryData" (JBool true) Hb) as Hk.
    unfold spread in Hk. rewrite (right_id_L ∅ (∪)) in Hk. exact Hk.
  - simpl. intros Hbad. unfold getRawBytes. do 3 validator_step. exfalso.
    destruct Hbad as [Hb | [Hb | Hb]].
    + rewrite validateString_not in Hv0 by exact Hb. discriminate.
    + rewrite validateOptionalObject_wrong_type in Hv1 by exact Hb. discriminate.
    + destruct (validateOptionalObject_unrecognized "customOptions" co "parameter"
                  DEFAULT_GET_JSON_OPTIONS Hb) as (e & He & _).
      rewrite He in Hv1. discriminate.
Qed.

(** ** Writing JSON and reading it back *)

Lemma validateObject_ok (name : string) (v : JSValue) (valueKind : string) :
  Validation.validateObject name v valueKind = ok tt ->
  typeof v = "object" /\ is_null v = false.
Proof.
  unfold Validation.validateObject.
  destruct (String.eqb_spec (typeof v) "object"); simpl; [|discriminate].
  destruct (is_null v); [discriminate | auto].
Qed.

(** An object that is not [null] is truthy. *)
Lemma object_truthy (v : JSValue) :
  typeof v = "object" -> is_null v = false -> truthy v = true.
Proof. destruct v; simpl; intros; solve [reflexivity | discriminate]. Qed.

Ltac head_ok :=
  match goal with
  | |- result (run _ (bind (lift ?r) _) _) = ok _ -> _ =>
      let E := fresh "Hok" in
      destruct r as [?e|?a] eqn:E; [discriminate|];
      repeat match goal with x : unit |- _ => destruct x end;
      cbn [lift bind]
  end.

(** A successful [setJSON] has sent three requests: the upload of the
    enveloped JSON, the lookup of the entry, and the write of an entry
    whose data has the raw skylink size. *)
Lemma setJSON_success {W} (portal : Portal W) (client : SkynetClient)
    (privateKey dataKey json customOptions : JSValue) (w0 : W) (returned : JSValue) :
  result (run portal (setJSON client privateKey dataKey json customOptions) w0) = ok returned ->
  exists file uploadOpts publicKey getOpts written setOpts,
    log (run portal (setJSON client privateKey dataKey json customOptions) w0) =
      [ sent (UploadFile file uploadOpts);
        sent (RegistryGetEntry publicKey (Validation.as_string dataKey) getOpts);
        sent (RegistrySetEntry (Validation.as_string privateKey) written setOpts) ] /\
    content file = JString (JSON_stringify (envelope json)) /\
    Net.dataKey written = Validation.as_string dataKey /\
    List.length (data written) = RAW_SKYLINK_SIZE /\
    get_prop returned "data" = json /\
    typeof json = "object" /\ is_null json = false /\
    Validation.validateString "dataKey" dataKey "parameter" = ok tt.
Proof.
  unfold setJSON. do 6 head_ok.
  apply validateObject_ok in Hok1 as [Hobj Hnull].
  unfold getOrCreateRegistryEntry.
  set (opts := merge_options DEFAULT_SET_JSON_OPTIONS client customOptions).
  set (opts' := merge_options DEFAULT_SET_JSON_OPTIONS client (JObject opts)).
  destruct (negb (truthy (option_value opts' "hashedDataKeyHex")));
    cbn [stringToUint8ArrayUtf8 Validation.validateString typeof String.eqb Ascii.eqb
         Bool.eqb rbind ok lift bind await_both await run];
    (destruct (answer portal (UploadFile _ _) w0) as [[why1|skylink] w1];
     destruct (answer portal (RegistryGetEntry _ _ _) w1) as [[why2|signedEntry] w2];
     cbn [bind run result log world fst snd]; try discriminate;
     destruct (getNextRevisionFromEntry (entry signedEntry)) as [?|revision];
     cbn [lift bind run result log world]; try discriminate;
     destruct (Validation.validateUint8ArrayLen _ _ _ _) as [?|[]] eqn:Hlen;
     cbn [lift bind run result log world fst snd settled]; try discriminate;
     destruct (answer portal (RegistrySetEntry _ _ _) w2) as [[why3|[]] w3];
     cbn [lift bind run result log world settled]; try discriminate;
     intros [= <-];
     eexists _, _, _, _, _, _;
     (split; [reflexivity|]); (split; [reflexivity|]); (split; [reflexivity|]);
     (split; [|split; [reflexivity | repeat split; assumption]]);
     revert Hlen; unfold Validation.validateUint8ArrayLen; simpl;
     destruct (Nat.eqb_spec (List.length (decodeSkylinkBase64
                 (StringUtils.trimUriPrefix skylink URI_SKYNET_PREFIX))) RAW_SKYLINK_SIZE);
     [intros _; assumption | discriminate]).
Qed.

(** Reading an entry that is there, called with no options: the lookup,
    then the download of the entry's data link, then the unwrapping. *)
Lemma getJSON_enveloped {W} (portal : Portal W) (reader : SkynetClient)
    (publicKey dataKey json : JSValue) (written : RegistryEntry) (sig : option bytes)
    (raw link : string) (w1 w2 w3 : W) :
  typeof json = "object" -> is_null json = false ->
  valid_read_input read_JSON publicKey dataKey JUndefined ->
  data written <> EMPTY_SKYLINK ->
  parseDataLink (data written) true = ok (raw, link) ->
  checkCachedDataLink raw
    (option_value (merge_options DEFAULT_GET_JSON_OPTIONS reader JUndefined) "cachedDataLink")
    = false ->
  answer portal (lookup read_JSON reader publicKey dataKey JUndefined) w1
    = (inr {| entry := Some written; signature := sig |}, w2) ->
  answer portal
    (GetFileContent link
       (extractOptions (merge_options DEFAULT_GET_JSON_OPTIONS reader JUndefined)
          Download.DEFAULT_DOWNLOAD_OPTIONS)) w2
    = (inr (envelope json), w3) ->
  run portal (getJSON reader publicKey dataKey JUndefined) w1 =
    {| result := ok (data_and_link json (JString link)); world := w3;
       log := [ sent (lookup read_JSON reader publicKey dataKey JUndefined);
                sent (GetFileContent link
                        (extractOptions
                           (merge_options DEFAULT_GET_JSON_OPTIONS reader JUndefined)
                           Download.DEFAULT_DOWNLOAD_OPTIONS)) ] |}.
Proof.
  intros Hobj Hnull (Hpk & Hdk & Hco) Hne Hparse Hcache Hlookup Hdownload.
  apply areEqualUint8Arrays_ne in Hne.
  unfold getJSON, lookup in *. simpl read_model in Hco.
  rewrite Hpk, Hdk, Hco. cbn [lift bind ok].
  unfold getSkyDBRegistryEntry, await. cbn [bind].
  erewrite run_Call by exact Hlookup. cbn [settled lift bind entry].
  rewrite Hne. cbn [bind]. rewrite Hparse. cbn [lift bind ok fst snd].
  rewrite Hcache. cbn [bind].
  erewrite run_Call by exact Hdownload. cbn [settled lift bind].
  unfold unwrapJSON.
  assert (get_prop (envelope json) "_data" = json) as Hdata.
  { unfold envelope, get_prop. rewrite lookup_insert_eq. reflexivity. }
  assert (get_prop (envelope json) "_v" = JNumber JSON_RESPONSE_VERSION) as Hv.
  { unfold envelope, get_prop. rewrite lookup_insert_ne by discriminate.
    rewrite lookup_insert_eq. reflexivity. }
  rewrite Hdata, Hv, (object_truthy json Hobj Hnull), Hobj. reflexivity.
Qed.

(** C2 (as amended). A successful [setJSON] has uploaded the envelope
    [{ _data: json, _v: 2 }] as the content of a file and has written an
    entry for the data key.  When a later [getJSON] for that key, called
    with no options and with no cached data link taking effect, is answered
    by the portal with the entry just written and then, at the entry's data
    link, with the uploaded document, and the entry's data is not the
    deletion sentinel, it finds the fields [_data] and [_v], unwraps the
    envelope and returns [json] itself as the data. *)
Theorem setJSON_then_getJSON {W} (portal : Portal W) (writer : SkynetClient)
    (privateKey dataKey json customOptions : JSValue) (w0 : W) (returned : JSValue) :
  result (run portal (setJSON writer privateKey dataKey json customOptions) w0) = ok returned ->
  exists file uploadOpts writerKey getOpts written setOpts,
    log (run portal (setJSON writer privateKey dataKey json customOptions) w0) =
      [ sent (UploadFile file uploadOpts);
        sent (RegistryGetEntry writerKey (Validation.as_string dataKey) getOpts);
        sent (RegistrySetEntry (Validation.as_string privateKey) written setOpts) ] /\
    content file = JString (JSON_stringify (envelope json)) /\
    Net.dataKey written = Validation.as_string dataKey /\
    (exists links, parseDataLink (data written) true = ok links) /\
    forall (reader : SkynetClient) (publicKey : JSValue) (sig : option bytes)
           (raw link : string) (w1 w2 w3 : W),
      validatePublicKey "publicKey" publicKey "parameter" = ok tt ->
      data written <> EMPTY_SKYLINK ->
      parseDataLink (data written) true = ok (raw, link) ->
      checkCachedDataLink raw
        (option_value (merge_options DEFAULT_GET_JSON_OPTIONS reader JUndefined)
           "cachedDataLink") = false ->
      answer portal (lookup read_JSON reader publicKey dataKey JUndefined) w1
        = (inr {| entry := Some written; signature := sig |}, w2) ->
      answer portal
        (GetFileContent link
           (extractOptions (merge_options DEFAULT_GET_JSON_OPTIONS reader JUndefined)
              Download.DEFAULT_DOWNLOAD_OPTIONS)) w2
        = (inr (envelope json), w3) ->
      run portal (getJSON reader publicKey dataKey JUndefined) w1 =
        {| result := ok (data_and_link json (JString link)); world := w3;
           log := [ sent (lookup read_JSON reader publicKey dataKey JUndefined);
                    sent (GetFileContent link
                            (extractOptions
                               (merge_options DEFAULT_GET_JSON_OPTIONS reader JUndefined)
                               Download.DEFAULT_DOWNLOAD_OPTIONS)) ] |}
      /\ get_prop (data_and_link json (JString link)) "data" = json.
Proof.
  intros Hset.
  destruct (setJSON_success portal writer privateKey dataKey json customOptions w0 returned Hset)
    as (file & uploadOpts & writerKey & getOpts & written & setOpts
        & Hlog & Hfile & Hkey & Hlen & _ & Hobj & Hnull & Hdk).
  exists file, uploadOpts, writerKey, getOpts, written, setOpts.
  split; [exact Hlog|]. split; [exact Hfile|]. split; [exact Hkey|]. split.
  - apply (parseDataLink_accepts (data written) true). left. exact Hlen.
  - intros reader publicKey sig raw link w1 w2 w3 Hpk Hne Hparse Hcache Hlookup Hdownload.
    split.
    + apply (getJSON_enveloped portal reader publicKey dataKey json written sig raw link w1 w2 w3);
        try assumption.
      split; [exact Hpk | split; [exact Hdk | reflexivity]].
    + unfold data_and_link, get_prop. rewrite lookup_insert_eq. reflexivity.
Qed.

End WithExternals.

End SkyDBFacts.

(* ===================================================================== *)
(** * Properties of download.js *)
(* ===================================================================== *)

Module DownloadFacts.

Import Download.

Section WithExternals.
Context `{Externals}.






End WithExternals.

End DownloadFacts.

(* ===================================================================== *)
(** * Properties of object spread *)
(* ===================================================================== *)

Module SpreadFacts.

(** In [{ ...a, ...b }] a property of [b] is read from [b], any other
    from [a]. *)
Lemma spread_lookup (a b : Options) (k : string) :
  spread a b !! k = match b !! k with Some v => Some v | None => a !! k end.
Proof.
  unfold spread. destruct (b !! k) as [v|] eqn:Hb.
  - apply lookup_union_Some_l. exact Hb.
  - apply lookup_union_r. exact Hb.
Qed.

End SpreadFacts.

(* ===================================================================== *)
(** * Properties of the first registry client *)
(* ===================================================================== *)

Module LegacyFacts.

Import LegacyRegistry NetFacts SpreadFacts.

Section WithExternals.
Context `{LegacyExternals}.

(** A read on [undefined] or [null] throws; any other value is read. *)
Lemma member_null (v : JSValue) (k : string) :
  v = JNull \/ v = JUndefined -> member v k = throw (TypeError k).
Proof. intros [->| ->]; reflexivity. Qed.


(** The run of [lookupRegistry], by what building the request gives. *)
Lemma run_lookupRegistry {W} (portal : Portal W) (client : Client)
    (user fileID perCall : JSValue) (w : W) :
  run portal (lookupRegistry client user fileID perCall) w =
  match lookup_config (registry_options client perCall) user fileID with
  | inl err => {| result := ok JNull; world := w; log := [] |}
  | inr config =>
      let '(outcome, w') := answer portal (ExecuteRequest config) w in
      {| result :=
           match outcome with
           | inl why => ok JNull
           | inr response =>
               if status response =? 200 then lookup_value response
               else throw (UnexpectedStatus (status response))
           end;
         world := w';
         log := [SentRequest config] |}
  end.
Proof.
  unfold lookupRegistry.
  destruct (lookup_config (registry_options client perCall) user fileID) as [err|config];
    [reflexivity|].
  cbn [run]. destruct (answer portal (ExecuteRequest config) w) as [[why|response] w'];
    [reflexivity|].
  destruct (status response =? 200); [|reflexivity].
  destruct (lookup_value response); reflexivity.
Qed.

(** The run of [updateRegistry], by what building the request gives. *)
Lemma run_updateRegistry {W} (portal : Portal W) (client : Client)
    (user fileID srv perCall : JSValue) (w : W) :
  run portal (updateRegistry client user fileID srv perCall) w =
  match update_config (registry_options client perCall) user fileID srv with
  | inl err => {| result := ok (JBool false); world := w; log := [] |}
  | inr config =>
      let '(outcome, w') := answer portal (ExecuteRequest config) w in
      {| result :=
           match outcome with
           | inl why => ok (JBool false)
           | inr response =>
               if status response =? 204 then ok (JBool true)
               else throw (UnexpectedStatus (status response))
           end;
         world := w';
         log := [SentRequest config] |}
  end.
Proof.
  unfold updateRegistry.
  destruct (update_config (registry_options client perCall) user fileID srv) as [err|config];
    [reflexivity|].
  cbn [run]. destruct (answer portal (ExecuteRequest config) w) as [[why|response] w'];
    [reflexivity|].
  destruct (status response =? 204); reflexivity.
Qed.



(** The options of the first registry client, property by property: the
    client's own, else the call's, else the default. *)
Lemma registry_options_lookup (client : Client) (perCall : JSValue) (k : string) :
  registry_options client perCall !! k =
  match customOptions client !! k with
  | Some v => Some v
  | None =>
      match own_properties perCall !! k with
      | Some v => Some v
      | None => defaultRegistryOptions !! k
      end
  end.
Proof. unfold registry_options. rewrite !spread_lookup. reflexivity. Qed.

(** A request that has been built carries the merged options under every
    name but the two the function sets. *)
Lemma lookup_config_options (opts config : Options) (user fileID : JSValue) (k : string) :
  lookup_config opts user fileID = ok config ->
  k <> "method" -> k <> "query" -> config !! k = opts !! k.
Proof.
  unfold lookup_config. intros Hconfig Hm Hq.
  repeat (match type of Hconfig with
          | rbind ?r _ = _ => destruct r; cbn [rbind] in Hconfig; [discriminate|]
          end).
  injection Hconfig as <-. rewrite spread_lookup.
  rewrite lookup_insert_ne by congruence. rewrite lookup_insert_ne by congruence.
  rewrite lookup_empty. reflexivity.
Qed.

Lemma update_config_options (opts config : Options) (user fileID srv : JSValue) (k : string) :
  update_config opts user fileID srv = ok config ->
  k <> "method" -> k <> "data" -> config !! k = opts !! k.
Proof.
  unfold update_config. intros Hconfig Hm Hd.
  repeat (match type of Hconfig with
          | rbind ?r _ = _ => destruct r; cbn [rbind] in Hconfig; [discriminate|]
          end).
  injection Hconfig as <-. rewrite spread_lookup.
  rewrite lookup_insert_ne by congruence. rewrite lookup_insert_ne by congruence.
  rewrite lookup_empty. reflexivity.
Qed.

(** The requests sent by the two functions: the one built, or none. *)
Lemma log_lookupRegistry {W} (portal : Portal W) (client : Client)
    (user fileID perCall : JSValue) (w : W) :
  log (run portal (lookupRegistry client user fileID perCall) w) =
  match lookup_config (registry_options client perCall) user fileID with
  | inl err => []
  | inr config => [SentRequest config]
  end.
Proof.
  rewrite run_lookupRegistry.
  destruct (lookup_config (registry_options client perCall) user fileID) as [err|config];
    [reflexivity|].
  destruct (answer portal (ExecuteRequest config) w). reflexivity.
Qed.

Lemma log_updateRegistry {W} (portal : Portal W) (client : Client)
    (user fileID srv perCall : JSValue) (w : W) :
  log (run portal (updateRegistry client user fileID srv perCall) w) =
  match update_config (registry_options client perCall) user fileID srv with
  | inl err => []
  | inr config => [SentRequest config]
  end.
Proof.
  rewrite run_updateRegistry.
  destruct (update_config (registry_options client perCall) user fileID srv) as [err|config];
    [reflexivity|].
  destruct (answer portal (ExecuteRequest config) w). reflexivity.
Qed.

(** C9. In the first registry client the options of [lookupRegistry] and
    [updateRegistry] are the defaults, then the options of the call, then
    the options of the client.  Property by property: the merged options
    hold the client's value where the client sets one, else the call's
    where the call sets one, else the default.  So a key set by both has
    the client's value, and the call's value for it changes nothing.  The
    request, when the function gets to build one, is the only one sent
    and carries the merged options under every name but the two the
    function sets itself; when building it throws, none is sent.  In the
    engine the call's options are spread last: there the call's value is
    read where the call sets one, else the client's, else the default. *)
Theorem client_options_win (client : Client) (perCall : JSValue) :
  (forall k,
      registry_options client perCall !! k =
      match customOptions client !! k with
      | Some clientValue => Some clientValue
      | None =>
          match own_properties perCall !! k with
          | Some callValue => Some callValue
          | None => defaultRegistryOptions !! k
          end
      end) /\
  (forall k clientValue callValue,
      customOptions client !! k = Some clientValue ->
      own_properties perCall !! k = Some callValue ->
      registry_options client perCall !! k = Some clientValue /\
      (forall otherCall,
          (forall k', k' <> k -> own_properties otherCall !! k' = own_properties perCall !! k') ->
          registry_options client otherCall = registry_options client perCall)) /\
  (forall {W} (portal : Portal W) (user fileID : JSValue) (w : W),
      match lookup_config (registry_options client perCall) user fileID with
      | inl err => log (run portal (lookupRegistry client user fileID perCall) w) = []
      | inr config =>
          log (run portal (lookupRegistry client user fileID perCall) w) = [SentRequest config] /\
          (forall k, k <> "method" -> k <> "query" ->
             config !! k = registry_options client perCall !! k)
      end) /\
  (forall {W} (portal : Portal W) (user fileID srv : JSValue) (w : W),
      match update_config (registry_options client perCall) user fileID srv with
      | inl err => log (run portal (updateRegistry client user fileID srv perCall) w) = []
      | inr config =>
          log (run portal (updateRegistry client user fileID srv perCall) w)
          = [SentRequest config] /\
          (forall k, k <> "method" -> k <> "data" ->
             config !! k = registry_options client perCall !! k)
      end) /\
  (forall defaults k,
      SkyDB.merge_options defaults {| SkyDB.customOptions := customOptions client |} perCall !! k
      = match own_properties perCall !! k with
        | Some callValue => Some callValue
        | None =>
            match customOptions client !! k with
            | Some clientValue => Some clientValue
            | None => defaults !! k
            end
        end).
Proof.
  split; [|split; [|split; [|split]]].
  - intros k. apply registry_options_lookup.
  - intros k clientValue callValue Hclient Hcall. split.
    + rewrite registry_options_lookup, Hclient. reflexivity.
    + intros otherCall Hsame. apply map_eq. intros k'.
      rewrite !registry_options_lookup.
      destruct (decide (k' = k)) as [->|Hne]; [rewrite Hclient; reflexivity|].
      rewrite (Hsame k' Hne). reflexivity.
  - intros W portal user fileID w. rewrite log_lookupRegistry.
    destruct (lookup_config (registry_options client perCall) user fileID) as [err|config] eqn:Hc;
      [reflexivity|].
    split; [reflexivity|]. intros k Hm Hq.
    exact (lookup_config_options _ _ _ _ k Hc Hm Hq).
  - intros W portal user fileID srv w. rewrite log_updateRegistry.
    destruct (update_config (registry_options client perCall) user fileID srv)
      as [err|config] eqn:Hc; [reflexivity|].
    split; [reflexivity|]. intros k Hm Hd.
    exact (update_config_options _ _ _ _ _ k Hc Hm Hd).
  - intros defaults k. unfold SkyDB.merge_options. rewrite !spread_lookup. reflexivity.
Qed.

End WithExternals.

End LegacyFacts.

(* ===================================================================== *)
(** * The theorems on the fixture *)
(* ===================================================================== *)

Module Examples.

Import Fixture SkyDB Download.

(** ** Reads of an absent entry *)

(** A read of a deleted entry: null data and a null data link, and the
    answer scripted for a download is still there. *)
Lemma absent_entry_reads_null_witness :
  run scripted (getJSON CLIENT PUBLIC_KEY DATA_KEY JUndefined)
    [entry_reply (inr (signed (Some DELETED))); content_reply (inr (envelope DOCUMENT))]
  = {| result := ok (data_and_link JNull JNull);
       world := [content_reply (inr (envelope DOCUMENT))];
       log := [sent (lookup read_JSON CLIENT PUBLIC_KEY DATA_KEY JUndefined)] |}.
Proof.
  apply (SkyDBFacts.absent_entry_reads_null scripted read_JSON CLIENT PUBLIC_KEY DATA_KEY JUndefined
           (signed (Some DELETED))).
  - repeat split; vm_compute; reflexivity.
  - reflexivity.
  - reflexivity.
Defined.

(** ** Entry data as a data link *)

(** The legacy form of entry data, 46 bytes of base64 text: [getRawBytes]
    refuses it. *)
Lemma entry_data_length_witness :
  run scripted (getRawBytes CLIENT PUBLIC_KEY DATA_KEY JUndefined)
    [entry_reply (inr (signed (Some LEGACY)))]
  = {| result := throw MALFORMED_ENTRY_DATA; world := [];
       log := [sent (lookup read_RawBytes CLIENT PUBLIC_KEY DATA_KEY JUndefined)] |}.
Proof.
  apply (SkyDBFacts.entry_data_length scripted read_RawBytes CLIENT PUBLIC_KEY DATA_KEY
           JUndefined (signed (Some LEGACY)) LEGACY).
  - repeat split; vm_compute; reflexivity.
  - reflexivity.
  - reflexivity.
  - vm_compute. discriminate.
  - vm_compute. discriminate.
Defined.

(** C6, the claim as it is written, fails for [getRawBytes]: entry data of
    the legacy length (46 bytes, the base64 text of a skylink) is refused
    with the validation error, where [getJSON] takes the same entry and
    downloads its link. *)
Lemma getRawBytes_refuses_legacy_length :
  List.length (data LEGACY) = BASE64_ENCODED_SKYLINK_SIZE /\
  result (run scripted (getRawBytes CLIENT PUBLIC_KEY DATA_KEY JUndefined)
            [entry_reply (inr (signed (Some LEGACY)));
             content_reply (inr (JUint8Array [1; 2; 3]))])
  = throw (ValidationError "entry.data" "returned entry data" "length 34 bytes") /\
  downloads (log (run scripted (getRawBytes CLIENT PUBLIC_KEY DATA_KEY JUndefined)
                    [entry_reply (inr (signed (Some LEGACY)));
                     content_reply (inr (JUint8Array [1; 2; 3]))])) = [] /\
  result (run scripted (getJSON CLIENT PUBLIC_KEY DATA_KEY JUndefined)
            [entry_reply (inr (signed (Some LEGACY)));
             content_reply (inr (envelope DOCUMENT))])
  = ok (data_and_link DOCUMENT (JString (SIA_PREFIX +:+ DATA_LINK))).
Proof. repeat split; vm_compute; reflexivity. Qed.

(** ** Writing JSON and reading it back *)

(** [{ a: 1 }] written at [DATA_LINK] and read back. *)
Lemma setJSON_then_getJSON_witness :
  result (run scripted (setJSON CLIENT PRIVATE_KEY DATA_KEY DOCUMENT JUndefined)
            (write_script (SIA_PREFIX +:+ DATA_LINK)))
  = ok (data_and_link DOCUMENT (JString (SIA_PREFIX +:+ DATA_LINK))) /\
  entries_written (log (run scripted (setJSON CLIENT PRIVATE_KEY DATA_KEY DOCUMENT JUndefined)
                          (write_script (SIA_PREFIX +:+ DATA_LINK)))) = [WRITTEN] /\
  result (run scripted (getJSON CLIENT PUBLIC_KEY DATA_KEY JUndefined) (read_script WRITTEN))
  = ok (data_and_link DOCUMENT (JString (SIA_PREFIX +:+ DATA_LINK))).
Proof.
  split; [vm_compute; reflexivity|]. split; [vm_compute; reflexivity|].
  destruct (SkyDBFacts.setJSON_then_getJSON scripted CLIENT PRIVATE_KEY DATA_KEY DOCUMENT
              JUndefined (write_script (SIA_PREFIX +:+ DATA_LINK))
              (data_and_link DOCUMENT (JString (SIA_PREFIX +:+ DATA_LINK))))
    as (file & uploadOpts & writerKey & getOpts & written & setOpts
        & Hlog & _ & _ & _ & Hread).
  - vm_compute. reflexivity.
  - assert (written = WRITTEN) as ->.
    { apply (f_equal entries_written) in Hlog. vm_compute in Hlog.
      injection Hlog as <-. reflexivity. }
    destruct (Hread CLIENT PUBLIC_KEY (Some (repeat 3 64)) DATA_LINK (SIA_PREFIX +:+ DATA_LINK)
                (read_script WRITTEN) [content_reply (inr (envelope DOCUMENT))] [])
      as [Hrun _].
    + vm_compute. reflexivity.
    + vm_compute. discriminate.
    + vm_compute. reflexivity.
    + vm_compute. reflexivity.
    + reflexivity.
    + reflexivity.
    + rewrite Hrun. reflexivity.
Defined.

(** C2, the claim as it is written, fails when the upload resolves to the
    empty skylink: [setJSON] succeeds and writes an entry whose data is the
    deletion sentinel; the portal then returns that entry and would return
    the uploaded document, and [getJSON] returns null data and a null data
    link without asking for the document. *)
Lemma upload_at_the_empty_skylink_reads_null :
  result (run scripted (setJSON CLIENT PRIVATE_KEY DATA_KEY DOCUMENT JUndefined)
            (write_script (SIA_PREFIX +:+ EMPTY_LINK)))
  = ok (data_and_link DOCUMENT (JString (SIA_PREFIX +:+ EMPTY_LINK))) /\
  entries_written (log (run scripted (setJSON CLIENT PRIVATE_KEY DATA_KEY DOCUMENT JUndefined)
                          (write_script (SIA_PREFIX +:+ EMPTY_LINK)))) = [WRITTEN_EMPTY] /\
  run scripted (getJSON CLIENT PUBLIC_KEY DATA_KEY JUndefined) (read_script WRITTEN_EMPTY)
  = {| result := ok (data_and_link JNull JNull);
       world := [content_reply (inr (envelope DOCUMENT))];
       log := [sent (lookup read_JSON CLIENT PUBLIC_KEY DATA_KEY JUndefined)] |}.
Proof. repeat split; vm_compute; reflexivity. Qed.

(** ** The bound on entry data *)

(** The bound itself: 71 bytes fail with the validation error on the
    parameter, 70 bytes are written, after the lookup, at revision 0. *)
Example entry_data_bound :
  result (run scripted
            (setEntryData CLIENT PRIVATE_KEY DATA_KEY (JUint8Array (repeat 5 71)) JUndefined)
            [entry_reply (inr (signed None)); write_reply (inr tt)])
  = throw (ValidationError "data" "parameter" "'Uint8Array' of length <= 70, was length 71") /\
  run scripted
    (setEntryData CLIENT PRIVATE_KEY DATA_KEY (JUint8Array (repeat 5 70)) JUndefined)
    [entry_reply (inr (signed None)); write_reply (inr tt)]
  = {| result := ok (data_only (JUint8Array (repeat 5 70)));
       world := [];
       log := [ SentGetEntry (StringUtils.toHexString (repeat 2 32)) "app/settings"
                  (merge_options GET_ENTRY CLIENT
                     (JObject (fixture_extractOptions
                                 (merge_options SET_ENTRY_DATA CLIENT JUndefined) GET_ENTRY)));
                SentSetEntry (StringUtils.toHexString SECRET)
                  {| dataKey := "app/settings"; data := repeat 5 70; revision := 0 |}
                  (fixture_extractOptions
                     (merge_options SET_ENTRY_DATA CLIENT JUndefined) SET_ENTRY) ] |}.
Proof. split; vm_compute; reflexivity. Qed.

(** ** Proof validation *)





(** ** The first registry client *)



(** A timeout of 5 set on the client and of 10 on the call: the first
    registry client uses 5 and sends its request with 5, the engine uses
    10. *)
Lemma client_options_win_witness :
  LegacyRegistry.registry_options LEGACY_CLIENT PER_CALL !! "timeout"
  = Some (JNumber (of_Z 5)) /\
  (exists config,
      log (run scripted (LegacyRegistry.lookupRegistry LEGACY_CLIENT USER FILE_ID PER_CALL)
             [http_reply (inl NOT_FOUND)]) = [SentRequest config] /\
      config !! "timeout" = Some (JNumber (of_Z 5))) /\
  merge_options GET_JSON
    {| customOptions := LegacyRegistry.customOptions LEGACY_CLIENT |} PER_CALL !! "timeout"
  = Some (JNumber (of_Z 10)).
Proof.
  destruct (LegacyFacts.client_options_win LEGACY_CLIENT PER_CALL)
    as (Hmerged & Hwin & Hlookup & _ & Hengine).
  split; [|split].
  - apply (Hwin "timeout" (JNumber (of_Z 5)) (JNumber (of_Z 10))); reflexivity.
  - specialize (Hlookup _ scripted USER FILE_ID [http_reply (inl NOT_FOUND)]).
    destruct (LegacyRegistry.lookup_config
                (LegacyRegistry.registry_options LEGACY_CLIENT PER_CALL) USER FILE_ID)
      as [err|config] eqn:Hconfig; [vm_compute in Hconfig; discriminate|].
    destruct Hlookup as (Hlog & Hoptions). exists config. split; [exact Hlog|].
    rewrite Hoptions by discriminate. rewrite Hmerged. reflexivity.
  - rewrite Hengine. reflexivity.
Defined.

End Examples.

(* ===================================================================== *)
(** * What the trims remove *)
(* ===================================================================== *)

Module TrimFacts.

Import StringUtils StringTools StringFacts.

(** The equations of the concatenation of strings. *)
Lemma append_nil (b : string) : "" +:+ b = b.
Proof. reflexivity. Qed.

Lemma append_cons (c : ascii) (a b : string) : String c a +:+ b = String c (a +:+ b).
Proof. reflexivity. Qed.

Lemma append_assoc (a b c : string) : (a +:+ b) +:+ c = a +:+ (b +:+ c).
Proof.
  induction a as [|x a IH]; [reflexivity|]. rewrite !append_cons, IH. reflexivity.
Qed.

Lemma append_empty_r (a : string) : a +:+ "" = a.
Proof.
  induction a as [|x a IH]; [reflexivity|]. rewrite append_cons, IH. reflexivity.
Qed.

Lemma append_length (a b : string) :
  String.length (a +:+ b) = (String.length a + String.length b)%nat.
Proof.
  induction a as [|x a IH]; [reflexivity|]. rewrite append_cons. simpl. rewrite IH. reflexivity.
Qed.

(** A string that starts with a prefix is the prefix followed by the
    slice behind it. *)
Lemma startsWith_split (prefix : string) :
  forall str, startsWith str prefix = true ->
    str = prefix +:+ slice str (String.length prefix).
Proof.
  unfold startsWith.
  induction prefix as [|c p IH]; intros [|d s]; simpl; try discriminate; try reflexivity.
  destruct (Ascii.ascii_dec c d) as [->|]; [|discriminate].
  intros Hp. rewrite append_cons. f_equal. apply IH, Hp.
Qed.

Lemma startsWith_append (prefix s : string) : startsWith (prefix +:+ s) prefix = true.
Proof.
  unfold startsWith. induction prefix as [|c p IH].
  - destruct s; reflexivity.
  - rewrite append_cons. simpl. destruct (Ascii.ascii_dec c c); [exact IH | congruence].
Qed.

Lemma slice_append (a s : string) : slice (a +:+ s) (String.length a) = s.
Proof.
  induction a as [|c a IH]; [apply slice_0|]. rewrite append_cons. exact IH.
Qed.

(** A string is its first [n] characters followed by the rest. *)
Lemma substring0_slice (str : string) :
  forall n, str = substring0 str n +:+ slice str n.
Proof.
  induction str as [|c s IH]; intros [|n]; simpl; try reflexivity.
  rewrite append_cons. f_equal. apply IH.
Qed.

(** A string that ends with a suffix is what is before it followed by the
    suffix. *)
Lemma endsWith_split (str suffix : string) :
  endsWith str suffix = true ->
  str = substring0 str (String.length str - String.length suffix) +:+ suffix.
Proof.
  unfold endsWith. intros Hend. apply andb_true_iff in Hend as [_ Heq].
  apply String.eqb_eq in Heq.
  rewrite (substring0_slice str (String.length str - String.length suffix)) at 1.
  rewrite Heq. reflexivity.
Qed.

Lemma endsWith_append (a suffix : string) : endsWith (a +:+ suffix) suffix = true.
Proof.
  unfold endsWith. rewrite append_length. apply andb_true_iff. split.
  - apply Nat.leb_le. lia.
  - replace (String.length a + String.length suffix - String.length suffix)%nat
      with (String.length a) by lia.
    rewrite slice_append. apply String.eqb_refl.
Qed.

(** What ends a string ends every string that ends with that string. *)
Lemma endsWith_longer (a r suffix : string) :
  endsWith r suffix = true -> endsWith (a +:+ r) suffix = true.
Proof.
  intros Hend. rewrite (endsWith_split r suffix Hend), <- append_assoc.
  apply endsWith_append.
Qed.

Lemma copies_snoc (k : nat) (s : string) : copies k s +:+ s = s +:+ copies k s.
Proof.
  induction k as [|k IH]; simpl; [symmetry; apply append_empty_r|].
  rewrite append_assoc, IH. reflexivity.
Qed.

(** A count that is not reached and is stepped: one less. *)
Lemma limit_step_count (m : Z) :
  limit_reached (Some (Finite m 0)) = false ->
  limit_step (Some (Finite m 0)) = Some (Finite (m - 1) 0) /\ 0 < m.
Proof.
  simpl. intros Hgt. apply Z.leb_gt in Hgt.
  destruct (Z.eqb_spec m 0); [lia|]. simpl. auto.
Qed.

(** The loop of [trimPrefix]: the result is the string less some copies of
    the prefix at its start; not more copies than the count of the limit,
    and, when they are fewer or there is no limit, all there are. *)
Lemma trimPrefix_loop (prefix : string) :
  forall fuel str limit r,
    while (trimPrefix_iteration prefix) fuel str limit = Some r ->
    exists k,
      str = copies k prefix +:+ r /\
      (limit = None -> startsWith r prefix = false) /\
      (forall m, limit = Some (Finite m 0) ->
         Z.of_nat k <= Z.max 0 m /\ (Z.of_nat k < m -> startsWith r prefix = false)).
Proof.
  induction fuel as [|fuel IH]; intros str limit r; simpl; [discriminate|].
  unfold trimPrefix_iteration at 1.
  destruct (startsWith str prefix) eqn:Hstart.
  - destruct (limit_reached limit) eqn:Hreached.
    + intros [= <-]. exists 0%nat. split; [reflexivity|]. split.
      * intros ->. discriminate.
      * intros m ->. simpl in Hreached. apply Z.leb_le in Hreached. lia.
    + intros Hloop. apply IH in Hloop as (k & Hstr & Hnone & Hcount).
      exists (S k). split; [|split].
      * simpl. rewrite append_assoc, <- Hstr. apply startsWith_split, Hstart.
      * intros ->. apply Hnone. reflexivity.
      * intros m ->. apply limit_step_count in Hreached as [Hstep Hpos].
        destruct (Hcount (m - 1) Hstep) as [Hle Hall]. split; [lia|].
        intros Hlt. apply Hall. lia.
  - intros [= <-]. exists 0%nat. split; [reflexivity|]. split; [auto|].
    intros m _. split; [lia | auto].
Qed.

(** The same for the loop of [trimSuffix], at the end of the string. *)
Lemma trimSuffix_loop (suffix : string) :
  forall fuel str limit r,
    while (trimSuffix_iteration suffix) fuel str limit = Some r ->
    exists k,
      str = r +:+ copies k suffix /\
      (limit = None -> endsWith r suffix = false) /\
      (forall m, limit = Some (Finite m 0) ->
         Z.of_nat k <= Z.max 0 m /\ (Z.of_nat k < m -> endsWith r suffix = false)).
Proof.
  induction fuel as [|fuel IH]; intros str limit r; simpl; [discriminate|].
  unfold trimSuffix_iteration at 1.
  destruct (endsWith str suffix) eqn:Hend.
  - destruct (limit_reached limit) eqn:Hreached.
    + intros [= <-]. exists 0%nat. split; [symmetry; apply append_empty_r|]. split.
      * intros ->. discriminate.
      * intros m ->. simpl in Hreached. apply Z.leb_le in Hreached. lia.
    + intros Hloop. apply IH in Hloop as (k & Hstr & Hnone & Hcount).
      exists (S k). split; [|split].
      * simpl. rewrite <- copies_snoc, <- append_assoc, <- Hstr.
        apply endsWith_split, Hend.
      * intros ->. apply Hnone. reflexivity.
      * intros m ->. apply limit_step_count in Hreached as [Hstep Hpos].
        destruct (Hcount (m - 1) Hstep) as [Hle Hall]. split; [lia|].
        intros Hlt. apply Hall. lia.
  - intros [= <-]. exists 0%nat. split; [symmetry; apply append_empty_r|]. split; [auto|].
    intros m _. split; [lia | auto].
Qed.

(** X1. When [trimPrefix] returns, the string is what it returns behind
    some copies of the prefix, and nothing else was removed.  With no limit
    the result no longer starts with the prefix; with a limit that is an
    integer count, at most that many copies were removed, and when fewer
    were, the result no longer starts with the prefix. *)
Theorem trimPrefix_removes_copies (fuel : nat) (str prefix : string) (limit : Limit)
    (r : string) :
  trimPrefix fuel str prefix limit = Some r ->
  exists k,
    str = copies k prefix +:+ r /\
    (limit = None -> startsWith r prefix = false) /\
    (forall n, limit = Some (of_Z n) -> n <= SAFE_BOUND ->
       Z.of_nat k <= Z.max 0 n /\ (Z.of_nat k < n -> startsWith r prefix = false)).
Proof.
  intros Hrun.
  destruct (trimPrefix_loop prefix fuel str limit r Hrun) as (k & Hstr & Hnone & Hcount).
  exists k. split; [exact Hstr|]. split; [exact Hnone|].
  intros n Hlimit _. apply Hcount. exact Hlimit.
Qed.

(** X2. When [trimSuffix] returns, the string is what it returns before
    some copies of the suffix.  With no limit the result no longer ends
    with the suffix; with a limit that is an integer count, at most that
    many copies were removed, and when fewer were, the result no longer
    ends with the suffix. *)
Theorem trimSuffix_removes_copies (fuel : nat) (str suffix : string) (limit : Limit)
    (r : string) :
  trimSuffix fuel str suffix limit = Some r ->
  exists k,
    str = r +:+ copies k suffix /\
    (limit = None -> endsWith r suffix = false) /\
    (forall n, limit = Some (of_Z n) -> n <= SAFE_BOUND ->
       Z.of_nat k <= Z.max 0 n /\ (Z.of_nat k < n -> endsWith r suffix = false)).
Proof.
  intros Hrun.
  destruct (trimSuffix_loop suffix fuel str limit r Hrun) as (k & Hstr & Hnone & Hcount).
  exists k. split; [exact Hstr|]. split; [exact Hnone|].
  intros n Hlimit _. apply Hcount. exact Hlimit.
Qed.

(** The total forms, with a non-empty affix. *)
Lemma trimSuffix_total_removes (str suffix : string) :
  suffix <> "" ->
  exists k, str = trimSuffix_total str suffix +:+ copies k suffix /\
            endsWith (trimSuffix_total str suffix) suffix = false.
Proof.
  intros Hne. pose proof (trimSuffix_total_returns str suffix Hne) as Hrun.
  apply trimSuffix_loop in Hrun as (k & Hstr & Hnone & _).
  exists k. auto.
Qed.

Lemma trimPrefix_total_removes (str prefix : string) :
  prefix <> "" ->
  exists k, str = copies k prefix +:+ trimPrefix_total str prefix /\
            startsWith (trimPrefix_total str prefix) prefix = false.
Proof.
  intros Hne. pose proof (trimPrefix_total_returns str prefix Hne) as Hrun.
  apply trimPrefix_loop in Hrun as (k & Hstr & Hnone & _).
  exists k. auto.
Qed.

(** X3. [trimForwardSlash] returns the string without the slashes at its
    start and at its end, and removes nothing else: the string is the
    result between two runs of slashes, and the result neither starts nor
    ends with a slash. *)
Theorem trimForwardSlash_strips (str : string) :
  exists before after,
    str = copies before "/" +:+ trimForwardSlash str +:+ copies after "/" /\
    startsWith (trimForwardSlash str) "/" = false /\
    endsWith (trimForwardSlash str) "/" = false.
Proof.
  unfold trimForwardSlash.
  destruct (trimSuffix_total_removes str "/") as (after & Hstr & Hend); [discriminate|].
  destruct (trimPrefix_total_removes (trimSuffix_total str "/") "/")
    as (before & Hmid & Hstart); [discriminate|].
  exists before, after. split; [|split].
  - rewrite <- append_assoc, <- Hmid. exact Hstr.
  - exact Hstart.
  - destruct (endsWith (trimPrefix_total _ _) "/") eqn:Hr; [|reflexivity].
    rewrite Hmid in Hend. rewrite (endsWith_longer _ _ _ Hr) in Hend. discriminate.
Qed.

(** X4. [trimUriPrefix] removes the prefix once: from a string that is
    the prefix followed by [s] it returns [s], even when [s] starts with
    the prefix again.  The short prefix is the prefix without the slashes
    at its end; a string that starts with the short prefix and not with the
    prefix loses the short prefix; any other string is returned as it
    is. *)
Theorem trimUriPrefix_removes_once (str prefix : string) :
  (exists k, prefix = trimSuffix_total prefix "/" +:+ copies k "/" /\
             endsWith (trimSuffix_total prefix "/") "/" = false) /\
  (forall s, trimUriPrefix (prefix +:+ s) prefix = s) /\
  (forall s, startsWith (trimSuffix_total prefix "/" +:+ s) prefix = false ->
             trimUriPrefix (trimSuffix_total prefix "/" +:+ s) prefix = s) /\
  (startsWith str prefix = false -> startsWith str (trimSuffix_total prefix "/") = false ->
   trimUriPrefix str prefix = str).
Proof.
  split; [|split; [|split]].
  - apply trimSuffix_total_removes. discriminate.
  - intros s. unfold trimUriPrefix. rewrite startsWith_append. apply slice_append.
  - intros s Hnot. unfold trimUriPrefix. rewrite Hnot, startsWith_append.
    apply slice_append.
  - intros Hlong Hshort. unfold trimUriPrefix. rewrite Hlong, Hshort. reflexivity.
Qed.

(** "//a/" loses the two slashes at its start and keeps the one at its
    end. *)
Lemma trimPrefix_removes_copies_witness :
  exists k, "//a/" = copies k "/" +:+ "a/" /\ startsWith "a/" "/" = false.
Proof.
  destruct (trimPrefix_removes_copies 3 "//a/" "/" None "a/") as (k & Hstr & Hnone & _);
    [reflexivity|].
  exists k. split; [exact Hstr | apply Hnone; reflexivity].
Defined.

(** "a///" with a limit of two: at most two slashes are removed. *)
Lemma trimSuffix_removes_copies_witness :
  exists k, "a///" = "a/" +:+ copies k "/" /\ Z.of_nat k <= 2.
Proof.
  destruct (trimSuffix_removes_copies 3 "a///" "/" (Some (of_Z 2)) "a/")
    as (k & Hstr & _ & Hcount); [reflexivity|].
  exists k. split; [exact Hstr|].
  destruct (Hcount 2) as [Hle _]; [reflexivity | unfold SAFE_BOUND; lia | lia].
Defined.

End TrimFacts.

(* ===================================================================== *)
(** * Hexadecimal text and bytes, and the uint64 bound *)
(* ===================================================================== *)

Module HexFacts.

Import StringUtils StringTools StringConv.

(** The sixteen values below sixteen, one by one. *)
Lemma below_sixteen (v : Z) :
  0 <= v < 16 ->
  v = 0 \/ v = 1 \/ v = 2 \/ v = 3 \/ v = 4 \/ v = 5 \/ v = 6 \/ v = 7 \/
  v = 8 \/ v = 9 \/ v = 10 \/ v = 11 \/ v = 12 \/ v = 13 \/ v = 14 \/ v = 15.
Proof. lia. Qed.

(** The digit printed for a value below sixteen is a hexadecimal digit, and
    it is read back as the value. *)
Lemma hex_digit_value (v : Z) :
  0 <= v < 16 -> is_hex_digit (hex_digit v) = true /\ hex_value (hex_digit v) = v.
Proof.
  intros Hv. apply below_sixteen in Hv.
  repeat (destruct Hv as [-> | Hv]; [split; reflexivity|]).
  subst v. split; reflexivity.
Qed.

(** [byte & 0xff] is a byte, and a byte is left as it is. *)
Lemma land_255 (b : Z) : is_byte (Z.land b 255) /\ (is_byte b -> Z.land b 255 = b).
Proof.
  unfold is_byte. change 255 with (Z.ones 8). rewrite Z.land_ones by lia.
  change (2 ^ 8) with 256. split.
  - apply Z.mod_pos_bound. lia.
  - intros Hb. apply Z.mod_small. exact Hb.
Qed.

(** The two digits of a byte. *)
Lemma byte_digits (v : Z) :
  is_byte v -> 0 <= v / 16 < 16 /\ 0 <= v mod 16 < 16 /\ v / 16 * 16 + v mod 16 = v.
Proof.
  unfold is_byte. intros Hv. split; [|split].
  - split; [apply Z.div_pos; lia | apply Z.div_lt_upper_bound; lia].
  - apply Z.mod_pos_bound. lia.
  - pose proof (Z.div_mod v 16). lia.
Qed.

(** What [toHexString] prints is read back, two digits a byte, as the
    bytes [byte & 0xff]. *)
Lemma hex_pairs_toHexString (b : bytes) :
  hex_pairs (toHexString b) = map (fun x => Z.land x 255) b.
Proof.
  induction b as [|x b IH]; [reflexivity|].
  cbn [toHexString hex_pairs map].
  destruct (land_255 x) as [Hbyte _].
  destruct (byte_digits _ Hbyte) as (Hhi & Hlo & Hsum).
  destruct (hex_digit_value _ Hhi) as [_ ->]. destruct (hex_digit_value _ Hlo) as [_ ->].
  rewrite Hsum, IH. reflexivity.
Qed.

Lemma isHexString_toHexString (b : bytes) : isHexString (toHexString b) = true.
Proof.
  induction b as [|x b IH]; [reflexivity|].
  cbn [toHexString isHexString].
  destruct (land_255 x) as [Hbyte _].
  destruct (byte_digits _ Hbyte) as (Hhi & Hlo & _).
  destruct (hex_digit_value _ Hhi) as [-> _]. destruct (hex_digit_value _ Hlo) as [-> _].
  exact IH.
Qed.

Lemma land_255_bytes (b : bytes) : Forall is_byte b -> map (fun x => Z.land x 255) b = b.
Proof.
  induction 1 as [|x b Hx Hb IH]; [reflexivity|].
  cbn [map]. rewrite IH. destruct (land_255 x) as [_ ->]; [reflexivity | exact Hx].
Qed.

(** X5. Bytes printed by [toHexString] and read by [hexToUint8Array] are
    the bytes again, for every array of bytes but the empty one: the empty
    array prints as the empty string, which [hexToUint8Array] refuses with
    the validation error. *)
Theorem hex_round_trip (b : bytes) :
  Forall is_byte b ->
  hexToUint8Array (JString (toHexString b)) =
    match b with
    | [] => throw (ValidationError "str" "parameter" "a hex-encoded string")
    | _ => ok b
    end.
Proof.
  intros Hbytes. unfold hexToUint8Array, Validation.validateHexString.
  cbn [Validation.validateString typeof String.eqb Ascii.eqb Bool.eqb rbind ok
       Validation.as_string].
  rewrite isHexString_toHexString. cbn [rbind ok].
  destruct b as [|x b]; [reflexivity|].
  rewrite <- (land_255_bytes (x :: b) Hbytes) at 2.
  rewrite <- hex_pairs_toHexString. reflexivity.
Qed.

(** The bytes 0, 171 and 255 print as "00abff" and are read back. *)
Lemma hex_round_trip_witness :
  hexToUint8Array (JString (toHexString [0; 171; 255])) = ok [0; 171; 255].
Proof.
  apply (hex_round_trip [0; 171; 255]).
  repeat constructor; unfold is_byte; lia.
Defined.

(** X6. Whatever integers the array holds, [toHexString] prints two
    hexadecimal digits for each, those of [byte & 0xff]: the text has twice
    the length of the array, it passes [validateHexString], and it is the
    text of the array of the masked integers. *)
Theorem toHexString_two_digits (b : bytes) (name valueKind : string) :
  String.length (toHexString b) = (2 * List.length b)%nat /\
  Validation.validateHexString name (JString (toHexString b)) valueKind = ok tt /\
  toHexString b = toHexString (map (fun x => Z.land x 255) b).
Proof.
  split; [|split].
  - induction b as [|x b IH]; [reflexivity|].
    cbn [toHexString String.length List.length]. rewrite IH. lia.
  - unfold Validation.validateHexString.
    cbn [Validation.validateString typeof String.eqb Ascii.eqb Bool.eqb rbind ok
         Validation.as_string].
    rewrite isHexString_toHexString. reflexivity.
  - induction b as [|x b IH]; [reflexivity|].
    cbn [toHexString map]. rewrite <- IH.
    destruct (land_255 (Z.land x 255)) as [_ ->]; [reflexivity | apply land_255].
Qed.

(** A hexadecimal digit has a value below sixteen. *)
Lemma hex_value_bound (c : ascii) : is_hex_digit c = true -> 0 <= hex_value c < 16.
Proof.
  unfold is_hex_digit, hex_value.
  generalize (nat_of_ascii c). intros n Hn.
  destruct ((48 <=? Z.of_nat n) && (Z.of_nat n <=? 57)) eqn:Hd.
  - apply andb_true_iff in Hd as [H1 H2]. apply Z.leb_le in H1, H2. lia.
  - destruct ((65 <=? Z.of_nat n) && (Z.of_nat n <=? 70)) eqn:Hu.
    + apply andb_true_iff in Hu as [H1 H2]. apply Z.leb_le in H1, H2. lia.
    + apply orb_true_iff in Hn as [Hn | Hn].
      * apply orb_true_iff in Hn as [Hn | Hn];
          apply andb_true_iff in Hn as [H1 H2]; apply Nat.leb_le in H1, H2.
        -- apply andb_false_iff in Hd as [Hd | Hd]; apply Z.leb_gt in Hd; lia.
        -- apply andb_false_iff in Hu as [Hu | Hu]; apply Z.leb_gt in Hu; lia.
      * apply andb_true_iff in Hn as [H1 H2]. apply Nat.leb_le in H1, H2. lia.
Qed.

(** The bytes read from hexadecimal text, for the text and for the text
    behind one more digit. *)
Lemma hex_pairs_bytes (s : string) :
  isHexString s = true ->
  (Forall is_byte (hex_pairs s) /\
   List.length (hex_pairs s) = Nat.div2 (S (String.length s))) /\
  (forall c, is_hex_digit c = true ->
     Forall is_byte (hex_pairs (String c s)) /\
     List.length (hex_pairs (String c s)) = Nat.div2 (S (S (String.length s)))).
Proof.
  induction s as [|d s IH]; intros Hs.
  - split; [split; [constructor | reflexivity]|].
    intros c Hc. split; [|reflexivity].
    constructor; [|constructor]. apply hex_value_bound in Hc. unfold is_byte. lia.
  - cbn [isHexString] in Hs. apply andb_true_iff in Hs as [Hd Hs].
    destruct (IH Hs) as [[Hbytes Hlen] Hnext]. split; [apply Hnext, Hd|].
    intros c Hc. cbn [hex_pairs]. split.
    + constructor; [|exact Hbytes].
      apply hex_value_bound in Hc, Hd. unfold is_byte. lia.
    + cbn [List.length String.length Nat.div2]. rewrite Hlen. reflexivity.
Qed.

(** X7. What [hexToUint8Array] returns: its argument is a non-empty
    string of hexadecimal digits, and the array holds one byte for every two
    digits, a last single digit being a byte of its own; every element is
    between 0 and 255. *)
Theorem hexToUint8Array_bytes (str : JSValue) (b : bytes) :
  hexToUint8Array str = ok b ->
  exists s,
    str = JString s /\ s <> "" /\ isHexString s = true /\
    List.length b = Nat.div2 (S (String.length s)) /\
    Forall is_byte b.
Proof.
  unfold hexToUint8Array, Validation.validateHexString, Validation.validateString.
  destruct str as [| | ? | ? | ? | s | ? | ? | ?]; try discriminate.
  cbn [typeof String.eqb Ascii.eqb Bool.eqb rbind ok Validation.as_string].
  destruct (isHexString s) eqn:Hhex; [|discriminate]. cbn [rbind ok].
  destruct s as [|c s]; [discriminate|].
  intros [= <-]. exists (String c s).
  destruct (hex_pairs_bytes (String c s) Hhex) as [[Hbytes Hlen] _].
  split; [reflexivity|]. split; [discriminate|]. auto.
Qed.

(** "abc" is read as the two bytes 171 and 12. *)
Lemma hexToUint8Array_bytes_witness :
  exists s,
    JString "abc" = JString s /\ s <> "" /\ isHexString s = true /\
    List.length [171; 12] = Nat.div2 (S (String.length s)) /\
    Forall is_byte [171; 12].
Proof. apply (hexToUint8Array_bytes (JString "abc") [171; 12]). reflexivity. Defined.

(** X8. Every string of hexadecimal digits is an ASCII string. *)
Theorem hex_strings_are_ascii (str : string) :
  isHexString str = true -> isASCIIString str = true.
Proof.
  induction str as [|c s IH]; [reflexivity|].
  cbn [isHexString isASCIIString]. intros Hs. apply andb_true_iff in Hs as [Hc Hs].
  apply andb_true_iff. split; [|apply IH, Hs].
  unfold is_hex_digit in Hc. apply Nat.ltb_lt.
  apply orb_true_iff in Hc as [Hc | Hc]; [apply orb_true_iff in Hc as [Hc | Hc]|];
    apply andb_true_iff in Hc as [_ Hc]; apply Nat.leb_le in Hc; lia.
Qed.

Lemma hex_strings_are_ascii_witness : isASCIIString "00abFF" = true.
Proof. apply (hex_strings_are_ascii "00abFF"). reflexivity. Defined.

End HexFacts.

Module NumberFacts.

Import Number SkyDB.

(** The values [assertUint64] accepts. *)
Lemma uint64_accepted (int : JSValue) :
  assertUint64 int = ok tt <-> exists z, int = JBigInt z /\ 0 <= z <= 2 ^ 64 - 1.
Proof.
  unfold assertUint64, Validation.validateBigint. split.
  - destruct int as [| | ? | ? | z | ? | ? | ? | ?]; try discriminate.
    cbn [typeof String.eqb Ascii.eqb Bool.eqb rbind ok].
    destruct (Z.ltb_spec z 0); [discriminate|].
    destruct (z >? MAX_REVISION) eqn:Hgt; [discriminate|].
    intros _. exists z. split; [reflexivity|].
    unfold MAX_REVISION in Hgt. rewrite Z.gtb_ltb in Hgt. apply Z.ltb_ge in Hgt. lia.
  - intros (z & -> & Hz).
    cbn [typeof String.eqb Ascii.eqb Bool.eqb rbind ok].
    destruct (Z.ltb_spec z 0); [lia|].
    destruct (z >? MAX_REVISION) eqn:Hgt; [|reflexivity].
    unfold MAX_REVISION in Hgt. apply Z.gtb_lt in Hgt. lia.
Qed.

(** X9. [assertUint64] accepts the bigints from 0 to 2^64 - 1 and nothing
    else: a value of another type fails the validation of the parameter, a
    negative bigint and a bigint above 2^64 - 1 fail, each with its own
    error. *)
Theorem assertUint64_range (int : JSValue) :
  (assertUint64 int = ok tt <-> exists z, int = JBigInt z /\ 0 <= z <= 2 ^ 64 - 1) /\
  (typeof int <> "bigint" ->
     assertUint64 int = throw (ValidationError "int" "parameter" "type 'bigint'")) /\
  (forall z, int = JBigInt z -> z < 0 ->
     assertUint64 int = throw (Err "must be an unsigned 64-bit integer; was negative")) /\
  (forall z, int = JBigInt z -> 2 ^ 64 - 1 < z ->
     assertUint64 int
     = throw (Err "does not fit in a 64-bit unsigned integer; exceeds 2^64-1")).
Proof.
  split; [apply uint64_accepted|]. split; [|split].
  - intros Htype. unfold assertUint64, Validation.validateBigint.
    destruct (String.eqb_spec (typeof int) "bigint"); [contradiction | reflexivity].
  - intros z -> Hneg. unfold assertUint64. cbn [Validation.validateBigint typeof
      String.eqb Ascii.eqb Bool.eqb rbind ok].
    destruct (Z.ltb_spec z 0); [reflexivity | lia].
  - intros z -> Hbig. unfold assertUint64. cbn [Validation.validateBigint typeof
      String.eqb Ascii.eqb Bool.eqb rbind ok].
    destruct (Z.ltb_spec z 0); [lia|].
    destruct (z >? MAX_REVISION) eqn:Hgt; [reflexivity|].
    rewrite Z.gtb_ltb in Hgt. apply Z.ltb_ge in Hgt. unfold MAX_REVISION in Hgt. lia.
Qed.

(** X10. The revision [getNextRevisionFromEntry] returns for an entry
    whose revision is a uint64 is a uint64 again, and greater than the
    revision of the entry. *)
Theorem next_revision_is_uint64 (prior : option RegistryEntry) (next : Z) :
  (forall e, prior = Some e -> assertUint64 (JBigInt (revision e)) = ok tt) ->
  getNextRevisionFromEntry prior = ok next ->
  assertUint64 (JBigInt next) = ok tt /\
  (forall e, prior = Some e -> revision e < next).
Proof.
  intros Hprior. unfold getNextRevisionFromEntry.
  destruct (_ >? MAX_REVISION) eqn:Hgt; [discriminate|]. intros [= <-].
  rewrite Z.gtb_ltb in Hgt. apply Z.ltb_ge in Hgt. unfold MAX_REVISION in Hgt. split.
  - apply uint64_accepted. eexists. split; [reflexivity|].
    destruct prior as [e|]; [|lia].
    specialize (Hprior e eq_refl). apply uint64_accepted in Hprior as (z & [= <-] & Hz).
    lia.
  - intros e ->. lia.
Qed.

(** After the revision 41 comes 42, a uint64. *)
Lemma next_revision_is_uint64_witness :
  assertUint64 (JBigInt 42) = ok tt /\
  (forall e, Some {| dataKey := "k"; data := []; revision := 41 |} = Some e -> revision e < 42).
Proof.
  apply (next_revision_is_uint64 (Some {| dataKey := "k"; data := []; revision := 41 |}) 42).
  - intros e [= <-]. reflexivity.
  - reflexivity.
Defined.

End NumberFacts.

(* ===================================================================== *)
(** * The requests of the engine *)
(* ===================================================================== *)

Module EngineFacts.

Import SkyDB SkyDBRaw NetFacts SkyDBFacts Traffic.

(** One step of the code under a portal: the next synchronous result, the
    answer to the next request, the next test. *)
Ltac exec_step :=
  first
    [ progress cbn [lift bind run result log world settled await await_both sent
                    kinds kind map returned negb fst snd ok throw]
    | match goal with
      | |- context [bind (lift ?r) _] => destruct r as [?e|?a] eqn:?
      | |- context [lift ?r] => destruct r as [?e|?a] eqn:?
      | |- context [answer ?portal ?req ?w] =>
          destruct (answer portal req w) as [[?why|?x] ?w] eqn:?
      | |- context [match entry ?se with _ => _ end] => destruct (entry se) as [?found|] eqn:?
      | |- context [if ?b then _ else _] => destruct b eqn:?
      end ].

Ltac exec := repeat exec_step.

Section WithExternals.
Context `{Externals}.

(** ** The order of the requests *)

(** X11. Every public operation keeps to its protocol, whatever the
    portal answers.  A read sends the lookup, then at most one download,
    and [getEntryData] no download; no read writes or uploads.  [setJSON]
    sends the upload and the lookup, both before it looks at either
    outcome, and then at most one write.  The other writes send the lookup
    and then at most one write.  No write is sent before the lookup, none
    twice, and an operation that has returned has sent its lookup and, if
    it writes, its write. *)
Theorem public_call_protocol {W} (portal : Portal W) (client : SkynetClient) (c : PublicCall)
    (w : W) :
  protocol c (returned (result (run portal (perform client c) w)))
    (kinds (log (run portal (perform client c) w))) = true.
Proof.
  destruct c; cbn [perform];
    unfold getJSON, getRawBytes, getEntryData, setJSON, deleteJSON, deleteEntryData,
      setDataLink, setEntryData, getSkyDBRegistryEntry, getOrCreateRegistryEntry,
      getNextRegistryEntry, unwrapJSON;
    exec; reflexivity.
Qed.

(** ** Writes *)

(** A value that passes [validateUint8Array] is a [Uint8Array]. *)
Lemma validateUint8Array_ok (name : string) (v : JSValue) (valueKind : string) (done : unit) :
  Validation.validateUint8Array name v valueKind = inr done -> v = JUint8Array (Validation.as_bytes v).
Proof. destruct v; simpl; intros; solve [reflexivity | discriminate]. Qed.

(** A [setEntryData] that has returned: the lookup it sent, the outcome of
    the lookup, and the write it sent. *)
Lemma setEntryData_returned {W} (portal : Portal W) (client : SkynetClient)
    (privateKey dataKey data customOptions : JSValue) (w0 : W) (value : JSValue) :
  result (run portal (setEntryData client privateKey dataKey data customOptions) w0) = ok value ->
  exists publicKey getOpts prior w1 revision setOpts,
    answer portal (RegistryGetEntry publicKey (Validation.as_string dataKey) getOpts) w0
      = (inr prior, w1) /\
    getNextRevisionFromEntry (entry prior) = ok revision /\
    log (run portal (setEntryData client privateKey dataKey data customOptions) w0) =
      [ SentGetEntry publicKey (Validation.as_string dataKey) getOpts;
        SentSetEntry (Validation.as_string privateKey)
          {| dataKey := Validation.as_string dataKey; data := Validation.as_bytes data;
             revision := revision |} setOpts ] /\
    data = JUint8Array (Validation.as_bytes data) /\
    value = data_only data /\
    Validation.validateString "dataKey" dataKey "parameter" = ok tt.
Proof.
  unfold setEntryData, getNextRegistryEntry. exec; try discriminate.
  intros [= <-].
  match goal with Hd : Validation.validateUint8Array _ _ _ = _ |- _ =>
    pose proof (validateUint8Array_ok _ _ _ _ Hd) as Hdata end.
  repeat match goal with u : unit |- _ => destruct u end.
  eexists _, _, _, _, _, _.
  split; [eassumption|]. split; [eassumption|]. split; [reflexivity|].
  split; [exact Hdata|]. split; [rewrite <- Hdata; reflexivity | reflexivity].
Qed.

(** X12. A [setEntryData] that has returned has sent the lookup and then
    one write, for the data key it was given: the entry written holds the
    data it was given, at the revision that follows the one the lookup
    found (0 when it found no entry), which is at most 2^64 - 1; it
    returns the data it has written. *)
Theorem setEntryData_writes_next_revision {W} (portal : Portal W) (client : SkynetClient)
    (privateKey dataKey data customOptions : JSValue) (w0 : W) (value : JSValue) :
  result (run portal (setEntryData client privateKey dataKey data customOptions) w0) = ok value ->
  exists publicKey getOpts prior w1 written setOpts,
    answer portal (RegistryGetEntry publicKey (Validation.as_string dataKey) getOpts) w0
      = (inr prior, w1) /\
    log (run portal (setEntryData client privateKey dataKey data customOptions) w0) =
      [ SentGetEntry publicKey (Validation.as_string dataKey) getOpts;
        SentSetEntry (Validation.as_string privateKey) written setOpts ] /\
    Net.dataKey written = Validation.as_string dataKey /\
    data = JUint8Array (Net.data written) /\
    revision written = match entry prior with None => 0 | Some e => revision e + 1 end /\
    revision written <= Number.MAX_REVISION /\
    value = data_only (JUint8Array (Net.data written)).
Proof.
  intros Hset.
  destruct (setEntryData_returned portal client privateKey dataKey data customOptions w0 value Hset)
    as (publicKey & getOpts & prior & w1 & revision & setOpts
        & Hans & Hnext & Hlog & Hdata & Hvalue & _).
  eexists publicKey, getOpts, prior, w1, _, setOpts.
  split; [exact Hans|]. split; [exact Hlog|]. split; [reflexivity|].
  split; [exact Hdata|]. cbn [Net.revision Net.data].
  unfold getNextRevisionFromEntry in Hnext.
  destruct (_ >? Number.MAX_REVISION) eqn:Hgt; [discriminate|]. injection Hnext as <-.
  rewrite Z.gtb_ltb in Hgt. apply Z.ltb_ge in Hgt.
  split; [reflexivity|]. split; [exact Hgt|]. rewrite <- Hdata. exact Hvalue.
Qed.

(** The operations that end in [setEntryData] and return [undefined]. *)
Lemma run_then_undefined {W} (portal : Portal W) (p : Prog JSValue) (w : W) :
  log (run portal (bind p (fun _ => Ret JUndefined)) w) = log (run portal p w) /\
  (forall value,
      result (run portal (bind p (fun _ => Ret JUndefined)) w) = ok value ->
      value = JUndefined /\ exists inner, result (run portal p w) = ok inner) /\
  (forall e,
      result (run portal p w) = inl e ->
      result (run portal (bind p (fun _ => Ret JUndefined)) w) = inl e).
Proof.
  rewrite run_bind. destruct (result (run portal p w)) as [e|inner]; cbn [run result log].
  - split; [reflexivity|]. split; [discriminate | auto].
  - split; [apply app_nil_r|]. split; [|discriminate].
    intros value [= <-]. eauto.
Qed.

(** ** A key at its last revision *)

(** After the last revision there is none. *)
Lemma no_revision_after_last (held : SignedRegistryEntry) (e : RegistryEntry) :
  entry held = Some e -> Number.MAX_REVISION <= revision e ->
  getNextRevisionFromEntry (entry held) = throw (Err MAX_REVISION_MESSAGE).
Proof.
  intros -> Hmax. unfold getNextRevisionFromEntry.
  destruct (_ >? Number.MAX_REVISION) eqn:Hgt; [reflexivity|].
  rewrite Z.gtb_ltb in Hgt. apply Z.ltb_ge in Hgt. lia.
Qed.

(** The code under a portal that holds the entry [held] for the key. *)
Ltac exec_held Hholds Hnext :=
  repeat first
    [ progress cbn [lift bind run result log world settled await await_both sent
                    writes omap kinds kind map returned negb fst snd ok throw]
    | progress rewrite Hnext
    | match goal with
      | |- context [answer ?portal (RegistryGetEntry ?pk ?dk ?o) ?w] =>
          let Hans := fresh "Hans" in
          pose proof (Hholds pk o w) as Hans;
          destruct (answer portal (RegistryGetEntry pk dk o) w) as [[?why|?x] ?w];
          cbn [fst] in Hans; [discriminate Hans | injection Hans as ->]
      end
    | exec_step ].

(** X13. A key whose entry is at the last revision, 2^64 - 1 (or beyond),
    is never written again: when the portal holds such an entry for the
    data key, no public operation sends a write for it, and every
    operation that writes fails. *)
Theorem last_revision_is_never_overwritten {W} (portal : Portal W) (client : SkynetClient)
    (c : PublicCall) (held : SignedRegistryEntry) (e : RegistryEntry) (w : W) :
  holds portal (Validation.as_string (call_dataKey c)) held ->
  entry held = Some e ->
  Number.MAX_REVISION <= revision e ->
  writes (log (run portal (perform client c) w)) = [] /\
  (is_write_call c = true -> returned (result (run portal (perform client c) w)) = false).
Proof.
  intros Hholds Hentry Hmax.
  pose proof (no_revision_after_last held e Hentry Hmax) as Hnext.
  unfold holds in Hholds.
  destruct c; cbn [perform call_dataKey is_write_call] in *;
    unfold getJSON, getRawBytes, getEntryData, setJSON, deleteJSON, deleteEntryData,
      setDataLink, setEntryData, getSkyDBRegistryEntry, getOrCreateRegistryEntry,
      getNextRegistryEntry, unwrapJSON;
    exec_held Hholds Hnext; split; solve [reflexivity | discriminate].
Qed.

(** ** Reading what was written *)

(** A read whose parameters are valid and whose lookup is answered: the
    code goes on with the entry, or with none when the entry is absent. *)
Lemma run_read_absent {W} (portal : Portal W) (op : ReadOp) (client : SkynetClient)
    (publicKey dataKey customOptions : JSValue) (signedEntry : SignedRegistryEntry) (w w' : W) :
  valid_read_input op publicKey dataKey customOptions ->
  answer portal (lookup op client publicKey dataKey customOptions) w = (inr signedEntry, w') ->
  absent signedEntry ->
  run portal (read op client publicKey dataKey customOptions) w =
    {| result := ok (not_found op); world := w';
       log := [sent (lookup op client publicKey dataKey customOptions)] |}.
Proof.
  intros (Hpk & Hdk & Hco) Hans Habs. unfold absent in Habs.
  destruct op; unfold read, getJSON, getEntryData, getRawBytes, lookup in *;
    simpl read_model in Hco; rewrite Hpk, Hdk, Hco; cbn [lift bind ok];
    unfold getSkyDBRegistryEntry, await; cbn [bind];
    erewrite run_Call by exact Hans; cbn [settled lift bind];
    (destruct (entry signedEntry) as [e|];
     [rewrite Habs, areEqualUint8Arrays_refl|]); reflexivity.
Qed.

(** The same for an entry that is there: the read goes on with it. *)
Lemma run_lookup_found {W A} (portal : Portal W) (client : SkynetClient)
    (publicKey dataKey : string) (opts : Options) (k : option RegistryEntry -> Prog A)
    (signedEntry : SignedRegistryEntry) (found : RegistryEntry) (w w' : W) :
  answer portal (RegistryGetEntry publicKey dataKey opts) w = (inr signedEntry, w') ->
  entry signedEntry = Some found ->
  data found <> EMPTY_SKYLINK ->
  run portal (bind (getSkyDBRegistryEntry client publicKey dataKey opts) k) w =
    {| result := result (run portal (k (Some found)) w');
       world := world (run portal (k (Some found)) w');
       log := SentGetEntry publicKey dataKey opts :: log (run portal (k (Some found)) w') |}.
Proof.
  intros Hans Hfound Hne. apply areEqualUint8Arrays_ne in Hne.
  unfold getSkyDBRegistryEntry, await. cbn [bind].
  erewrite run_Call by exact Hans. cbn [settled lift bind sent]. rewrite Hfound, Hne.
  reflexivity.
Qed.

(** X14. What [setEntryData] has written, [getEntryData] reads back: when
    the portal answers the lookup of a later [getEntryData] for the data
    key with the entry written, the read returns what [setEntryData]
    returned, the data written, and sends nothing but its lookup; unless
    the data is the empty skylink, which reads as [null]. *)
Theorem setEntryData_then_getEntryData {W} (portal : Portal W) (writer : SkynetClient)
    (privateKey dataKey data customOptions : JSValue) (w0 : W) (value : JSValue) :
  result (run portal (setEntryData writer privateKey dataKey data customOptions) w0) = ok value ->
  exists written,
    writes (log (run portal (setEntryData writer privateKey dataKey data customOptions) w0))
      = [written] /\
    data = JUint8Array (Net.data written) /\
    forall (reader : SkynetClient) (publicKey readOptions : JSValue) (sig : option bytes)
           (w1 w2 : W),
      validatePublicKey "publicKey" publicKey "parameter" = ok tt ->
      Validation.validateOptionalObject "customOptions" readOptions "parameter"
        DEFAULT_GET_ENTRY_OPTIONS = ok tt ->
      answer portal (lookup read_EntryData reader publicKey dataKey readOptions) w1
        = (inr {| entry := Some written; signature := sig |}, w2) ->
      run portal (getEntryData reader publicKey dataKey readOptions) w1 =
        {| result := ok (if areEqualUint8Arrays (Net.data written) EMPTY_SKYLINK
                         then data_only JNull else value);
           world := w2;
           log := [sent (lookup read_EntryData reader publicKey dataKey readOptions)] |}.
Proof.
  intros Hset.
  destruct (setEntryData_returned portal writer privateKey dataKey data customOptions w0 value Hset)
    as (writerKey & getOpts & prior & w' & revision & setOpts
        & _ & _ & Hlog & Hdata & Hvalue & Hdk).
  eexists. split; [rewrite Hlog; reflexivity|]. split; [exact Hdata|].
  cbn [Net.data]. intros reader publicKey readOptions sig w1 w2 Hpk Hco Hans.
  destruct (areEqualUint8Arrays (Validation.as_bytes data) EMPTY_SKYLINK) eqn:Hempty.
  - eapply (run_read_absent portal read_EntryData reader publicKey dataKey readOptions);
      [repeat split; assumption | exact Hans |].
    apply areEqualUint8Arrays_eq in Hempty. exact Hempty.
  - unfold getEntryData, lookup in *. rewrite Hpk, Hdk, Hco. cbn [lift bind ok].
    erewrite run_lookup_found;
      [| exact Hans | reflexivity | apply areEqualUint8Arrays_ne; exact Hempty].
    cbn [run result world log sent Net.data]. rewrite <- Hdata, Hvalue. reflexivity.
Qed.

(** X15. A delete that has returned ([deleteJSON] or [deleteEntryData])
    has returned [undefined] and has written, after its lookup, one entry
    whose data is the deletion sentinel of the writes.  When that sentinel
    is the empty skylink the reads test for, every read that is answered
    with the entry written returns null data (and a null data link) and
    sends nothing but its lookup. *)
Theorem delete_then_read {W} (portal : Portal W) (writer : SkynetClient) (c : PublicCall)
    (privateKey dataKey customOptions : JSValue) (w0 : W) (value : JSValue) :
  c = call_deleteJSON privateKey dataKey customOptions \/
  c = call_deleteEntryData privateKey dataKey customOptions ->
  result (run portal (perform writer c) w0) = ok value ->
  value = JUndefined /\
  exists written,
    writes (log (run portal (perform writer c) w0)) = [written] /\
    Net.dataKey written = Validation.as_string dataKey /\
    Net.data written = DELETION_ENTRY_DATA /\
    (DELETION_ENTRY_DATA = EMPTY_SKYLINK ->
     forall (op : ReadOp) (reader : SkynetClient) (publicKey readOptions : JSValue)
            (sig : option bytes) (w1 w2 : W),
       valid_read_input op publicKey dataKey readOptions ->
       answer portal (lookup op reader publicKey dataKey readOptions) w1
         = (inr {| entry := Some written; signature := sig |}, w2) ->
       run portal (read op reader publicKey dataKey readOptions) w1 =
         {| result := ok (not_found op); world := w2;
            log := [sent (lookup op reader publicKey dataKey readOptions)] |}).
Proof.
  intros Hc Hdel.
  assert (exists options,
             perform writer c =
             bind (setEntryData writer privateKey dataKey (JUint8Array DELETION_ENTRY_DATA)
                     options) (fun _ => Ret JUndefined)) as [options Hperform].
  { destruct Hc as [-> | ->]; eexists; reflexivity. }
  rewrite Hperform in *.
  destruct (run_then_undefined portal
              (setEntryData writer privateKey dataKey (JUint8Array DELETION_ENTRY_DATA) options)
              w0) as (Hlog & Hvalue & _).
  destruct (Hvalue value Hdel) as (-> & inner & Hset).
  split; [reflexivity|]. rewrite Hlog.
  destruct (setEntryData_returned portal writer privateKey dataKey _ options w0 inner Hset)
    as (writerKey & getOpts & prior & w' & revision & setOpts & _ & _ & Hsent & _).
  eexists. split; [rewrite Hsent; reflexivity|].
  split; [reflexivity|]. split; [reflexivity|].
  intros Hsentinel op reader publicKey readOptions sig w1 w2 Hvalid Hans.
  eapply (run_read_absent portal op reader publicKey dataKey readOptions);
    [exact Hvalid | exact Hans | exact Hsentinel].
Qed.

(** X16. A [setDataLink] that has returned has written, after its lookup,
    one entry whose data is the decoded form of the skylink parsed from the
    data link it was given. *)
Theorem setDataLink_writes_decoded_link {W} (portal : Portal W) (client : SkynetClient)
    (privateKey dataKey dataLink customOptions : JSValue) (w0 : W) (value : JSValue) :
  result (run portal (setDataLink client privateKey dataKey dataLink customOptions) w0)
    = ok value ->
  value = JUndefined /\
  exists link parsedSkylink written,
    dataLink = JString link /\
    parseSkylink link = Some parsedSkylink /\
    writes (log (run portal (setDataLink client privateKey dataKey dataLink customOptions) w0))
      = [written] /\
    Net.dataKey written = Validation.as_string dataKey /\
    Net.data written = decodeSkylink parsedSkylink.
Proof.
  unfold setDataLink.
  destruct (Validation.validateSkylinkString parseSkylink "dataLink" dataLink "parameter")
    as [err|parsedSkylink] eqn:Hlink; cbn [lift bind]; [discriminate|].
  intros Hrun.
  destruct (run_then_undefined portal
              (setEntryData client privateKey dataKey (JUint8Array (decodeSkylink parsedSkylink))
                 customOptions) w0) as (Hlog & Hvalue & _).
  destruct (Hvalue value Hrun) as (-> & inner & Hset).
  split; [reflexivity|]. rewrite Hlog.
  destruct (setEntryData_returned portal client privateKey dataKey _ customOptions w0 inner Hset)
    as (writerKey & getOpts & prior & w' & revision & setOpts & _ & _ & Hsent & _).
  unfold Validation.validateSkylinkString, Validation.validateString in Hlink.
  destruct dataLink as [| | ? | ? | ? | link | ? | ? | ?]; try discriminate.
  cbn [typeof String.eqb Ascii.eqb Bool.eqb rbind ok Validation.as_string] in Hlink.
  destruct (parseSkylink link) as [parsed|] eqn:Hparse; [|discriminate].
  injection Hlink as ->.
  exists link, parsedSkylink. eexists.
  split; [reflexivity|]. split; [exact Hparse|].
  split; [rewrite Hsent; reflexivity|]. split; reflexivity.
Qed.

(** ** What the reads return *)

(** The test [typeof v !== "object" || v === null], failed. *)
Lemma object_test (v other : JSValue) :
  negb (String.eqb (typeof v) "object") || is_null other = false ->
  typeof v = "object" /\ is_null other = false.
Proof.
  intros Htest. apply orb_false_iff in Htest as [Htype Hnull].
  apply negb_false_iff, String.eqb_eq in Htype. auto.
Qed.

Lemma truthy_not_null (v : JSValue) : truthy v = true -> is_null v = false.
Proof. destruct v; simpl; intros; solve [reflexivity | discriminate]. Qed.

(** X17. The data [getJSON] returns is an object or [null], never a
    string, a number or a boolean: it is [null] when nothing was downloaded
    (the entry is absent or deleted, or the cached data link is current),
    and an object that is not [null] when the file was downloaded; the
    data link returned is then the link the download was sent for. *)
Theorem getJSON_returns_an_object {W} (portal : Portal W) (client : SkynetClient)
    (publicKey dataKey customOptions : JSValue) (w : W) (value : JSValue) :
  result (run portal (getJSON client publicKey dataKey customOptions) w) = ok value ->
  exists data dataLink,
    value = data_and_link data dataLink /\
    typeof data = "object" /\
    (fetched (log (run portal (getJSON client publicKey dataKey customOptions) w)) = [] ->
     data = JNull) /\
    (forall link,
        In link (fetched (log (run portal (getJSON client publicKey dataKey customOptions) w))) ->
        dataLink = JString link /\ is_null data = false).
Proof.
  unfold getJSON, getSkyDBRegistryEntry, unwrapJSON. exec; try discriminate;
    intros [= <-]; eexists _, _; (split; [reflexivity|]);
    try (split; [reflexivity|]; split; [reflexivity | intros link []]).
  - match goal with Ht : negb _ || _ = false |- _ => apply object_test in Ht as [Htype Hnull] end.
    split; [exact Htype|]. split; [discriminate|].
    intros link [<- | []]. auto.
  - match goal with Ht : negb (String.eqb (typeof (get_prop _ _)) _) || _ = false |- _ =>
      apply object_test in Ht as [Htype _] end.
    match goal with Hf : negb (_ && _) = false |- _ =>
      apply negb_false_iff, andb_true_iff in Hf as [Hdata _] end.
    split; [exact Htype|]. split; [discriminate|].
    intros link [<- | []]. split; [reflexivity | apply truthy_not_null, Hdata].
Qed.

(** A read of [getJSON] up to the file downloaded. *)
Lemma getJSON_downloaded {W} (portal : Portal W) (client : SkynetClient)
    (publicKey dataKey customOptions : JSValue) (signedEntry : SignedRegistryEntry)
    (found : RegistryEntry) (raw link : string) (content : JSValue) (w1 w2 w3 : W) :
  valid_read_input read_JSON publicKey dataKey customOptions ->
  answer portal (lookup read_JSON client publicKey dataKey customOptions) w1
    = (inr signedEntry, w2) ->
  entry signedEntry = Some found ->
  data found <> EMPTY_SKYLINK ->
  parseDataLink (data found) true = ok (raw, link) ->
  checkCachedDataLink raw
    (option_value (merge_options DEFAULT_GET_JSON_OPTIONS client customOptions) "cachedDataLink")
    = false ->
  answer portal
    (GetFileContent link
       (extractOptions (merge_options DEFAULT_GET_JSON_OPTIONS client customOptions)
          Download.DEFAULT_DOWNLOAD_OPTIONS)) w2
    = (inr content, w3) ->
  result (run portal (getJSON client publicKey dataKey customOptions) w1)
  = result (run portal (unwrapJSON (Validation.as_string dataKey) content link) w3).
Proof.
  intros (Hpk & Hdk & Hco) Hlookup Hfound Hne Hparse Hcache Hdownload.
  unfold getJSON, lookup in *. simpl read_model in Hco.
  rewrite Hpk, Hdk, Hco. cbn [lift bind ok].
  erewrite run_lookup_found by eassumption. cbn [result].
  rewrite Hparse. cbn [lift bind ok fst snd]. rewrite Hcache.
  unfold await. cbn [bind]. erewrite run_Call by exact Hdownload.
  cbn [result settled lift bind]. reflexivity.
Qed.

(** X18. How [getJSON] takes the object it has downloaded.  When the
    fields [_data] and [_v] are not both truthy it is legacy data and is
    returned as it is.  When both are truthy the object is an envelope,
    whatever the value of [_v]: no version is compared; the read returns
    [_data] when that is an object, and fails when it is not, as for a
    legacy document that holds a string under [_data] and a version. *)
Theorem getJSON_unwraps_by_fields {W} (portal : Portal W) (client : SkynetClient)
    (publicKey dataKey customOptions : JSValue) (signedEntry : SignedRegistryEntry)
    (found : RegistryEntry) (raw link : string) (content : JSValue) (w1 w2 w3 : W) :
  valid_read_input read_JSON publicKey dataKey customOptions ->
  answer portal (lookup read_JSON client publicKey dataKey customOptions) w1
    = (inr signedEntry, w2) ->
  entry signedEntry = Some found ->
  data found <> EMPTY_SKYLINK ->
  parseDataLink (data found) true = ok (raw, link) ->
  checkCachedDataLink raw
    (option_value (merge_options DEFAULT_GET_JSON_OPTIONS client customOptions) "cachedDataLink")
    = false ->
  answer portal
    (GetFileContent link
       (extractOptions (merge_options DEFAULT_GET_JSON_OPTIONS client customOptions)
          Download.DEFAULT_DOWNLOAD_OPTIONS)) w2
    = (inr content, w3) ->
  typeof content = "object" -> is_null content = false ->
  result (run portal (getJSON client publicKey dataKey customOptions) w1) =
    if truthy (get_prop content "_data") && truthy (get_prop content "_v") then
      if String.eqb (typeof (get_prop content "_data")) "object"
      then ok (data_and_link (get_prop content "_data") (JString link))
      else throw (DataNotJSON (Validation.as_string dataKey))
    else ok (data_and_link content (JString link)).
Proof.
  intros Hvalid Hlookup Hfound Hne Hparse Hcache Hdownload Htype Hnull.
  rewrite (getJSON_downloaded portal client publicKey dataKey customOptions signedEntry found
             raw link content w1 w2 w3) by assumption.
  unfold unwrapJSON. rewrite Htype, Hnull. cbn [String.eqb Ascii.eqb Bool.eqb negb orb].
  destruct (truthy (get_prop content "_data") && truthy (get_prop content "_v"));
    cbn [negb]; [|reflexivity].
  destruct (String.eqb (typeof (get_prop content "_data")) "object"); reflexivity.
Qed.

(** X19. A cached data link that is current spares the download: when
    the test of the cached link against the link of the entry holds,
    [getJSON] and [getRawBytes] return null data with the data link of the
    entry, and have sent nothing but the lookup. *)
Theorem current_cached_link_spares_download {W} (portal : Portal W) (op : ReadOp)
    (client : SkynetClient) (publicKey dataKey customOptions : JSValue)
    (signedEntry : SignedRegistryEntry) (found : RegistryEntry) (raw link : string)
    (w1 w2 : W) :
  op <> read_EntryData ->
  valid_read_input op publicKey dataKey customOptions ->
  answer portal (lookup op client publicKey dataKey customOptions) w1 = (inr signedEntry, w2) ->
  entry signedEntry = Some found ->
  data found <> EMPTY_SKYLINK ->
  parseDataLink (data found) (takes_legacy op) = ok (raw, link) ->
  checkCachedDataLink raw
    (option_value (merge_options DEFAULT_GET_JSON_OPTIONS client customOptions) "cachedDataLink")
    = true ->
  run portal (read op client publicKey dataKey customOptions) w1 =
    {| result := ok (data_and_link JNull (JString link)); world := w2;
       log := [sent (lookup op client publicKey dataKey customOptions)] |}.
Proof.
  intros Hop (Hpk & Hdk & Hco) Hlookup Hfound Hne Hparse Hcache.
  destruct op; [| congruence |];
    unfold read, getJSON, getRawBytes, lookup in *; simpl read_model in Hco;
    cbn [takes_legacy] in Hparse;
    rewrite Hpk, Hdk, Hco; cbn [lift bind ok];
    (erewrite run_lookup_found by eassumption);
    rewrite Hparse; cbn [lift bind ok fst snd]; rewrite Hcache; reflexivity.
Qed.

(** X20. Every download [getRawBytes] sends asks for an array buffer,
    whatever the options of the call and of the client ask for; and when
    the read returns after a download, its data is a byte array and its
    data link the link downloaded. *)
Theorem getRawBytes_asks_for_bytes {W} (portal : Portal W) (client : SkynetClient)
    (publicKey dataKey customOptions : JSValue) (w : W) (link : string) (opts : Options) :
  In (SentDownload link opts)
     (log (run portal (getRawBytes client publicKey dataKey customOptions) w)) ->
  opts !! "responseType" = Some (JString "arraybuffer") /\
  (forall value,
      result (run portal (getRawBytes client publicKey dataKey customOptions) w) = ok value ->
      exists buffer, value = data_and_link (JUint8Array buffer) (JString link)).
Proof.
  unfold getRawBytes, getSkyDBRegistryEntry. exec; cbn [In];
    intros Hin; repeat (destruct Hin as [Hin | Hin]; try discriminate Hin); try contradiction;
    injection Hin as <- <-;
    (split; [apply lookup_insert_eq|]); intros value; try discriminate.
  intros [= <-]. eexists. reflexivity.
Qed.

(** ** The entry for raw bytes *)

(** X21. [getOrCreateRawBytesRegistryEntry] always sends the upload and
    the lookup, in this order and both before it looks at either outcome,
    and never a write.  The file uploaded holds the bytes given, as an
    octet stream.  When it returns, the entry is for the data key given,
    its data is the decoded skylink of the upload, of the raw skylink size,
    and its revision follows the one the lookup found. *)
Theorem raw_bytes_entry {W} (portal : Portal W) (client : SkynetClient)
    (publicKey dataKey : string) (data : bytes) (customOptions : Options) (w : W) :
  exists file uploadOpts getOpts,
    log (run portal
           (getOrCreateRawBytesRegistryEntry client publicKey dataKey data customOptions) w)
      = [SentUpload file uploadOpts; SentGetEntry publicKey dataKey getOpts] /\
    content file = JUint8Array data /\
    type file = "application/octet-stream" /\
    forall created,
      result (run portal
                (getOrCreateRawBytesRegistryEntry client publicKey dataKey data customOptions) w)
        = ok created ->
      exists skylink prior w1 w2,
        answer portal (UploadFile file uploadOpts) w = (inr skylink, w1) /\
        answer portal (RegistryGetEntry publicKey dataKey getOpts) w1 = (inr prior, w2) /\
        Net.dataKey created = dataKey /\
        Net.data created
          = decodeSkylinkBase64 (StringUtils.trimUriPrefix skylink URI_SKYNET_PREFIX) /\
        List.length (Net.data created) = RAW_SKYLINK_SIZE /\
        getNextRevisionFromEntry (entry prior) = ok (revision created).
Proof.
  unfold getOrCreateRawBytesRegistryEntry.
  set (opts := merge_options DEFAULT_SET_JSON_OPTIONS client (JObject customOptions)).
  destruct (negb (truthy (option_value opts "hashedDataKeyHex")));
    cbn [stringToUint8ArrayUtf8 Validation.validateString typeof String.eqb Ascii.eqb
         Bool.eqb rbind ok lift bind];
    exec; eexists _, _, _; (split; [reflexivity|]); (split; [reflexivity|]);
    (split; [reflexivity|]); intros created; try discriminate;
    intros [= <-]; eexists _, _, _, _;
    (split; [eassumption|]); (split; [eassumption|]); (split; [reflexivity|]);
    (split; [reflexivity|]); (split; [|assumption]); cbn [Net.data];
    match goal with Hlen : Validation.validateUint8ArrayLen _ _ _ _ = _ |- _ =>
      revert Hlen; unfold Validation.validateUint8ArrayLen;
      cbn [Validation.validateUint8Array rbind ok Validation.as_bytes];
      destruct (Nat.eqb_spec
                  (List.length (decodeSkylinkBase64
                     (StringUtils.trimUriPrefix x URI_SKYNET_PREFIX))) RAW_SKYLINK_SIZE);
      [intros _; assumption | discriminate]
    end.
Qed.

(** ** The data link of [setJSON] *)

(** X22. A [setJSON] that has returned has uploaded a JSON file, has
    looked the entry up, and has written one entry: its data is the decoded
    skylink of the upload (less the URI prefix), its revision follows the
    one the lookup found.  The data link it returns is that skylink,
    formatted twice.  When the encoding of skylinks inverts the decoding on
    it, formatting is idempotent on it, and the raw size differs from the
    size of the base64 text, the link the reads take from the entry
    written, and download, is the data link [setJSON] returned. *)
Theorem setJSON_writes_uploaded_link {W} (portal : Portal W) (client : SkynetClient)
    (privateKey dataKey json customOptions : JSValue) (w0 : W) (value : JSValue) :
  result (run portal (setJSON client privateKey dataKey json customOptions) w0) = ok value ->
  exists file uploadOpts publicKey getOpts skylink prior w1 w2 written setOpts,
    answer portal (UploadFile file uploadOpts) w0 = (inr skylink, w1) /\
    answer portal (RegistryGetEntry publicKey (Validation.as_string dataKey) getOpts) w1
      = (inr prior, w2) /\
    log (run portal (setJSON client privateKey dataKey json customOptions) w0) =
      [ SentUpload file uploadOpts;
        SentGetEntry publicKey (Validation.as_string dataKey) getOpts;
        SentSetEntry (Validation.as_string privateKey) written setOpts ] /\
    type file = "application/json" /\
    Net.data written
      = decodeSkylinkBase64 (StringUtils.trimUriPrefix skylink URI_SKYNET_PREFIX) /\
    revision written = match entry prior with None => 0 | Some e => revision e + 1 end /\
    value = data_and_link json
              (JString (formatSkylink (formatSkylink
                 (StringUtils.trimUriPrefix skylink URI_SKYNET_PREFIX)))) /\
    (let dataLink := StringUtils.trimUriPrefix skylink URI_SKYNET_PREFIX in
     encodeSkylinkBase64 (decodeSkylinkBase64 dataLink) = dataLink ->
     formatSkylink (formatSkylink dataLink) = formatSkylink dataLink ->
     RAW_SKYLINK_SIZE <> BASE64_ENCODED_SKYLINK_SIZE ->
     forall legacy,
       parseDataLink (Net.data written) legacy = ok (dataLink, formatSkylink dataLink) /\
       get_prop value "dataLink" = JString (formatSkylink dataLink)).
Proof.
  unfold setJSON, getOrCreateRegistryEntry.
  set (opts := merge_options DEFAULT_SET_JSON_OPTIONS client customOptions).
  set (opts' := merge_options DEFAULT_SET_JSON_OPTIONS client (JObject opts)).
  exec; try discriminate; intros [= <-];
    eexists _, _, _, _, _, _, _, _, _, _;
    (split; [eassumption|]); (split; [eassumption|]); (split; [reflexivity|]);
    (split; [reflexivity|]); (split; [reflexivity|]); cbn [Net.revision Net.data];
    match goal with Hnext : getNextRevisionFromEntry _ = inr _ |- _ =>
      unfold getNextRevisionFromEntry in Hnext;
      destruct (_ >? Number.MAX_REVISION); [discriminate Hnext|]; injection Hnext as <-
    end;
    (split; [reflexivity|]); (split; [reflexivity|]);
    cbv zeta; intros Hcodec Hformat Hsizes legacy;
    match goal with Hlen : Validation.validateUint8ArrayLen _ _ _ _ = _ |- _ =>
      revert Hlen; unfold Validation.validateUint8ArrayLen;
      cbn [Validation.validateUint8Array rbind ok Validation.as_bytes];
      destruct (Nat.eqb_spec
                  (List.length (decodeSkylinkBase64
                     (StringUtils.trimUriPrefix x URI_SKYNET_PREFIX))) RAW_SKYLINK_SIZE)
        as [Hraw|]; [intros _ | discriminate]
    end;
    (split;
     [ unfold parseDataLink; rewrite Hraw, Nat.eqb_refl;
       destruct (Nat.eqb_spec RAW_SKYLINK_SIZE BASE64_ENCODED_SKYLINK_SIZE); [contradiction|];
       rewrite andb_false_r, Hcodec; reflexivity
     | unfold data_and_link, get_prop;
       rewrite lookup_insert_ne by discriminate; rewrite lookup_insert_eq, Hformat;
       reflexivity ]).
Qed.

End WithExternals.

End EngineFacts.

(* ===================================================================== *)
(** * The validation of responses *)
(* ===================================================================== *)

Module ResponseFacts.

Import Download DownloadResponse.

Section WithExternals.
Context `{Externals}.

(** A sequence of checks passes when each does. *)
Lemma rbind_ok {A} (r : Result A) (k : A -> Result unit) :
  rbind r k = ok tt <-> exists a, r = ok a /\ k a = ok tt.
Proof.
  destruct r as [e|a]; simpl; split.
  - discriminate.
  - intros (a & Ha & _). discriminate.
  - eauto.
  - intros (a' & [= <-] & Hk). exact Hk.
Qed.

(** What is caught is thrown again under the message of the [catch]. *)
Lemma rethrown_ok (message : string) (r : Result unit) :
  rethrown message r = ok tt <-> r = ok tt.
Proof. destruct r as [e|[]]; simpl; split; solve [discriminate | reflexivity]. Qed.

Lemma rethrown_failure (message : string) (r : Result unit) (e : Error) :
  rethrown message r = throw e -> exists cause, r = throw cause /\ e = ErrCause message cause.
Proof. destruct r as [cause|[]]; simpl; [intros [= <-]; eauto | discriminate]. Qed.

(** A header that is required is there and not empty; it is a string. *)
Lemma required_header (h : Headers) (name message : string) :
  required (header h name) message = ok tt <-> exists s, h !! name = Some s /\ s <> "".
Proof.
  unfold required, header. destruct (h !! name) as [s|]; simpl.
  - destruct (String.eqb_spec s ""); simpl; split.
    + discriminate.
    + intros (s' & [= <-] & Hs). contradiction.
    + eauto.
    + reflexivity.
  - split; [discriminate | intros (s & Hs & _); discriminate].
Qed.

Lemma header_is_string (h : Headers) (name path valueKind : string) (s : string) :
  h !! name = Some s ->
  header h name = JString s /\ Validation.validateString path (header h name) valueKind = ok tt.
Proof. unfold header. intros ->. split; reflexivity. Qed.

(** For a data link the proof validation passes exactly on the link
    itself with no proof. *)
Lemma data_link_accepted (inputSkylink dataLink : string) (proof : Header) :
  isSkylinkV1 inputSkylink = true ->
  validateRegistryProofResponse inputSkylink dataLink proof = ok tt <->
  inputSkylink = dataLink /\ header_truthy proof = false.
Proof.
  intros Hv1. unfold validateRegistryProofResponse. rewrite Hv1. split.
  - destruct (parseProofHeader proof) as [e|proofArray]; simpl; [discriminate|].
    destruct (String.eqb_spec inputSkylink dataLink) as [Heq|Hne]; simpl; [|discriminate].
    destruct (header_truthy proof); [discriminate | auto].
  - intros [-> Hempty]. unfold parseProofHeader. rewrite Hempty. simpl.
    rewrite String.eqb_refl. reflexivity.
Qed.

(** The headers that name the portal and the skylink, for a data link. *)
Lemma link_headers_for_data_link (h : Headers) (inputSkylink valueKind : string) :
  isSkylinkV1 inputSkylink = true ->
  validate_link_headers h inputSkylink valueKind = ok tt <->
  (exists portalUrl, h !! "skynet-portal-api" = Some portalUrl /\ portalUrl <> "") /\
  h !! "skynet-skylink" = Some inputSkylink /\ inputSkylink <> "" /\
  (exists parsed, parseSkylink inputSkylink = Some parsed) /\
  header_truthy (h !! "skynet-proof") = false.
Proof.
  intros Hv1. unfold validate_link_headers.
  rewrite rbind_ok. setoid_rewrite rbind_ok. setoid_rewrite rbind_ok.
  setoid_rewrite rbind_ok. split.
  - intros ([] & Hportal & [] & _ & [] & Hlink & parsed & Hparsed & Hproof).
    apply required_header in Hportal, Hlink. destruct Hlink as (link & Hlink & Hne).
    destruct (header_is_string h "skynet-skylink" "" "" link Hlink) as [Hheader _].
    rewrite Hheader in Hparsed, Hproof. cbn [Validation.as_string] in Hproof.
    apply (data_link_accepted _ _ _ Hv1) in Hproof as [<- Hproof].
    split; [exact Hportal|]. split; [exact Hlink|]. split; [exact Hne|]. split; [|exact Hproof].
    revert Hparsed. unfold Validation.validateSkylinkString.
    cbn [Validation.validateString typeof String.eqb Ascii.eqb Bool.eqb rbind ok
         Validation.as_string].
    destruct (parseSkylink inputSkylink) as [p|]; [eauto | discriminate].
  - intros ((portalUrl & Hportal & Hpne) & Hlink & Hne & (parsed & Hparsed) & Hproof).
    exists tt. split; [apply required_header; eauto|].
    exists tt. split; [apply (header_is_string h _ _ _ portalUrl Hportal)|].
    exists tt. split; [apply required_header; eauto|].
    destruct (header_is_string h "skynet-skylink" "" "" inputSkylink Hlink) as [Hheader _].
    rewrite Hheader. exists parsed. split.
    + unfold Validation.validateSkylinkString.
      cbn [Validation.validateString typeof String.eqb Ascii.eqb Bool.eqb rbind ok
           Validation.as_string].
      rewrite Hparsed. reflexivity.
    + cbn [Validation.as_string]. apply (data_link_accepted _ _ _ Hv1). auto.
Qed.

(** The test on the body of [validateGetFileContentResponse]. *)
Lemma body_test (body : JSValue) :
  negb (truthy body) && negb (is_empty_string body) = false <-> present body.
Proof.
  unfold present. destruct (truthy body) eqn:Htruthy; simpl.
  - split; auto.
  - destruct body as [| | ? | ? | ? | s | ? | ? | ?]; simpl;
      try (split; [discriminate | intros [? | ?]; discriminate]).
    destruct (String.eqb_spec s ""); simpl.
    + subst s. split; auto.
    + split; [discriminate | intros [? | [= ?]]; [discriminate | contradiction]].
Qed.

(** X23. For a data link, [validateGetFileContentResponse] accepts a
    response exactly when its body is there (the empty string of an empty
    file counts), its headers are there, the content type and the portal
    are named and not empty, the skylink header is the input skylink
    itself, character for character, and parses, and there is no proof
    header, or an empty one.  The skylink [extractGetFileContentResponse]
    then returns is the input skylink, formatted. *)
Theorem file_content_response_for_data_link (response : Response) (inputSkylink : string) :
  isSkylinkV1 inputSkylink = true ->
  (validateGetFileContentResponse response inputSkylink = ok tt <->
   present (response_body response) /\
   exists h,
     response_headers response = Some h /\
     (exists contentType, h !! "content-type" = Some contentType /\ contentType <> "") /\
     (exists portalUrl, h !! "skynet-portal-api" = Some portalUrl /\ portalUrl <> "") /\
     h !! "skynet-skylink" = Some inputSkylink /\ inputSkylink <> "" /\
     (exists parsed, parseSkylink inputSkylink = Some parsed) /\
     header_truthy (h !! "skynet-proof") = false) /\
  (forall h,
     validateGetFileContentResponse response inputSkylink = ok tt ->
     response_headers response = Some h ->
     get_prop (extractGetFileContentResponse (response_body response) h) "skylink"
     = JString (formatSkylink inputSkylink)).
Proof.
  intros Hv1.
  assert (validateGetFileContentResponse response inputSkylink = ok tt <->
          present (response_body response) /\
          exists h,
            response_headers response = Some h /\
            (exists contentType, h !! "content-type" = Some contentType /\ contentType <> "") /\
            (exists portalUrl, h !! "skynet-portal-api" = Some portalUrl /\ portalUrl <> "") /\
            h !! "skynet-skylink" = Some inputSkylink /\ inputSkylink <> "" /\
            (exists parsed, parseSkylink inputSkylink = Some parsed) /\
            header_truthy (h !! "skynet-proof") = false) as Hiff.
  { unfold validateGetFileContentResponse. rewrite rethrown_ok, rbind_ok. split.
    - intros ([] & Hbody & Hrest).
      destruct (negb _ && negb _) eqn:Htest; [discriminate|].
      apply body_test in Htest. split; [exact Htest|].
      destruct (response_headers response) as [h|]; [|discriminate].
      exists h. split; [reflexivity|].
      apply rbind_ok in Hrest as ([] & Htype & Hrest).
      apply rbind_ok in Hrest as ([] & _ & Hrest).
      apply required_header in Htype. split; [exact Htype|].
      apply (link_headers_for_data_link h inputSkylink _ Hv1) in Hrest. exact Hrest.
    - intros (Hbody & h & -> & (contentType & Htype & Htne) & Hrest).
      apply body_test in Hbody. rewrite Hbody. exists tt. split; [reflexivity|].
      apply rbind_ok. exists tt. split; [apply required_header; eauto|].
      apply rbind_ok. exists tt. split; [apply (header_is_string h _ _ _ contentType Htype)|].
      apply (link_headers_for_data_link h inputSkylink _ Hv1). exact Hrest. }
  split; [exact Hiff|].
  intros h Hok Hheaders. apply Hiff in Hok as (_ & h' & Hh' & _ & _ & Hlink & _).
  rewrite Hheaders in Hh'. injection Hh' as <-.
  unfold extractGetFileContentResponse, get_prop.
  do 3 (rewrite lookup_insert_ne by discriminate). rewrite lookup_insert_eq.
  unfold header. rewrite Hlink. reflexivity.
Qed.

(** X24. The validators look at the body of a response only to see
    whether it is there.  [validateGetFileContentResponse] gives the same
    outcome for any two bodies that are there, the empty string included,
    and refuses every other falsy body as missing;
    [validateGetMetadataResponse] refuses the empty string too.  Both
    refusals are thrown under the message of their [catch]. *)
Theorem body_is_only_tested_for_presence (headers : option Headers) (inputSkylink : string) :
  (forall body other,
      present body -> present other ->
      validateGetFileContentResponse
        {| response_body := body; response_headers := headers |} inputSkylink
      = validateGetFileContentResponse
          {| response_body := other; response_headers := headers |} inputSkylink) /\
  (forall body,
      ~ present body ->
      validateGetFileContentResponse
        {| response_body := body; response_headers := headers |} inputSkylink
      = throw (ErrCause FILE_CONTENT_INVALID (Err DATA_MISSING))) /\
  (forall body,
      truthy body = false ->
      validateGetMetadataResponse
        {| response_body := body; response_headers := headers |} inputSkylink
      = throw (ErrCause METADATA_INVALID (Err DATA_MISSING))) /\
  (forall body other,
      truthy body = true -> truthy other = true ->
      validateGetMetadataResponse
        {| response_body := body; response_headers := headers |} inputSkylink
      = validateGetMetadataResponse
          {| response_body := other; response_headers := headers |} inputSkylink).
Proof.
  split; [|split; [|split]].
  - intros body other Hbody Hother. apply body_test in Hbody, Hother.
    unfold validateGetFileContentResponse. cbn [response_body response_headers].
    rewrite Hbody, Hother. reflexivity.
  - intros body Hbody. unfold validateGetFileContentResponse. cbn [response_body].
    destruct (negb (truthy body) && negb (is_empty_string body)) eqn:Htest; [reflexivity|].
    apply body_test in Htest. contradiction.
  - intros body Hbody. unfold validateGetMetadataResponse, required. cbn [response_body].
    rewrite Hbody. reflexivity.
  - intros body other Hbody Hother. unfold validateGetMetadataResponse, required.
    cbn [response_body response_headers]. rewrite Hbody, Hother. reflexivity.
Qed.

(** X25. [validateResolveHnsResponse] accepts the data of a response
    exactly when it holds a truthy [skylink] that is a string and parses as
    a skylink, or no truthy [skylink] and a [registry] object whose
    [publickey] and [datakey] are strings.  A truthy [skylink] decides:
    [registry] is then not looked at. *)
Theorem resolve_hns_response (data : JSValue) :
  validateResolveHnsResponse data = ok tt <->
  (exists link parsed,
      get_prop data "skylink" = JString link /\ link <> "" /\ parseSkylink link = Some parsed)
  \/
  (truthy (get_prop data "skylink") = false /\
   truthy (get_prop data "registry") = true /\
   typeof (get_prop data "registry") = "object" /\
   typeof (get_prop (get_prop data "registry") "publickey") = "string" /\
   typeof (get_prop (get_prop data "registry") "datakey") = "string").
Proof.
  unfold validateResolveHnsResponse. rewrite rethrown_ok, rbind_ok.
  assert (forall k, truthy (get_prop data k) = true -> required data DATA_MISSING = ok tt)
    as Hdata.
  { intros k Hk. destruct data; try discriminate Hk. reflexivity. }
  split.
  - intros ([] & _ & Hrest).
    destruct (truthy (get_prop data "skylink")) eqn:Hskylink.
    + left. apply rbind_ok in Hrest as (parsed & Hlink & _).
      unfold Validation.validateSkylinkString, Validation.validateString in Hlink.
      destruct (get_prop data "skylink") as [| | ? | ? | ? | link | ? | ? | ?];
        try discriminate Hlink.
      cbn [typeof String.eqb Ascii.eqb Bool.eqb rbind ok Validation.as_string] in Hlink.
      destruct (parseSkylink link) as [p|] eqn:Hparse; [|discriminate].
      exists link, p. split; [reflexivity|]. split; [|exact Hparse].
      intros ->. discriminate.
    + right. split; [reflexivity|].
      destruct (truthy (get_prop data "registry")) eqn:Hregistry; [|discriminate].
      split; [reflexivity|].
      apply rbind_ok in Hrest as ([] & Hobject & Hrest).
      apply rbind_ok in Hrest as ([] & Hpublic & Hdatakey).
      unfold Validation.validateObject in Hobject.
      unfold Validation.validateString in Hpublic, Hdatakey.
      destruct (String.eqb_spec (typeof (get_prop data "registry")) "object");
        [|discriminate].
      destruct (String.eqb_spec
                  (typeof (get_prop (get_prop data "registry") "publickey")) "string");
        [|discriminate].
      destruct (String.eqb_spec
                  (typeof (get_prop (get_prop data "registry") "datakey")) "string");
        [|discriminate].
      auto.
  - intros [(link & parsed & Hlink & Hne & Hparse)
           | (Hskylink & Hregistry & Hobject & Hpublic & Hdatakey)].
    + assert (truthy (get_prop data "skylink") = true) as Htruthy.
      { rewrite Hlink. simpl. destruct (String.eqb_spec link ""); [contradiction | reflexivity]. }
      exists tt. split; [apply (Hdata "skylink"), Htruthy|].
      rewrite Htruthy, Hlink. unfold Validation.validateSkylinkString.
      cbn [Validation.validateString typeof String.eqb Ascii.eqb Bool.eqb rbind ok
           Validation.as_string].
      rewrite Hparse. reflexivity.
    + exists tt. split; [apply (Hdata "registry"), Hregistry|].
      rewrite Hskylink, Hregistry.
      unfold Validation.validateObject, Validation.validateString.
      rewrite Hobject, Hpublic, Hdatakey.
      destruct (get_prop data "registry"); try discriminate Hregistry; reflexivity.
Qed.

End WithExternals.

End ResponseFacts.

(* ===================================================================== *)
(** * Optional objects, and the requests of the first registry client *)
(* ===================================================================== *)

Module OptionFacts.

Import Validation.

(** X26. [validateOptionalObject] accepts a value exactly when it is
    falsy ([undefined], [null], but also [false], [0] and the empty
    string), or an object each of whose own properties is in the model, as
    a property of the model or as a name every object inherits, such as
    [toString].  The model itself is accepted. *)
Theorem optional_object_accepted (name : string) (value : JSValue) (valueKind : string)
    (model : gmap string JSValue) :
  (validateOptionalObject name value valueKind model = ok tt <->
   truthy value = false \/
   (typeof value = "object" /\
    forall k, is_Some (own_properties value !! k) ->
              is_Some (model !! k) \/ k ∈ OBJECT_PROTOTYPE_KEYS)) /\
  validateOptionalObject name (JObject model) valueKind model = ok tt.
Proof.
  assert (forall v,
             all_properties_in v model = true <->
             forall k, is_Some (own_properties v !! k) ->
                       is_Some (model !! k) \/ k ∈ OBJECT_PROTOTYPE_KEYS) as Hall.
  { intros v. unfold all_properties_in. rewrite forallb_forall. split.
    - intros Hin k [x Hx]. specialize (Hin (k, x)). cbn [fst] in Hin.
      unfold js_in in Hin. rewrite orb_true_iff, !bool_decide_eq_true in Hin.
      apply Hin, list_elem_of_In, elem_of_map_to_list, Hx.
    - intros Hin [k x] Hkx. cbn [fst].
      apply list_elem_of_In, elem_of_map_to_list in Hkx.
      unfold js_in. rewrite orb_true_iff, !bool_decide_eq_true. apply Hin. eauto. }
  split.
  - unfold validateOptionalObject, validateObject.
    destruct (truthy value) eqn:Htruthy; cbn [negb]; [|split; auto].
    destruct (String.eqb_spec (typeof value) "object") as [Htype|Htype]; cbn [rbind ok].
    + assert (is_null value = false) as -> by (destruct value; solve [reflexivity | discriminate]).
      destruct (all_properties_in value model) eqn:Hin.
      * split; [|reflexivity]. intros _. right. split; [exact Htype|]. apply Hall, Hin.
      * split; [discriminate|]. intros [? | [_ Hk]]; [discriminate|].
        apply Hall in Hk. congruence.
    + split; [discriminate|]. intros [? | [? _]]; [discriminate | contradiction].
  - unfold validateOptionalObject, validateObject. cbn [truthy negb typeof String.eqb Ascii.eqb
      Bool.eqb rbind ok is_null].
    assert (all_properties_in (JObject model) model = true) as ->; [|reflexivity].
    apply Hall. intros k Hk. left. exact Hk.
Qed.

End OptionFacts.

Module LegacyRequests.

Import LegacyRegistry NetFacts SpreadFacts.

Section WithExternals.
Context `{LegacyExternals}.

(** A read that returns has read the property. *)
Lemma member_ok (v : JSValue) (k : string) (x : JSValue) :
  member v k = ok x -> x = get_prop v k /\ v <> JNull /\ v <> JUndefined.
Proof. destruct v; cbn; intros Hx; inversion Hx; repeat split; discriminate. Qed.

Ltac built H :=
  repeat (match type of H with
          | rbind ?r _ = _ =>
              let e := fresh "Hstep" in
              destruct r eqn:e; cbn [rbind] in H; [discriminate|]
          end).

(** X27. [lookupRegistry] and [updateRegistry] send the request they
    build, once, whatever the portal answers: there is no second attempt.
    Its method is [get] for the lookup and [post] for the update, and the
    lookup's query and the update's data are the ones the function builds
    from its arguments: no option, of the call or of the client, changes
    them.  Every other property of the request is the merged option.
    When building the request throws, nothing is sent and the function
    returns [null], respectively [false]; this is so for a [fileID] that
    is [undefined] or [null], and in the update for a signed value
    without [value]. *)
Theorem legacy_request_is_fixed {W} (portal : Portal W) (client : Client)
    (user fileID srv perCall : JSValue) (w : W) :
  match lookup_config (registry_options client perCall) user fileID with
  | inl err =>
      run portal (lookupRegistry client user fileID perCall) w
      = {| result := ok JNull; world := w; log := [] |}
  | inr config =>
      log (run portal (lookupRegistry client user fileID perCall) w) = [SentRequest config] /\
      config !! "method" = Some (JString "get") /\
      (exists encoded publickey object text fileid,
          EncodeUserPublicKey user = ok encoded /\
          Buffer_from encoded = ok publickey /\
          fileid_object fileID = ok object /\
          stringify object = ok text /\
          Buffer_from (JString text) = ok fileid /\
          config !! "query"
          = Some (JObject (<["publickey" := publickey]> (<["fileid" := fileid]> ∅)))) /\
      (forall k, k <> "method" -> k <> "query" ->
         config !! k = registry_options client perCall !! k)
  end /\
  match update_config (registry_options client perCall) user fileID srv with
  | inl err =>
      run portal (updateRegistry client user fileID srv perCall) w
      = {| result := ok (JBool false); world := w; log := [] |}
  | inr config =>
      log (run portal (updateRegistry client user fileID srv perCall) w)
      = [SentRequest config] /\
      config !! "method" = Some (JString "post") /\
      (exists key object data,
          Array_from (get_prop user "publicKey") = ok key /\
          fileid_object fileID = ok object /\
          config !! "data" = Some (JObject data) /\
          data !! "publickey"
          = Some (JObject (<["algorithm" := JString "ed25519"]> (<["key" := key]> ∅))) /\
          data !! "fileid" = Some object /\
          data !! "revision" = Some (get_prop (get_prop srv "value") "revision")) /\
      (forall k, k <> "method" -> k <> "data" ->
         config !! k = registry_options client perCall !! k)
  end /\
  (fileID = JNull \/ fileID = JUndefined ->
     (exists err, lookup_config (registry_options client perCall) user fileID = throw err) /\
     (exists err, update_config (registry_options client perCall) user fileID srv = throw err)) /\
  (get_prop srv "value" = JNull \/ get_prop srv "value" = JUndefined ->
     exists err, update_config (registry_options client perCall) user fileID srv = throw err).
Proof.
  split; [|split; [|split]].
  - rewrite LegacyFacts.run_lookupRegistry.
    destruct (lookup_config (registry_options client perCall) user fileID)
      as [err|config] eqn:Hc; [reflexivity|].
    split; [destruct (answer portal (ExecuteRequest config) w); reflexivity|].
    pose proof (fun k => LegacyFacts.lookup_config_options _ _ _ _ k Hc) as Hrest.
    unfold lookup_config in Hc. built Hc. injection Hc as <-.
    split; [rewrite spread_lookup, lookup_insert_eq; reflexivity|].
    split; [|exact Hrest].
    eexists _, _, _, _, _. repeat (split; [first [reflexivity | eassumption]|]).
    rewrite spread_lookup. rewrite lookup_insert_ne by discriminate.
    rewrite lookup_insert_eq. reflexivity.
  - rewrite LegacyFacts.run_updateRegistry.
    destruct (update_config (registry_options client perCall) user fileID srv)
      as [err|config] eqn:Hc; [reflexivity|].
    split; [destruct (answer portal (ExecuteRequest config) w); reflexivity|].
    pose proof (fun k => LegacyFacts.update_config_options _ _ _ _ _ k Hc) as Hrest.
    unfold update_config in Hc.
    destruct (member user "publicKey") as [|publicKey] eqn:Huser; cbn [rbind] in Hc;
      [discriminate|].
    apply member_ok in Huser as (-> & _ & _).
    destruct (Array_from (get_prop user "publicKey")) as [|key] eqn:Hkey; cbn [rbind] in Hc;
      [discriminate|].
    destruct (fileid_object fileID) as [|object] eqn:Hobject; cbn [rbind] in Hc;
      [discriminate|].
    destruct (member srv "value") as [|value] eqn:Hvalue; cbn [rbind] in Hc; [discriminate|].
    apply member_ok in Hvalue as (-> & _ & _).
    destruct (member (get_prop srv "value") "revision") as [|revision] eqn:Hrevision;
      cbn [rbind] in Hc; [discriminate|].
    apply member_ok in Hrevision as (-> & _ & _).
    built Hc. injection Hc as <-.
    split; [rewrite spread_lookup, lookup_insert_eq; reflexivity|].
    split; [|exact Hrest].
    eexists _, _, _. split; [reflexivity|]. split; [reflexivity|].
    split.
    { rewrite spread_lookup. rewrite lookup_insert_ne by discriminate.
      rewrite lookup_insert_eq. reflexivity. }
    split; [rewrite lookup_insert_eq; reflexivity|].
    split; [rewrite lookup_insert_ne by discriminate; rewrite lookup_insert_eq; reflexivity|].
    do 2 (rewrite lookup_insert_ne by discriminate). rewrite lookup_insert_eq. reflexivity.
  - intros Hnull.
    assert (fileid_object fileID = throw (TypeError "version")) as Hobject.
    { unfold fileid_object. rewrite (LegacyFacts.member_null _ _ Hnull). reflexivity. }
    split.
    + unfold lookup_config.
      destruct (EncodeUserPublicKey user) as [err|encoded]; cbn [rbind]; [eexists; reflexivity|].
      destruct (Buffer_from encoded) as [err|publickey]; cbn [rbind]; [eexists; reflexivity|].
      rewrite Hobject. eexists. reflexivity.
    + unfold update_config.
      destruct (member user "publicKey") as [err|publicKey]; cbn [rbind];
        [eexists; reflexivity|].
      destruct (Array_from publicKey) as [err|key]; cbn [rbind]; [eexists; reflexivity|].
      rewrite Hobject. eexists. reflexivity.
  - intros Hnull. unfold update_config.
    destruct (member user "publicKey") as [err|publicKey]; cbn [rbind]; [eexists; reflexivity|].
    destruct (Array_from publicKey) as [err|key]; cbn [rbind]; [eexists; reflexivity|].
    destruct (fileid_object fileID) as [err|object]; cbn [rbind]; [eexists; reflexivity|].
    destruct (member srv "value") as [err|value] eqn:Hvalue; cbn [rbind];
      [eexists; reflexivity|].
    apply member_ok in Hvalue as (-> & _ & _).
    rewrite (LegacyFacts.member_null _ _ Hnull). eexists. reflexivity.
Qed.

End WithExternals.

End LegacyRequests.

(* ===================================================================== *)
(** * The input of a caller and the network, with the download in place *)
(* ===================================================================== *)

Module InputFacts.

Import SkyDB SkyDBRaw FileContent DownloadResponse NetFacts SkyDBFacts Traffic.

(** One step of the engine with the download in place, under a portal. *)
Ltac download_step :=
  first
    [ progress cbn [lift bind run result log world settled await await_both sent
                    kinds kind map returned negb fst snd ok throw with_download]
    | progress unfold getFileContent, getFileContentRequest, getSkylinkUrl
    | match goal with
      | |- context [bind (lift ?r) _] => destruct r as [?e|?a] eqn:?
      | |- context [lift ?r] => destruct r as [?e|?a] eqn:?
      | |- context [answer ?portal ?req ?w] =>
          destruct (answer portal req w) as [[?why|?x] ?w] eqn:?
      | |- context [match entry ?se with _ => _ end] => destruct (entry se) as [?found|] eqn:?
      | |- context [match parseSkylink ?s with _ => _ end] =>
          destruct (parseSkylink s) as [?input|] eqn:?
      | |- context [if ?b then _ else _] => destruct b eqn:?
      end ].

Section WithExternals.
Context `{Externals} `{UrlExternals}.

(** What the code throws after a request, on what the portal has
    answered, is no failure of input. *)
Lemma parseDataLink_no_input (data : bytes) (legacy : bool) (e : Error) :
  parseDataLink data legacy = inl e -> input_failure e = false.
Proof.
  unfold parseDataLink.
  destruct (legacy && _); [discriminate|]. destruct (Nat.eqb _ _); [discriminate|].
  intros [= <-]. reflexivity.
Qed.

Lemma getNextRevision_no_input (entry : option RegistryEntry) (e : Error) :
  getNextRevisionFromEntry entry = inl e -> input_failure e = false.
Proof.
  unfold getNextRevisionFromEntry. destruct (_ >? _); [|discriminate].
  intros [= <-]. reflexivity.
Qed.

Lemma skylink_bytes_no_input (name : string) (b : bytes) (n : nat) (e : Error) :
  Validation.validateUint8ArrayLen name (JUint8Array b) "skylink byte array" n = inl e ->
  input_failure e = false.
Proof.
  unfold Validation.validateUint8ArrayLen. simpl.
  destruct (Nat.eqb _ _); [discriminate|]. intros [= <-]. reflexivity.
Qed.

Lemma response_no_input (response : Response) (inputSkylink : string) (e : Error) :
  validateGetFileContentResponse response inputSkylink = inl e -> input_failure e = false.
Proof.
  unfold validateGetFileContentResponse. intros Hr.
  apply ResponseFacts.rethrown_failure in Hr as (cause & _ & ->). reflexivity.
Qed.

Lemma response_null_no_input (response : Response) (e : Error) :
  validateGetFileContentResponse_null response = inl e -> input_failure e = false.
Proof.
  unfold validateGetFileContentResponse_null. intros Hr.
  apply ResponseFacts.rethrown_failure in Hr as (cause & _ & ->). reflexivity.
Qed.

Lemma extracted_no_input (response : AxiosResponse) (e : Error) :
  extracted response = inl e -> input_failure e = false.
Proof.
  unfold extracted. destruct (headers response); [discriminate|].
  intros [= <-]. reflexivity.
Qed.

Lemma typed_array_no_input (buffer : JSValue) (e : Error) :
  new_Uint8Array buffer = inl e -> input_failure e = false.
Proof.
  unfold new_Uint8Array.
  destruct buffer; try discriminate;
    (destruct (Uint8Array_of _); [discriminate|]; intros [= <-]; reflexivity).
Qed.

(** On an invalid input every public operation, with the download in
    place, throws before its first request. *)
Lemma invalid_input_refused (client : SkynetClient) (c : PublicCall) :
  invalid_input c -> exists e, downloading client c = Throw e.
Proof.
  intros Hbad. destruct (invalid_input_throws client c Hbad) as [e He].
  exists e. unfold downloading. rewrite He. reflexivity.
Qed.

Ltac late_failure :=
  intros Hresult Hinput;
  first
    [ discriminate Hresult
    | left; split; reflexivity
    | right; split; reflexivity
    | exfalso; injection Hresult as <-;
      first
        [ discriminate Hinput
        | match goal with
          | Hthrown : parseDataLink _ _ = inl _ |- _ =>
              rewrite (parseDataLink_no_input _ _ _ Hthrown) in Hinput
          | Hthrown : getNextRevisionFromEntry _ = inl _ |- _ =>
              rewrite (getNextRevision_no_input _ _ Hthrown) in Hinput
          | Hthrown : Validation.validateUint8ArrayLen _ _ _ _ = inl _ |- _ =>
              rewrite (skylink_bytes_no_input _ _ _ _ Hthrown) in Hinput
          | Hthrown : validateGetFileContentResponse _ _ = inl _ |- _ =>
              rewrite (response_no_input _ _ _ Hthrown) in Hinput
          | Hthrown : validateGetFileContentResponse_null _ = inl _ |- _ =>
              rewrite (response_null_no_input _ _ Hthrown) in Hinput
          | Hthrown : extracted _ = inl _ |- _ =>
              rewrite (extracted_no_input _ _ Hthrown) in Hinput
          | Hthrown : new_Uint8Array _ = inl _ |- _ =>
              rewrite (typed_array_no_input _ _ Hthrown) in Hinput
          end; discriminate Hinput ] ].

(** C7 (as amended). For every public operation, with the download of
    download.js in place of the call of [getFileContent]: on an input the
    validation at the head of the operation refuses (an argument of the
    wrong type among those the operation checks, options that are given
    and are no object where the operation validates its options, an
    unrecognized key in the options, entry data of more than 70 bytes) the
    operation fails without sending a registry read, a registry write, an
    upload or a download, and leaves the world as it was.  And a failure
    of input (a validation error on a parameter, an unexpected property of
    options, the error for a path that is no string) is the result only of
    a run that has sent nothing, or, for [getJSON] and [getRawBytes], of a
    run that has sent the registry lookup and asked for the address of the
    portal, and nothing else: the download validates its options there,
    after the registry read and before the request for the file. *)
Theorem validation_precedes_network {W} (portal : Portal W) (client : SkynetClient)
    (c : PublicCall) (w : W) :
  (invalid_input c ->
     exists e,
       result (run portal (downloading client c) w) = inl e /\
       log (run portal (downloading client c) w) = [] /\
       world (run portal (downloading client c) w) = w) /\
  (forall e,
      result (run portal (downloading client c) w) = inl e ->
      input_failure e = true ->
      (log (run portal (downloading client c) w) = [] /\
       world (run portal (downloading client c) w) = w) \/
      (reads_file c = true /\
       kinds (log (run portal (downloading client c) w)) = [Lookup; Resolve])).
Proof.
  split.
  - intros Hbad. destruct (invalid_input_refused client c Hbad) as [e ->].
    exists e. auto.
  - intros e. unfold downloading.
    destruct c; cbn [perform reads_file];
      unfold getJSON, getRawBytes, getEntryData, setJSON, deleteJSON, deleteEntryData,
        setDataLink, setEntryData, getSkyDBRegistryEntry, getOrCreateRegistryEntry,
        getNextRegistryEntry, unwrapJSON;
      repeat download_step; late_failure.
Qed.

End WithExternals.

End InputFacts.

(* ===================================================================== *)
(** * The engine and the validators on the fixture *)
(* ===================================================================== *)

Module Scenarios.

Import Fixture Scenario SkyDB SkyDBRaw Traffic DownloadResponse.

(** After an entry of revision 3, 70 bytes are written at revision 4. *)
Lemma setEntryData_writes_next_revision_witness :
  exists written,
    writes (log (run scripted
                   (setEntryData CLIENT PRIVATE_KEY DATA_KEY (JUint8Array SEVENTY) JUndefined)
                   after_legacy)) = [written] /\
    revision written = 4.
Proof.
  destruct (EngineFacts.setEntryData_writes_next_revision scripted CLIENT PRIVATE_KEY DATA_KEY
              (JUint8Array SEVENTY) JUndefined after_legacy
              (data_only (JUint8Array SEVENTY)))
    as (publicKey & getOpts & prior & w1 & written & setOpts
        & Hans & Hlog & _ & _ & Hrevision & _); [vm_compute; reflexivity|].
  exists written. split; [rewrite Hlog; reflexivity|].
  injection Hans as <- _. exact Hrevision.
Defined.

(** A portal that holds an entry at the last revision: [setJSON] uploads
    and looks up, fails, and writes nothing. *)
Lemma last_revision_is_never_overwritten_witness :
  writes (log (run (holding (signed (Some LAST)) LINK (envelope DOCUMENT))
                 (perform CLIENT (call_setJSON PRIVATE_KEY DATA_KEY DOCUMENT JUndefined)) tt))
  = [] /\
  returned (result (run (holding (signed (Some LAST)) LINK (envelope DOCUMENT))
                      (perform CLIENT (call_setJSON PRIVATE_KEY DATA_KEY DOCUMENT JUndefined))
                      tt)) = false.
Proof.
  destruct (EngineFacts.last_revision_is_never_overwritten
              (holding (signed (Some LAST)) LINK (envelope DOCUMENT)) CLIENT
              (call_setJSON PRIVATE_KEY DATA_KEY DOCUMENT JUndefined) (signed (Some LAST)) LAST tt)
    as [Hwrites Hfails].
  - intros publicKey opts w. reflexivity.
  - reflexivity.
  - vm_compute. discriminate.
  - split; [exact Hwrites | apply Hfails; reflexivity].
Defined.

(** The 70 bytes written are read back. *)
Lemma setEntryData_then_getEntryData_witness :
  result (run scripted (getEntryData CLIENT PUBLIC_KEY DATA_KEY JUndefined)
            [entry_reply (inr (signed (Some NEXT)))])
  = ok (data_only (JUint8Array SEVENTY)).
Proof.
  destruct (EngineFacts.setEntryData_then_getEntryData scripted CLIENT PRIVATE_KEY DATA_KEY
              (JUint8Array SEVENTY) JUndefined after_legacy
              (data_only (JUint8Array SEVENTY)))
    as (written & Hlog & _ & Hread); [vm_compute; reflexivity|].
  vm_compute in Hlog. injection Hlog as <-.
  rewrite (Hread CLIENT PUBLIC_KEY JUndefined (Some (repeat 3 64))
             [entry_reply (inr (signed (Some NEXT)))] []).
  - reflexivity.
  - vm_compute. reflexivity.
  - vm_compute. reflexivity.
  - reflexivity.
Defined.

(** The entry is deleted, and [getJSON] then reads [null]. *)
Lemma delete_then_read_witness :
  result (run scripted (getJSON CLIENT PUBLIC_KEY DATA_KEY JUndefined)
            [entry_reply (inr (signed (Some SENTINEL)));
             content_reply (inr (envelope DOCUMENT))])
  = ok (data_and_link JNull JNull).
Proof.
  destruct (EngineFacts.delete_then_read scripted CLIENT
              (call_deleteEntryData PRIVATE_KEY DATA_KEY JUndefined)
              PRIVATE_KEY DATA_KEY JUndefined after_legacy JUndefined)
    as (_ & written & Hlog & _ & _ & Hread);
    [right; reflexivity | vm_compute; reflexivity |].
  vm_compute in Hlog. injection Hlog as <-.
  change (getJSON CLIENT PUBLIC_KEY DATA_KEY JUndefined)
    with (read read_JSON CLIENT PUBLIC_KEY DATA_KEY JUndefined).
  rewrite (Hread eq_refl read_JSON CLIENT PUBLIC_KEY JUndefined (Some (repeat 3 64))
             [entry_reply (inr (signed (Some SENTINEL)));
              content_reply (inr (envelope DOCUMENT))]
             [content_reply (inr (envelope DOCUMENT))]).
  - reflexivity.
  - repeat split; vm_compute; reflexivity.
  - reflexivity.
Defined.

(** The data link [DATA_LINK] is written as its 34 bytes. *)
Lemma setDataLink_writes_decoded_link_witness :
  exists written,
    writes (log (run scripted
                   (setDataLink CLIENT PRIVATE_KEY DATA_KEY (JString DATA_LINK) JUndefined)
                   after_legacy)) = [written] /\
    Net.data written = CONTENT.
Proof.
  destruct (EngineFacts.setDataLink_writes_decoded_link scripted CLIENT PRIVATE_KEY DATA_KEY
              (JString DATA_LINK) JUndefined after_legacy JUndefined)
    as (_ & link & parsedSkylink & written & Hlink & Hparse & Hlog & _ & Hdata);
    [vm_compute; reflexivity|].
  exists written. split; [exact Hlog|].
  injection Hlink as <-. vm_compute in Hparse. injection Hparse as <-.
  rewrite Hdata. vm_compute. reflexivity.
Defined.

(** The document read back is an object, and its link the one
    downloaded. *)
Lemma getJSON_returns_an_object_witness :
  exists data dataLink,
    data_and_link DOCUMENT (JString LINK) = data_and_link data dataLink /\
    typeof data = "object".
Proof.
  destruct (EngineFacts.getJSON_returns_an_object scripted CLIENT PUBLIC_KEY DATA_KEY JUndefined
              (read_script WRITTEN) (data_and_link DOCUMENT (JString LINK)))
    as (data & dataLink & Hvalue & Htype & _); [vm_compute; reflexivity|].
  exists data, dataLink. split; assumption.
Defined.

(** A document stored without an envelope is returned as it is. *)
Lemma getJSON_unwraps_by_fields_witness :
  result (run scripted (getJSON CLIENT PUBLIC_KEY DATA_KEY JUndefined) (found_with DOCUMENT))
  = ok (data_and_link DOCUMENT (JString LINK)).
Proof.
  rewrite (EngineFacts.getJSON_unwraps_by_fields scripted CLIENT PUBLIC_KEY DATA_KEY JUndefined
             (signed (Some WRITTEN)) WRITTEN DATA_LINK LINK DOCUMENT
             (found_with DOCUMENT) [content_reply (inr DOCUMENT)] []).
  - vm_compute. reflexivity.
  - repeat split; vm_compute; reflexivity.
  - reflexivity.
  - reflexivity.
  - vm_compute. discriminate.
  - vm_compute. reflexivity.
  - vm_compute. reflexivity.
  - reflexivity.
  - reflexivity.
  - reflexivity.
Defined.

(** A read that knows the data link of the entry downloads nothing. *)
Lemma current_cached_link_spares_download_witness :
  result (run scripted (getJSON CLIENT PUBLIC_KEY DATA_KEY CACHED) (found_with DOCUMENT))
  = ok (data_and_link JNull (JString LINK)) /\
  fetched (log (run scripted (getJSON CLIENT PUBLIC_KEY DATA_KEY CACHED) (found_with DOCUMENT)))
  = [].
Proof.
  change (getJSON CLIENT PUBLIC_KEY DATA_KEY CACHED)
    with (read read_JSON CLIENT PUBLIC_KEY DATA_KEY CACHED).
  rewrite (EngineFacts.current_cached_link_spares_download scripted read_JSON CLIENT PUBLIC_KEY
             DATA_KEY CACHED (signed (Some WRITTEN)) WRITTEN DATA_LINK LINK
             (found_with DOCUMENT) [content_reply (inr DOCUMENT)]).
  - split; reflexivity.
  - discriminate.
  - repeat split; vm_compute; reflexivity.
  - reflexivity.
  - reflexivity.
  - vm_compute. discriminate.
  - vm_compute. reflexivity.
  - vm_compute. reflexivity.
Defined.

(** The download of [getRawBytes] asks for an array buffer. *)
Lemma getRawBytes_asks_for_bytes_witness :
  exists opts,
    log (run scripted (getRawBytes CLIENT PUBLIC_KEY DATA_KEY JUndefined)
           (found_with (JUint8Array [1; 2; 3])))
    = [sent (lookup read_RawBytes CLIENT PUBLIC_KEY DATA_KEY JUndefined);
       SentDownload LINK opts] /\
    opts !! "responseType" = Some (JString "arraybuffer").
Proof.
  eexists. split; [reflexivity|].
  apply (EngineFacts.getRawBytes_asks_for_bytes scripted CLIENT PUBLIC_KEY DATA_KEY JUndefined
           (found_with (JUint8Array [1; 2; 3])) LINK).
  right. left. reflexivity.
Defined.

(** The file [setJSON] uploads is a JSON file. *)
Lemma setJSON_writes_uploaded_link_witness :
  exists file,
    uploads (log (run scripted (setJSON CLIENT PRIVATE_KEY DATA_KEY DOCUMENT JUndefined)
                    (write_script LINK))) = [file] /\
    type file = "application/json".
Proof.
  destruct (EngineFacts.setJSON_writes_uploaded_link scripted CLIENT PRIVATE_KEY DATA_KEY
              DOCUMENT JUndefined (write_script LINK) (data_and_link DOCUMENT (JString LINK)))
    as (file & uploadOpts & publicKey & getOpts & skylink & prior & w1 & w2 & written & setOpts
        & _ & _ & Hlog & Htype & _); [vm_compute; reflexivity|].
  exists file. split; [rewrite Hlog; reflexivity | exact Htype].
Defined.

(** The response of the portal to the download of a data link passes. *)
Lemma file_content_response_for_data_link_witness :
  validateGetFileContentResponse RESPONSE DATA_LINK = ok tt.
Proof.
  destruct (ResponseFacts.file_content_response_for_data_link RESPONSE DATA_LINK)
    as [Haccepted _]; [reflexivity|].
  apply Haccepted. split; [left; reflexivity|].
  exists HEADERS. split; [reflexivity|].
  split; [eexists; split; [reflexivity | discriminate]|].
  split; [eexists; split; [reflexivity | discriminate]|].
  split; [reflexivity|]. split; [vm_compute; discriminate|].
  split; [eexists; vm_compute; reflexivity | reflexivity].
Defined.

(** ** The input of a caller and the network *)

(** Entry data of 71 bytes: the write fails, nothing is sent and the
    script is as it was. *)
Lemma validation_precedes_network_witness :
  exists e,
    result (run scripted
              (FileContent.downloading CLIENT
                 (call_setEntryData PRIVATE_KEY DATA_KEY (JUint8Array (repeat 5 71)) JUndefined))
              [entry_reply (inr (signed None)); write_reply (inr tt)]) = inl e /\
    log (run scripted
           (FileContent.downloading CLIENT
              (call_setEntryData PRIVATE_KEY DATA_KEY (JUint8Array (repeat 5 71)) JUndefined))
           [entry_reply (inr (signed None)); write_reply (inr tt)]) = [] /\
    world (run scripted
             (FileContent.downloading CLIENT
                (call_setEntryData PRIVATE_KEY DATA_KEY (JUint8Array (repeat 5 71)) JUndefined))
             [entry_reply (inr (signed None)); write_reply (inr tt)])
    = [entry_reply (inr (signed None)); write_reply (inr tt)].
Proof.
  apply (InputFacts.validation_precedes_network scripted CLIENT
           (call_setEntryData PRIVATE_KEY DATA_KEY (JUint8Array (repeat 5 71)) JUndefined)).
  simpl. do 5 right. exists (repeat 5 71). split; [reflexivity|]. vm_compute. lia.
Defined.

(** C7, the claim as it is written, fails.  Options of the wrong type do
    not fail every operation: [deleteJSON] with the number 5 for its
    options looks the entry up and writes the deletion, and [getEntryData]
    with the number 0 for its options reads the entry.  And not every
    failure of input comes before the network: [getJSON] with a path that
    is a number fails with the error for the path once it has read the
    registry and asked for the address of the portal. *)
Lemma wrong_input_reaches_the_network :
  (result (run scripted
             (FileContent.downloading CLIENT (call_deleteJSON PRIVATE_KEY DATA_KEY (JNumber (of_Z 5))))
             [entry_reply (inr (signed None)); write_reply (inr tt)]) = ok JUndefined /\
   kinds (log (run scripted
                 (FileContent.downloading CLIENT (call_deleteJSON PRIVATE_KEY DATA_KEY (JNumber (of_Z 5))))
                 [entry_reply (inr (signed None)); write_reply (inr tt)])) = [Lookup; Write] /\
   writes (log (run scripted
                  (FileContent.downloading CLIENT (call_deleteJSON PRIVATE_KEY DATA_KEY (JNumber (of_Z 5))))
                  [entry_reply (inr (signed None)); write_reply (inr tt)])) = [WRITTEN_EMPTY]) /\
  (result (run scripted
             (FileContent.downloading CLIENT (call_getEntryData PUBLIC_KEY DATA_KEY (JNumber (of_Z 0))))
             [entry_reply (inr (signed (Some WRITTEN)))])
   = ok (data_only (JUint8Array CONTENT)) /\
   kinds (log (run scripted
                 (FileContent.downloading CLIENT (call_getEntryData PUBLIC_KEY DATA_KEY (JNumber (of_Z 0))))
                 [entry_reply (inr (signed (Some WRITTEN)))])) = [Lookup]) /\
  (result (run scripted (FileContent.downloading CLIENT (call_getJSON PUBLIC_KEY DATA_KEY PATH_FIVE))
             download_script) = throw (PathNotString "number") /\
   FileContent.input_failure (PathNotString "number") = true /\
   kinds (log (run scripted (FileContent.downloading CLIENT (call_getJSON PUBLIC_KEY DATA_KEY PATH_FIVE))
                 download_script)) = [Lookup; Resolve]).
Proof. repeat split; vm_compute; reflexivity. Qed.

(** With valid input the same [getJSON] reads the document: the lookup,
    the address of the portal, and the request for the file at the URL of
    the link. *)
Example getJSON_with_the_download_in_place :
  result (run scripted (FileContent.downloading CLIENT (call_getJSON PUBLIC_KEY DATA_KEY JUndefined))
            download_script) = ok (data_and_link DOCUMENT (JString LINK)) /\
  kinds (log (run scripted (FileContent.downloading CLIENT (call_getJSON PUBLIC_KEY DATA_KEY JUndefined))
                download_script)) = [Lookup; Resolve; Http] /\
  (forall config,
      In (SentRequest config)
        (log (run scripted (FileContent.downloading CLIENT (call_getJSON PUBLIC_KEY DATA_KEY JUndefined))
                download_script)) ->
      config !! "url" = Some (JString ("https://siasky.net/" +:+ DATA_LINK)) /\
      config !! "method" = Some (JString "get")).
Proof.
  split; [vm_compute; reflexivity|]. split; [vm_compute; reflexivity|].
  intros config Hin. vm_compute in Hin.
  destruct Hin as [Hin|[Hin|[Hin|[]]]]; try discriminate.
  injection Hin as <-. split; vm_compute; reflexivity.
Qed.

End Scenarios.
